(** * SanchaarBot.AI backend: alert aggregation, adapters and itinerary records

    A shallow embedding of the Python backend (alerts_handler.py,
    api_clients/news_api.py, api_clients/weather_api.py, dynamodb_client.py,
    s3_client.py and itinerary_handler.py) together with the properties
    of its specification.

    Python values are the JSON-shaped values the handlers pass around;
    exceptions, the clock, the random generator, HTTP and AWS calls are
    explicit: every handler is a function from the state of the world to
    a result (a value or a raised exception) and a new state. *)

From Stdlib Require Import ZArith String Ascii List Bool Lia.
From Stdlib Require Import DecimalString.
From Stdlib Require Import Sorting.Sorted Sorting.Permutation.
From Stdlib Require Import Floats.SpecFloat.
From stdpp Require Import gmap strings.

Import ListNotations.
Local Set Warnings "-register-all".
Local Open Scope string_scope.
Local Open Scope Z_scope.

(* ===================================================================== *)
(** * Python strings *)
(* ===================================================================== *)

(** Strings are sequences of characters with code points below 256. *)

Module Str.

(** [str.lower()]: A-Z and the Latin-1 capitals (all of 0xC0-0xDE but the
    multiplication sign 0xD7) move 32 code points up. *)
Definition lower_char (c : ascii) : ascii :=
  let n := N_of_ascii c in
  if ((65 <=? n) && (n <=? 90))%N
     || ((192 <=? n) && (n <=? 222) && negb (n =? 215))%N
  then ascii_of_N (n + 32) else c.

Fixpoint lower (s : string) : string :=
  match s with
  | EmptyString => EmptyString
  | String c t => String (lower_char c) (lower t)
  end.

(** [needle in hay] on two strings. *)
Fixpoint contains (needle hay : string) : bool :=
  String.prefix needle hay
  || match hay with
     | EmptyString => false
     | String _ t => contains needle t
     end.

(** [s.replace(c, by)] for a one-character pattern. *)
Fixpoint replace_char (c : ascii) (by_ : string) (s : string) : string :=
  match s with
  | EmptyString => EmptyString
  | String a t =>
      if Ascii.eqb a c then by_ ++ replace_char c by_ t
      else String a (replace_char c by_ t)
  end.

(** [s[:n]]. *)
Fixpoint take (n : nat) (s : string) : string :=
  match n, s with
  | S k, String a t => String a (take k t)
  | _, _ => EmptyString
  end.

(** [any(word in s for word in words)]. *)
Definition any_in (words : list string) (s : string) : bool :=
  existsb (fun w => contains w s) words.

(** Decimal notation of an integer, as [str(n)] prints it. *)
Definition of_Z (z : Z) : string := NilZero.string_of_int (Z.to_int z).

Definition concat (l : list string) : string := String.concat "" l.

End Str.

(* ===================================================================== *)
(** * Python floats: IEEE 754 binary64 *)
(* ===================================================================== *)

Module F64.

Definition prec : Z := 53.
Definition emax : Z := 1024.

Definition of_Z (z : Z) : spec_float := binary_normalize prec emax z 0 false.
Definition add : spec_float -> spec_float -> spec_float := SFadd prec emax.
Definition mul : spec_float -> spec_float -> spec_float := SFmul prec emax.
Definition div : spec_float -> spec_float -> spec_float := SFdiv prec emax.
Definition ltb : spec_float -> spec_float -> bool := SFltb.
Definition leb : spec_float -> spec_float -> bool := SFleb.

(** An integer as an exact, not yet rounded, operand. *)
Definition exact (z : Z) : spec_float :=
  match z with
  | Z0 => S754_zero false
  | Zpos p => S754_finite false p 0
  | Zneg p => S754_finite true p 0
  end.

(** [a / b] on two Python ints: the correctly rounded quotient. *)
Definition truediv (a b : Z) : spec_float := div (exact a) (exact b).

(** The literal [n/d] written in decimal in the source (0.5, 0.1, ...):
    the double nearest to the rational. *)
Definition lit (n d : Z) : spec_float := truediv n d.

(** [min(a, b)] as the builtin computes it: [b] when [b < a], else [a]. *)
Definition min (a b : spec_float) : spec_float := if ltb b a then b else a.

(** [f"{x:.1f}"]: the exact binary value rounded half-to-even to one
    decimal. *)
Definition format_1f (x : spec_float) : string :=
  match x with
  | S754_zero s => if s then "-0.0" else "0.0"
  | S754_infinity s => if s then "-inf" else "inf"
  | S754_nan => "nan"
  | S754_finite s m e =>
      let n := if 0 <=? e then Zpos m * 2 ^ e * 10 else Zpos m * 10 in
      let d := if 0 <=? e then 1 else 2 ^ (- e) in
      let q := n / d in
      let r := n mod d in
      let k := if 2 * r <? d then q
               else if d <? 2 * r then q + 1
               else if Z.even q then q else q + 1 in
      Str.concat [if s then "-" else ""; Str.of_Z (k / 10); ".";
                  Str.of_Z (k mod 10)]
  end.

End F64.

(* ===================================================================== *)
(** * Python values, exceptions and effects *)
(* ===================================================================== *)

(** The JSON-shaped values of the handlers. A dict keeps its keys in
    insertion order. *)
Inductive pyval : Type :=
| PyNone
| PyBool (b : bool)
| PyInt (z : Z)
| PyFloat (f : spec_float)
| PyStr (s : string)
| PyList (l : list pyval)
| PyDict (d : list (string * pyval)).

Inductive exn : Type :=
| AttributeError | TypeError | ValueError | KeyError | IndexError
| ClientError          (* botocore.exceptions.ClientError *)
| BotoCoreError        (* any other botocore failure (endpoint, credentials) *)
| RequestException     (* requests: transport failure *)
| HTTPError            (* requests: raise_for_status on a 4xx/5xx reply *)
| JSONDecodeError      (* response.json() on a body that is not JSON *)
| OverflowError.       (* datetime arithmetic that leaves the years 1..9999 *)

(** The outcome of running a piece of Python. *)
Inductive Res (A : Type) : Type :=
| Ok (a : A)
| Raise (e : exn).
Arguments Ok {A} a.
Arguments Raise {A} e.

(** A computation over a state [S]: the state is returned also when an
    exception is raised, so that what was mutated before the raise stays
    mutated. *)
Definition M (S A : Type) : Type := S -> Res A * S.

Definition ret {S A} (a : A) : M S A := fun s => (Ok a, s).
Definition raise {S A} (e : exn) : M S A := fun s => (Raise e, s).
Definition bind {S A B} (m : M S A) (k : A -> M S B) : M S B :=
  fun s => match m s with
           | (Ok a, s') => k a s'
           | (Raise e, s') => (Raise e, s')
           end.
(** [try: m  except Exception: h]. *)
Definition try_except {S A} (m : M S A) (h : exn -> M S A) : M S A :=
  fun s => match m s with
           | (Ok a, s') => (Ok a, s')
           | (Raise e, s') => h e s'
           end.
(** [try: m  except ClientError: h]: every other exception propagates. *)
Definition try_except_client {S A} (m : M S A) (h : M S A) : M S A :=
  try_except m (fun e => match e with ClientError => h | _ => raise e end).
Definition lift_res {S A} (r : Res A) : M S A := fun s => (r, s).

Declare Scope py_scope.
Delimit Scope py_scope with py.
Notation "x <- m ;; k" := (bind m (fun x => k))
  (at level 100, m at next level, right associativity) : py_scope.
Notation "m ;;; k" := (bind m (fun _ => k))
  (at level 100, right associativity) : py_scope.
Local Open Scope py_scope.

(** [for x in l: body]. *)
Fixpoint for_each {S A} (l : list A) (body : A -> M S unit) : M S unit :=
  match l with
  | [] => ret tt
  | x :: t => body x ;;; for_each t body
  end.

(** [any(test(x) for x in l)]: stops at the first hit. *)
Fixpoint any_m {S A} (l : list A) (test : A -> M S bool) : M S bool :=
  match l with
  | [] => ret false
  | x :: t => b <- test x ;; if b then ret true else any_m t test
  end.

Module Py.

(** Truth value of a Python object. *)
Definition truthy (v : pyval) : bool :=
  match v with
  | PyNone => false
  | PyBool b => b
  | PyInt z => negb (z =? 0)
  | PyFloat (S754_zero _) => false
  | PyFloat _ => true
  | PyStr s => negb (String.eqb s "")
  | PyList l => match l with [] => false | _ => true end
  | PyDict d => match d with [] => false | _ => true end
  end.

Fixpoint lookup (k : string) (d : list (string * pyval)) : option pyval :=
  match d with
  | [] => None
  | (k', v) :: t => if String.eqb k k' then Some v else lookup k t
  end.

(** [d[k] = v]: an existing key keeps its place, a new one goes last. *)
Fixpoint store (k : string) (v : pyval) (d : list (string * pyval))
  : list (string * pyval) :=
  match d with
  | [] => [(k, v)]
  | (k', v') :: t =>
      if String.eqb k k' then (k, v) :: t else (k', v') :: store k v t
  end.

(** [x.get(k, default)]. *)
Definition get (x : pyval) (k : string) (default : pyval) : Res pyval :=
  match x with
  | PyDict d => Ok (match lookup k d with Some v => v | None => default end)
  | _ => Raise AttributeError
  end.

(** [x[k]] with a string key. *)
Definition item (x : pyval) (k : string) : Res pyval :=
  match x with
  | PyDict d => match lookup k d with Some v => Ok v | None => Raise KeyError end
  | _ => Raise TypeError
  end.

(** [x[k] = v]. *)
Definition setitem (x : pyval) (k : string) (v : pyval) : Res pyval :=
  match x with
  | PyDict d => Ok (PyDict (store k v d))
  | _ => Raise TypeError
  end.

Definition is_str (s : string) (v : pyval) : bool :=
  match v with PyStr s' => String.eqb s s' | _ => false end.

(** [k in x] for a string [k]. *)
Definition contains (k : string) (x : pyval) : Res bool :=
  match x with
  | PyDict d => Ok (match lookup k d with Some _ => true | None => false end)
  | PyList l => Ok (existsb (is_str k) l)
  | PyStr s => Ok (Str.contains k s)
  | _ => Raise TypeError
  end.

(** The items a [for] loop goes through. *)
Definition iter (x : pyval) : Res (list pyval) :=
  match x with
  | PyList l => Ok l
  | PyDict d => Ok (map (fun kv => PyStr (fst kv)) d)
  | PyStr s => Ok (map (fun c => PyStr (String c EmptyString)) (list_ascii_of_string s))
  | _ => Raise TypeError
  end.

(** [x[:n]]. *)
Definition slice_to (n : nat) (x : pyval) : Res pyval :=
  match x with
  | PyList l => Ok (PyList (firstn n l))
  | PyStr s => Ok (PyStr (Str.take n s))
  | _ => Raise TypeError
  end.

(** [l[:n]] for an int [n]: a negative [n] counts from the end. *)
Definition list_slice_to (n : Z) (l : list pyval) : list pyval :=
  if n <? 0 then firstn (length l - Z.to_nat (- n)) l else firstn (Z.to_nat n) l.

(** [x.lower()]. *)
Definition lower (x : pyval) : Res string :=
  match x with
  | PyStr s => Ok (Str.lower s)
  | _ => Raise AttributeError
  end.

(** [x.replace('Z', '+00:00')]. *)
Definition replace_Z (x : pyval) : Res string :=
  match x with
  | PyStr s => Ok (Str.replace_char "Z" "+00:00" s)
  | _ => Raise AttributeError
  end.

End Py.

(* ===================================================================== *)
(** * datetime and timedelta *)
(* ===================================================================== *)

(** A [datetime]: the wall-clock reading in microseconds, and the UTC
    offset (microseconds) when the value is timezone-aware. *)
Record datetime : Type := {
  dt_wall : Z;
  dt_offset : option Z
}.

(** A [timedelta] is a number of microseconds. *)
Definition timedelta : Type := Z.

Module Dt.

Definition us_per_second : Z := 1000000.
Definition us_per_hour : Z := 3600 * us_per_second.
Definition us_per_day : Z := 24 * us_per_hour.

Definition hours (h : Z) : timedelta := h * us_per_hour.
Definition days_delta (d : Z) : timedelta := d * us_per_day.

Definition naive (us : Z) : datetime := {| dt_wall := us; dt_offset := None |}.

(** [a - b]: a naive and an aware value do not subtract. *)
Definition sub (a b : datetime) : Res timedelta :=
  match dt_offset a, dt_offset b with
  | None, None => Ok (dt_wall a - dt_wall b)
  | Some oa, Some ob => Ok ((dt_wall a - oa) - (dt_wall b - ob))
  | _, _ => Raise TypeError
  end.

(** The sum of a datetime and a delta, as a value. The code adds fixed
    deltas of some hours or days to the reading of the clock with it;
    where the delta comes from the caller, [add_checked] is the
    addition. *)
Definition add (a : datetime) (d : timedelta) : datetime :=
  {| dt_wall := dt_wall a + d; dt_offset := dt_offset a |}.

(** The range of [datetime], 0001-01-01T00:00:00 to
    9999-12-31T23:59:59.999999, in microseconds from 1970-01-01. *)
Definition min_us : Z := -62135596800000000.
Definition max_us : Z := 253402300799999999.

(** [timedelta(days=d)]: at most 999999999 days either way. *)
Definition timedelta_days (d : Z) : Res timedelta :=
  if (-999999999 <=? d) && (d <=? 999999999)
  then Ok (days_delta d)
  else Raise OverflowError.

(** [a + delta] and [a - delta]: the result has to be a date of the
    years 1 to 9999. *)
Definition add_checked (a : datetime) (d : timedelta) : Res datetime :=
  if (min_us <=? dt_wall a + d) && (dt_wall a + d <=? max_us)
  then Ok (add a d)
  else Raise OverflowError.

(** [dt.replace(tzinfo=None)]. *)
Definition drop_tz (a : datetime) : datetime := naive (dt_wall a).

(** [delta.days]. *)
Definition days (d : timedelta) : Z := d / us_per_day.

(** [delta.total_seconds()]. *)
Definition total_seconds (d : timedelta) : spec_float :=
  F64.truediv d us_per_second.

End Dt.

(** What the Python runtime and its standard library compute and the
    repository only calls. *)
Record Runtime : Type := {
  (** [datetime.fromisoformat(s)]; [None] stands for [ValueError]. *)
  fromisoformat : string -> option datetime;
  (** [dt.isoformat()]. *)
  isoformat : datetime -> string;
  (** [dt.strftime('%Y-%m-%d')] and [dt.date().isoformat()]. *)
  strftime_ymd : datetime -> string;
  (** [int(dt.timestamp())]. *)
  posix_seconds : datetime -> Z;
  (** [datetime.fromtimestamp(x)], in local time. *)
  fromtimestamp : pyval -> Res datetime;
  (** [str(v)] of a float, a list or a dict inside an f-string. *)
  repr : pyval -> string
}.

(** [f"{v}"]. *)
Definition py_str (rt : Runtime) (v : pyval) : string :=
  match v with
  | PyNone => "None"
  | PyBool b => if b then "True" else "False"
  | PyInt z => Str.of_Z z
  | PyStr s => s
  | _ => repr rt v
  end.

(* ===================================================================== *)
(** * Numbers inside values *)
(* ===================================================================== *)

Module Num.

(** The exact value of a finite number as [m * 2^e]. *)
Definition scaled (v : pyval) : option (Z * Z) :=
  match v with
  | PyInt z => Some (z, 0)
  | PyBool b => Some (if b then 1 else 0, 0)
  | PyFloat (S754_zero _) => Some (0, 0)
  | PyFloat (S754_finite s m e) => Some (if s then Zneg m else Zpos m, e)
  | _ => None
  end.

(** [a < b] on two numbers, compared exactly as Python does between an
    int and a float; strings compare by code points. Comparing anything
    else raises. *)
Definition lt (a b : pyval) : Res bool :=
  match a, b with
  | PyStr x, PyStr y => Ok (String.ltb x y)
  | PyFloat S754_nan, (PyInt _ | PyBool _ | PyFloat _) => Ok false
  | (PyInt _ | PyBool _ | PyFloat _), PyFloat S754_nan => Ok false
  | PyFloat (S754_infinity s), (PyInt _ | PyBool _) => Ok s
  | (PyInt _ | PyBool _), PyFloat (S754_infinity s) => Ok (negb s)
  | PyFloat x, PyFloat y => Ok (F64.ltb x y)
  | _, _ =>
      match scaled a, scaled b with
      | Some (ma, ea), Some (mb, eb) =>
          let e := Z.min ea eb in
          Ok (ma * 2 ^ (ea - e) <? mb * 2 ^ (eb - e))
      | _, _ => Raise TypeError
      end
  end.

(** [min(a, b)] and [max(a, b)]: the first argument wins a tie. *)
Definition min (a b : pyval) : Res pyval :=
  match lt b a with
  | Ok c => Ok (if c then b else a)
  | Raise e => Raise e
  end.

Definition max (a b : pyval) : Res pyval :=
  match lt a b with
  | Ok c => Ok (if c then b else a)
  | Raise e => Raise e
  end.

Definition to_float (v : pyval) : option spec_float :=
  match v with
  | PyInt z => Some (F64.of_Z z)
  | PyBool b => Some (F64.of_Z (if b then 1 else 0))
  | PyFloat f => Some f
  | _ => None
  end.

(** [a + b]. *)
Definition add (a b : pyval) : Res pyval :=
  match a, b with
  | (PyInt _ | PyBool _), (PyInt _ | PyBool _) =>
      match scaled a, scaled b with
      | Some (x, _), Some (y, _) => Ok (PyInt (x + y))
      | _, _ => Raise TypeError
      end
  | PyStr x, PyStr y => Ok (PyStr (x ++ y))
  | PyList x, PyList y => Ok (PyList (x ++ y))
  | _, _ =>
      match to_float a, to_float b with
      | Some x, Some y => Ok (PyFloat (F64.add x y))
      | _, _ => Raise TypeError
      end
  end.

(** [x[0]]. *)
Definition first (x : pyval) : Res pyval :=
  match x with
  | PyList (v :: _) => Ok v
  | PyList [] => Raise IndexError
  | PyStr (String c _) => Ok (PyStr (String c EmptyString))
  | PyStr EmptyString => Raise IndexError
  | PyDict _ => Raise KeyError
  | _ => Raise TypeError
  end.

End Num.

(* ===================================================================== *)
(** * The world outside the process *)
(* ===================================================================== *)

(** What [requests.get] comes back with. *)
Inductive HttpOutcome : Type :=
| HttpFailure                                     (* no reply: the call raises *)
| HttpReply (status : Z) (body : option pyval).   (* [None]: the body is not JSON *)

Inductive AwsOutcome : Type :=
| AwsOk
| AwsClientError
| AwsOtherError.

(** An item of the DynamoDB table TravelItineraries, keyed by UserID. The
    attributes that hold [json.dumps] text are kept as the value that
    [json.loads] reads back. *)
Record Item : Type := {
  UpdatedAt : option string;
  Data : option pyval;
  TTL : option Z;
  CurrentItinerary : option pyval;
  Preferences : option pyval;
  Bookings : option pyval
}.

(** An object of the S3 bucket. *)
Record S3Object : Type := {
  Key : string;
  Size : Z;
  LastModified : datetime;
  Metadata : list (string * string)
}.

(** The API clients read their credentials from the environment once. *)
Record NewsAPI : Type := {
  newsapi_key : pyval;          (* os.environ.get('NEWSAPI_KEY'): a str or None *)
  guardian_api_key : pyval
}.

Record WeatherAPI : Type := {
  openweather_api_key : pyval;
  weatherapi_key : pyval
}.

(** Everything the code does not decide. External events are numbered in
    the order in which the process meets them; [clock], [entropy],
    [http_reply] and [aws_outcome] tell what the event with a given
    number yields. *)
Record Env : Type := {
  runtime : Runtime;
  clock : nat -> Z;               (* datetime.utcnow(), microseconds *)
  entropy : nat -> N;             (* the random generator's next word *)
  http_reply : nat -> HttpOutcome;
  aws_outcome : nat -> AwsOutcome;
  presigned_url : string -> string;
  news_api : NewsAPI;
  weather_api : WeatherAPI
}.

(** The mutable part: how many external events have happened, the
    DynamoDB table and the S3 bucket. *)
Record World : Type := {
  step : nat;
  table : gmap string Item;
  bucket : list S3Object
}.

Definition tick (w : World) : World :=
  {| step := S (step w); table := table w; bucket := bucket w |}.

Definition set_table (t : gmap string Item) (w : World) : World :=
  {| step := step w; table := t; bucket := bucket w |}.

(** A Flask response: [jsonify(body), status]. *)
Record Response : Type := {
  status : Z;
  body : pyval
}.

Definition jsonify (b : list (string * pyval)) : Response :=
  {| status := 200; body := PyDict b |}.
Definition jsonify_code (b : list (string * pyval)) (code : Z) : Response :=
  {| status := code; body := PyDict b |}.

Section Model.

Context (env : Env).

Let rt : Runtime := runtime env.

(* ------------------------------------------------------------------- *)
(** ** Primitive effects *)

(** [datetime.utcnow()]: a naive datetime. *)
Definition utcnow : M World datetime :=
  fun w => (Ok (Dt.naive (clock env (step w))), tick w).

Definition next_word : M World N :=
  fun w => (Ok (entropy env (step w)), tick w).

(** [random.random()]: k / 2^53 with 0 <= k < 2^53. *)
Definition random_random : M World spec_float :=
  k <- next_word ;;
  ret (binary_normalize F64.prec F64.emax (Z.of_N k mod 2 ^ 53) (-53) false).

(** [random.randint(a, b)]. *)
Definition random_randint (a b : Z) : M World Z :=
  k <- next_word ;; ret (a + Z.of_N k mod (b - a + 1)).

(** [random.choice(l)] on a non-empty list. *)
Definition random_choice {A} (l : list A) (default : A) : M World A :=
  k <- next_word ;;
  ret (nth (N.to_nat (k mod N.of_nat (length l))) l default).

(** [random.uniform(a, b)]. *)
Definition random_uniform (a b : Z) : M World spec_float :=
  u <- random_random ;;
  ret (F64.add (F64.of_Z a) (F64.mul (F64.of_Z (b - a)) u)).

(** [requests.get(url, params=...)], then [raise_for_status()] and
    [.json()] are separate steps on the reply. *)
Definition requests_get : M World (Z * option pyval) :=
  fun w => match http_reply env (step w) with
           | HttpFailure => (Raise RequestException, tick w)
           | HttpReply st b => (Ok (st, b), tick w)
           end.

Definition raise_for_status (reply : Z * option pyval) : M World unit :=
  if (400 <=? fst reply) && (fst reply <? 600) then raise HTTPError else ret tt.

Definition response_json (reply : Z * option pyval) : M World pyval :=
  match snd reply with
  | Some v => ret v
  | None => raise JSONDecodeError
  end.

(** One call to an AWS service. *)
Definition aws_call : M World unit :=
  fun w => match aws_outcome env (step w) with
           | AwsOk => (Ok tt, tick w)
           | AwsClientError => (Raise ClientError, tick w)
           | AwsOtherError => (Raise BotoCoreError, tick w)
           end.

(** boto3 checks the type of a string parameter before it sends. *)
Definition string_param (v : pyval) : M World string :=
  match v with
  | PyStr s => ret s
  | _ => raise BotoCoreError
  end.

Definition get_table : M World (gmap string Item) := fun w => (Ok (table w), w).
Definition put_table (t : gmap string Item) : M World unit :=
  fun w => (Ok tt, set_table t w).
Definition get_bucket : M World (list S3Object) := fun w => (Ok (bucket w), w).

Definition fstr (parts : list string) : string := Str.concat parts.

(* ------------------------------------------------------------------- *)
(** ** dynamodb_client.py *)

Definition optional_attr (data : pyval) (k : string) : M World (option pyval) :=
  present <- lift_res (Py.contains k data) ;;
  if present then v <- lift_res (Py.item data k) ;; ret (Some v) else ret None.

(** [DynamoDBClient.save_user_data]: [put_item] replaces the whole item. *)
Definition save_user_data (user_id data : pyval) : M World bool :=
  try_except_client
    (now1 <- utcnow ;;
     let timestamp := isoformat rt now1 in
     now2 <- utcnow ;;
     let ttl := posix_seconds rt now2 + 86400 * 365 in
     itinerary <- optional_attr data "itinerary" ;;
     preferences <- optional_attr data "preferences" ;;
     bookings <- optional_attr data "bookings" ;;
     uid <- string_param user_id ;;
     aws_call ;;;
     t <- get_table ;;
     put_table (<[uid := {| UpdatedAt := Some timestamp;
                            Data := Some data;
                            TTL := Some ttl;
                            CurrentItinerary := itinerary;
                            Preferences := preferences;
                            Bookings := bookings |}]> t) ;;;
     ret true)
    (ret false).

Definition add_if_present (k : string) (o : option pyval)
    (d : list (string * pyval)) : list (string * pyval) :=
  match o with
  | Some v => Py.store k v d
  | None => d
  end.

(** [DynamoDBClient.get_user_data]. *)
Definition get_user_data (user_id : pyval) : M World pyval :=
  try_except_client
    (uid <- string_param user_id ;;
     aws_call ;;;
     t <- get_table ;;
     match t !! uid with
     | Some item =>
         let data :=
           [("user_id", user_id);
            ("updated_at", PyStr (default "" (UpdatedAt item)));
            ("data", default (PyDict []) (Data item))] in
         let data := add_if_present "current_itinerary" (CurrentItinerary item) data in
         let data := add_if_present "preferences" (Preferences item) data in
         let data := add_if_present "bookings" (Bookings item) data in
         ret (PyDict data)
     | None => ret PyNone
     end)
    (ret PyNone).

(** [DynamoDBClient.save_itinerary]: [update_item] sets two attributes
    and creates the item when there is none. *)
Definition save_itinerary (user_id itinerary : pyval) : M World bool :=
  try_except_client
    (now <- utcnow ;;
     let timestamp := isoformat rt now in
     uid <- string_param user_id ;;
     aws_call ;;;
     t <- get_table ;;
     let old := default {| UpdatedAt := None; Data := None; TTL := None;
                           CurrentItinerary := None; Preferences := None;
                           Bookings := None |} (t !! uid) in
     put_table (<[uid := {| UpdatedAt := Some timestamp;
                            Data := Data old;
                            TTL := TTL old;
                            CurrentItinerary := Some itinerary;
                            Preferences := Preferences old;
                            Bookings := Bookings old |}]> t) ;;;
     ret true)
    (ret false).

(** [DynamoDBClient.get_itinerary]. *)
Definition get_itinerary (user_id : pyval) : M World pyval :=
  try_except_client
    (uid <- string_param user_id ;;
     aws_call ;;;
     t <- get_table ;;
     match t !! uid with
     | Some item => ret (default PyNone (CurrentItinerary item))
     | None => ret PyNone
     end)
    (ret PyNone).

(* ------------------------------------------------------------------- *)
(** ** s3_client.py *)

(** [S3Client._classify_document_type]. *)
Definition _classify_document_type (filename : string) : string :=
  let filename_lower := Str.lower filename in
  if Str.any_in ["passport"; "visa"; "id"] filename_lower then "identification"
  else if Str.any_in ["ticket"; "boarding"; "flight"] filename_lower then "flight_document"
  else if Str.any_in ["hotel"; "reservation"; "booking"] filename_lower then "accommodation"
  else if Str.any_in ["insurance"; "policy"] filename_lower then "insurance"
  else if Str.any_in ["itinerary"; "plan"; "schedule"] filename_lower then "itinerary"
  else "other".

(** [S3Client.get_document_url]. *)
Definition get_document_url (key : string) : M World pyval :=
  try_except_client
    (aws_call ;;; ret (PyStr (presigned_url env key)))
    (ret PyNone).

Definition metadata_get (o : S3Object) (k default_ : string) : pyval :=
  match find (fun kv => String.eqb k (fst kv)) (Metadata o) with
  | Some kv => PyStr (snd kv)
  | None => PyStr default_
  end.

Fixpoint describe_objects (objs : list S3Object) : M World (list pyval) :=
  match objs with
  | [] => ret []
  | obj :: rest =>
      aws_call ;;;                              (* head_object *)
      url <- get_document_url (Key obj) ;;
      let doc := PyDict
        [("key", PyStr (Key obj));
         ("filename", metadata_get obj "original_filename" "Unknown");
         ("document_type", metadata_get obj "document_type" "unknown");
         ("size", PyInt (Size obj));
         ("last_modified", PyStr (isoformat rt (LastModified obj)));
         ("upload_timestamp", metadata_get obj "upload_timestamp" "");
         ("download_url", url)] in
      docs <- describe_objects rest ;;
      ret (doc :: docs)
  end.

(** [S3Client.list_user_documents]: one page of at most 1000 keys. *)
Definition list_user_documents (user_id : pyval) : M World (list pyval) :=
  try_except_client
    (let prefix := fstr ["documents/"; py_str rt user_id; "/"] in
     aws_call ;;;                               (* list_objects_v2 *)
     objs <- get_bucket ;;
     describe_objects
       (firstn 1000 (List.filter (fun o => String.prefix prefix (Key o)) objs)))
    (ret []).

(* ------------------------------------------------------------------- *)
(** ** Sorting *)

(** [l.sort(key=..., reverse=True)]: the documented result of the
    builtin, the one descending arrangement that keeps items with equal
    keys in their order. [lt a b] tells whether the key of [a] is below
    the key of [b]. *)
Fixpoint insert_desc {A} (lt : A -> A -> bool) (x : A) (l : list A) : list A :=
  match l with
  | [] => [x]
  | y :: t => if lt x y then y :: insert_desc lt x t else x :: y :: t
  end.

Definition sort_desc {A} (lt : A -> A -> bool) (l : list A) : list A :=
  fold_right (insert_desc lt) [] l.

(* ------------------------------------------------------------------- *)
(** ** api_clients/news_api.py *)

(** [article.get(k, '').lower()]. *)
Definition lower_field {S} (article : pyval) (k : string) : M S string :=
  v <- lift_res (Py.get article k (PyStr "")) ;;
  lift_res (Py.lower v).

(** [NewsAPI._is_travel_relevant]. *)
Definition _is_travel_relevant {S} (article location : pyval) : M S bool :=
  title <- lower_field article "title" ;;
  description <- lower_field article "description" ;;
  location_lower <- lift_res (Py.lower location) ;;
  let location_mentioned :=
    Str.contains location_lower title || Str.contains location_lower description in
  let travel_keywords :=
    ["travel"; "tourism"; "airport"; "flight"; "hotel"; "border";
     "visa"; "embassy"; "security"; "alert"; "warning"; "advisory"] in
  let travel_related :=
    existsb (fun keyword => Str.contains keyword title
                            || Str.contains keyword description) travel_keywords in
  ret (location_mentioned && travel_related).

(** The score of [_calculate_relevance] once the location and the two
    keyword lists have been looked at, before the recency bonus. *)
Definition keyword_score (title description location_lower : string) : spec_float :=
  let score := F64.of_Z 0 in
  let score := if Str.contains location_lower title
               then F64.add score (F64.lit 5 10) else score in
  let score := if Str.contains location_lower description
               then F64.add score (F64.lit 3 10) else score in
  let priority_keywords :=
    ["security alert"; "travel warning"; "embassy"; "border closure"] in
  let score := if existsb (fun keyword => Str.contains keyword title
                                          || Str.contains keyword description)
                          priority_keywords
               then F64.add score (F64.lit 4 10) else score in
  let medium_keywords := ["flight"; "airport"; "hotel"; "tourism"] in
  let score := if existsb (fun keyword => Str.contains keyword title
                                          || Str.contains keyword description)
                          medium_keywords
               then F64.add score (F64.lit 2 10) else score in
  score.

(** The body of the [try] around the recency bonus. *)
Definition with_recency (score : spec_float) (published_at : pyval)
  : M World spec_float :=
  s <- lift_res (Py.replace_Z published_at) ;;
  match fromisoformat rt s with
  | None => raise ValueError
  | Some pub_date =>
      now <- utcnow ;;
      age <- lift_res (Dt.sub now (Dt.drop_tz pub_date)) ;;
      let hours_old := F64.div (Dt.total_seconds age) (F64.of_Z 3600) in
      if F64.ltb hours_old (F64.of_Z 6) then ret (F64.add score (F64.lit 2 10))
      else if F64.ltb hours_old (F64.of_Z 24) then ret (F64.add score (F64.lit 1 10))
      else ret score
  end.

(** [NewsAPI._calculate_relevance]. *)
Definition _calculate_relevance (article location : pyval) : M World spec_float :=
  title <- lower_field article "title" ;;
  description <- lower_field article "description" ;;
  location_lower <- lift_res (Py.lower location) ;;
  let score := keyword_score title description location_lower in
  published_at <- lift_res (Py.get article "publishedAt" (PyStr "")) ;;
  score <- try_except (with_recency score published_at) (fun _ => ret score) ;;
  ret (F64.min score (F64.of_Z 1)).

(** [NewsAPI._categorize_news]. *)
Definition _categorize_news {S} (article : pyval) : M S string :=
  title <- lower_field article "title" ;;
  description <- lower_field article "description" ;;
  let any_word words :=
    existsb (fun word => Str.contains word title || Str.contains word description)
            words in
  ret (if any_word ["security"; "alert"; "warning"; "embassy"] then "security"
       else if any_word ["flight"; "airline"; "airport"] then "transportation"
       else if any_word ["weather"; "storm"; "hurricane"; "flood"] then "weather"
       else if any_word ["hotel"; "accommodation"; "booking"] then "accommodation"
       else if any_word ["tourism"; "attraction"; "festival"] then "tourism"
       else "general").

(** [x.get(k1, {}).get(k2, default)]. *)
Definition get2 {S} (x : pyval) (k1 k2 : string) (default_ : pyval) : M S pyval :=
  inner <- lift_res (Py.get x k1 (PyDict [])) ;;
  lift_res (Py.get inner k2 default_).

(** [v[:200] if v else '']. *)
Definition snippet {S} (v : pyval) : M S pyval :=
  if Py.truthy v then lift_res (Py.slice_to 200 v) else ret (PyStr "").

Definition newsapi_entry (article location : pyval) : M World pyval :=
  title <- lift_res (Py.get article "title" (PyStr "")) ;;
  description <- lift_res (Py.get article "description" (PyStr "")) ;;
  url <- lift_res (Py.get article "url" (PyStr "")) ;;
  source <- get2 article "source" "name" (PyStr "") ;;
  published_at <- lift_res (Py.get article "publishedAt" (PyStr "")) ;;
  author <- lift_res (Py.get article "author" (PyStr "")) ;;
  content <- lift_res (Py.get article "content" (PyStr "")) ;;
  content_snippet <- snippet content ;;
  relevance_score <- _calculate_relevance article location ;;
  category <- _categorize_news article ;;
  ret (PyDict [("title", title); ("description", description); ("url", url);
               ("source", source); ("published_at", published_at);
               ("author", author); ("content_snippet", content_snippet);
               ("relevance_score", PyFloat relevance_score);
               ("category", PyStr category)]).

Fixpoint newsapi_articles (raw : list pyval) (location : pyval)
  : M World (list pyval) :=
  match raw with
  | [] => ret []
  | article :: rest =>
      relevant <- _is_travel_relevant article location ;;
      if relevant : bool
      then (entry <- newsapi_entry article location ;;
            more <- newsapi_articles rest location ;;
            ret (entry :: more))
      else newsapi_articles rest location
  end.

Definition relevance_lt (a b : pyval) : bool :=
  match Py.item a "relevance_score", Py.item b "relevance_score" with
  | Ok (PyFloat x), Ok (PyFloat y) => F64.ltb x y
  | _, _ => false
  end.

(** [NewsAPI._get_newsapi_travel_news]. *)
Definition _get_newsapi_travel_news (location : pyval) (days_back : Z)
  : M World pyval :=
  try_except
    (now1 <- utcnow ;;
     delta <- lift_res (Dt.timedelta_days days_back) ;;
     since <- lift_res (Dt.add_checked now1 (- delta)) ;;
     let from_date := strftime_ymd rt since in
     now2 <- utcnow ;;
     let to_date := strftime_ymd rt now2 in
     reply <- requests_get ;;
     raise_for_status reply ;;;
     data <- response_json reply ;;
     raw <- lift_res (Py.get data "articles" (PyList [])) ;;
     items <- lift_res (Py.iter raw) ;;
     articles <- newsapi_articles items location ;;
     let articles := sort_desc relevance_lt articles in
     now3 <- utcnow ;;
     ret (PyDict
            [("location", location);
             ("articles", PyList (firstn 10 articles));
             ("total_found", PyInt (Z.of_nat (length articles)));
             ("date_range", PyDict [("from", PyStr from_date); ("to", PyStr to_date)]);
             ("timestamp", PyStr (isoformat rt now3));
             ("source", PyStr "newsapi")]))
    (fun _ => ret PyNone).

Definition guardian_entry {S} (article : pyval) : M S pyval :=
  title <- lift_res (Py.get article "webTitle" (PyStr "")) ;;
  description <- get2 article "fields" "standfirst" (PyStr "") ;;
  url <- lift_res (Py.get article "webUrl" (PyStr "")) ;;
  published_at <- lift_res (Py.get article "webPublicationDate" (PyStr "")) ;;
  author <- get2 article "fields" "byline" (PyStr "") ;;
  body_ <- get2 article "fields" "body" (PyStr "") ;;
  content_snippet <-
    (if Py.truthy body_
     then (again <- get2 article "fields" "body" (PyStr "") ;;
           lift_res (Py.slice_to 200 again))
     else ret (PyStr "")) ;;
  ret (PyDict [("title", title); ("description", description); ("url", url);
               ("source", PyStr "The Guardian"); ("published_at", published_at);
               ("author", author); ("content_snippet", content_snippet);
               ("relevance_score", PyFloat (F64.lit 8 10));
               ("category", PyStr "news")]).

Fixpoint map_m {S A B} (f : A -> M S B) (l : list A) : M S (list B) :=
  match l with
  | [] => ret []
  | x :: t => y <- f x ;; ys <- map_m f t ;; ret (y :: ys)
  end.

(** [NewsAPI._get_guardian_travel_news]. *)
Definition _get_guardian_travel_news (location : pyval) (days_back : Z)
  : M World pyval :=
  try_except
    (now1 <- utcnow ;;
     delta <- lift_res (Dt.timedelta_days days_back) ;;
     since <- lift_res (Dt.add_checked now1 (- delta)) ;;
     let from_date := strftime_ymd rt since in
     reply <- requests_get ;;
     raise_for_status reply ;;;
     data <- response_json reply ;;
     raw <- get2 data "response" "results" (PyList []) ;;
     items <- lift_res (Py.iter raw) ;;
     articles <- map_m guardian_entry items ;;
     now2 <- utcnow ;;
     ret (PyDict
            [("location", location);
             ("articles", PyList articles);
             ("total_found", PyInt (Z.of_nat (length articles)));
             ("timestamp", PyStr (isoformat rt now2));
             ("source", PyStr "guardian")]))
    (fun _ => ret PyNone).

(** [NewsAPI._get_mock_travel_news]. *)
Definition _get_mock_travel_news (location : pyval) : M World pyval :=
  let loc := py_str rt location in
  now1 <- utcnow ;;
  now2 <- utcnow ;;
  now3 <- utcnow ;;
  let mock_articles :=
    [PyDict
       [("title", PyStr (fstr ["New Flight Routes to "; loc; " Announced"]));
        ("description", PyStr (fstr ["Major airline announces new direct flights to "; loc;
                                     ", improving connectivity for travelers."]));
        ("url", PyStr "https://example.com/news1");
        ("source", PyStr "Travel Weekly");
        ("published_at", PyStr (isoformat rt (Dt.add now1 (- Dt.hours 2))));
        ("author", PyStr "Jane Smith");
        ("content_snippet", PyStr (fstr ["The new routes to "; loc;
                                         " will begin operating next month..."]));
        ("relevance_score", PyFloat (F64.lit 9 10));
        ("category", PyStr "transportation")];
     PyDict
       [("title", PyStr (fstr ["Tourism in "; loc; " Shows Strong Recovery"]));
        ("description", PyStr (fstr ["Latest statistics show tourism numbers in "; loc;
                                     " are bouncing back."]));
        ("url", PyStr "https://example.com/news2");
        ("source", PyStr "Tourism Today");
        ("published_at", PyStr (isoformat rt (Dt.add now2 (- Dt.hours 6))));
        ("author", PyStr "Mike Johnson");
        ("content_snippet", PyStr (fstr ["Visitor arrivals to "; loc;
                                         " have increased by 25% compared to..."]));
        ("relevance_score", PyFloat (F64.lit 7 10));
        ("category", PyStr "tourism")];
     PyDict
       [("title", PyStr (fstr ["Weather Alert: Heavy Rain Expected in "; loc]));
        ("description", PyStr (fstr ["Meteorologists warn of heavy rainfall in "; loc;
                                     " region this week."]));
        ("url", PyStr "https://example.com/news3");
        ("source", PyStr "Weather Central");
        ("published_at", PyStr (isoformat rt (Dt.add now3 (- Dt.hours 1))));
        ("author", PyStr "Sarah Weather");
        ("content_snippet", PyStr (fstr ["Heavy rain is expected to affect "; loc;
                                         " starting tomorrow..."]));
        ("relevance_score", PyFloat (F64.lit 8 10));
        ("category", PyStr "weather")]] in
  now4 <- utcnow ;;
  ret (PyDict
         [("location", location);
          ("articles", PyList mock_articles);
          ("total_found", PyInt (Z.of_nat (length mock_articles)));
          ("timestamp", PyStr (isoformat rt now4));
          ("source", PyStr "mock")]).

(** [NewsAPI.get_travel_news]. *)
Definition get_travel_news (location : pyval) (days_back : Z) : M World pyval :=
  try_except
    (if Py.truthy (newsapi_key (news_api env))
     then _get_newsapi_travel_news location days_back
     else if Py.truthy (guardian_api_key (news_api env))
     then _get_guardian_travel_news location days_back
     else _get_mock_travel_news location)
    (fun _ => _get_mock_travel_news location).

(* ------------------------------------------------------------------- *)
(** ** api_clients/weather_api.py *)

(** [forecast.get('weather', [{}])[0].get(k, '')]. *)
Definition weather0 {S} (forecast : pyval) (k : string) : M S pyval :=
  ws <- lift_res (Py.get forecast "weather" (PyList [PyDict []])) ;;
  w0 <- lift_res (Num.first ws) ;;
  lift_res (Py.get w0 k (PyStr "")).

(** The dict a 3-hour forecast opens a new day with. *)
Definition openweather_day {S} (forecast : pyval) (date : string) : M S pyval :=
  tmin <- get2 forecast "main" "temp_min" (PyInt 0) ;;
  tmax <- get2 forecast "main" "temp_max" (PyInt 0) ;;
  tavg <- get2 forecast "main" "temp" (PyInt 0) ;;
  description <- weather0 forecast "description" ;;
  icon <- weather0 forecast "icon" ;;
  humidity <- get2 forecast "main" "humidity" (PyInt 0) ;;
  wind_speed <- get2 forecast "wind" "speed" (PyInt 0) ;;
  rain <- get2 forecast "rain" "3h" (PyInt 0) ;;
  snow <- get2 forecast "snow" "3h" (PyInt 0) ;;
  precipitation <- lift_res (Num.add rain snow) ;;
  ret (PyDict
         [("date", PyStr date);
          ("temperature", PyDict [("min", tmin); ("max", tmax); ("avg", tavg)]);
          ("conditions", PyDict [("description", description); ("icon", icon)]);
          ("humidity", humidity);
          ("wind_speed", wind_speed);
          ("precipitation", precipitation)]).

(** [current_day['temperature']['min'] = min(..., temp)] and the same
    for the maximum. *)
Definition widen_day {S} (current_day temp : pyval) : M S pyval :=
  t <- lift_res (Py.item current_day "temperature") ;;
  lo <- lift_res (Py.item t "min") ;;
  lo' <- lift_res (Num.min lo temp) ;;
  t <- lift_res (Py.setitem t "min" lo') ;;
  hi <- lift_res (Py.item t "max") ;;
  hi' <- lift_res (Num.max hi temp) ;;
  t <- lift_res (Py.setitem t "max" hi') ;;
  lift_res (Py.setitem current_day "temperature" t).

(** The loop that groups the 3-hour forecasts by local date; the state is
    (daily_forecasts, current_date, current_day). *)
Fixpoint group_by_day {S} (items : list pyval) (daily_forecasts : list pyval)
    (current_date : option Z) (current_day : option pyval)
  : M S (list pyval * option pyval) :=
  match items with
  | [] => ret (daily_forecasts, current_day)
  | forecast :: rest =>
      dt <- lift_res (Py.get forecast "dt" (PyInt 0)) ;;
      stamp <- lift_res (fromtimestamp rt dt) ;;
      let forecast_date := Dt.days (dt_wall stamp) in
      if match current_date with
         | Some d => negb (d =? forecast_date)
         | None => true
         end
      then
        let daily_forecasts :=
          match current_day with
          | Some day => if Py.truthy day then (daily_forecasts ++ [day])%list else daily_forecasts
          | None => daily_forecasts
          end in
        day <- openweather_day forecast (strftime_ymd rt stamp) ;;
        group_by_day rest daily_forecasts (Some forecast_date) (Some day)
      else
        temp <- get2 forecast "main" "temp" (PyInt 0) ;;
        day <- match current_day with
               | Some day => widen_day day temp
               | None => raise TypeError
               end ;;
        group_by_day rest daily_forecasts current_date (Some day)
  end.

Definition coordinates {S} (place : pyval) (klat klon : string) : M S pyval :=
  lat <- lift_res (Py.get place klat (PyInt 0)) ;;
  lon <- lift_res (Py.get place klon (PyInt 0)) ;;
  ret (PyDict [("latitude", lat); ("longitude", lon)]).

(** [WeatherAPI._get_openweather_forecast]. *)
Definition _get_openweather_forecast (location : pyval) (days : Z) : M World pyval :=
  try_except
    (reply <- requests_get ;;
     raise_for_status reply ;;;
     data <- response_json reply ;;
     raw <- lift_res (Py.get data "list" (PyList [])) ;;
     items <- lift_res (Py.iter raw) ;;
     grouped <- group_by_day items [] None None ;;
     let daily_forecasts :=
       match snd grouped with
       | Some day => if Py.truthy day then (fst grouped ++ [day])%list else fst grouped
       | None => fst grouped
       end in
     name <- get2 data "city" "name" location ;;
     country <- get2 data "city" "country" (PyStr "") ;;
     city <- lift_res (Py.get data "city" (PyDict [])) ;;
     coord <- lift_res (Py.get city "coord" (PyDict [])) ;;
     coords <- coordinates coord "lat" "lon" ;;
     now <- utcnow ;;
     ret (PyDict
            [("location", PyDict [("name", name); ("country", country);
                                  ("coordinates", coords)]);
             ("forecast", PyList (Py.list_slice_to days daily_forecasts));
             ("timestamp", PyStr (isoformat rt now));
             ("source", PyStr "openweathermap")]))
    (fun _ => ret PyNone).

Definition weatherapi_day {S} (day : pyval) : M S pyval :=
  day_data <- lift_res (Py.get day "day" (PyDict [])) ;;
  date <- lift_res (Py.get day "date" (PyStr "")) ;;
  tmin <- lift_res (Py.get day_data "mintemp_c" (PyInt 0)) ;;
  tmax <- lift_res (Py.get day_data "maxtemp_c" (PyInt 0)) ;;
  tavg <- lift_res (Py.get day_data "avgtemp_c" (PyInt 0)) ;;
  description <- get2 day_data "condition" "text" (PyStr "") ;;
  icon <- get2 day_data "condition" "icon" (PyStr "") ;;
  humidity <- lift_res (Py.get day_data "avghumidity" (PyInt 0)) ;;
  wind_speed <- lift_res (Py.get day_data "maxwind_kph" (PyInt 0)) ;;
  precipitation <- lift_res (Py.get day_data "totalprecip_mm" (PyInt 0)) ;;
  uv_index <- lift_res (Py.get day_data "uv" (PyInt 0)) ;;
  ret (PyDict
         [("date", date);
          ("temperature", PyDict [("min", tmin); ("max", tmax); ("avg", tavg)]);
          ("conditions", PyDict [("description", description); ("icon", icon)]);
          ("humidity", humidity);
          ("wind_speed", wind_speed);
          ("precipitation", precipitation);
          ("uv_index", uv_index)]).

(** [WeatherAPI._get_weatherapi_forecast]. *)
Definition _get_weatherapi_forecast (location : pyval) (days : Z) : M World pyval :=
  try_except
    (reply <- requests_get ;;
     raise_for_status reply ;;;
     data <- response_json reply ;;
     location_data <- lift_res (Py.get data "location" (PyDict [])) ;;
     forecast_data <- get2 data "forecast" "forecastday" (PyList []) ;;
     items <- lift_res (Py.iter forecast_data) ;;
     daily_forecasts <- map_m weatherapi_day items ;;
     name <- lift_res (Py.get location_data "name" location) ;;
     country <- lift_res (Py.get location_data "country" (PyStr "")) ;;
     coords <- coordinates location_data "lat" "lon" ;;
     alerts <- get2 data "alerts" "alert" (PyList []) ;;
     now <- utcnow ;;
     ret (PyDict
            [("location", PyDict [("name", name); ("country", country);
                                  ("coordinates", coords)]);
             ("forecast", PyList daily_forecasts);
             ("alerts", alerts);
             ("timestamp", PyStr (isoformat rt now));
             ("source", PyStr "weatherapi")]))
    (fun _ => ret PyNone).

Definition mock_conditions : list string :=
  ["Clear"; "Partly Cloudy"; "Cloudy"; "Light Rain";
   "Heavy Rain"; "Sunny"; "Overcast"; "Thunderstorm"].

Definition mock_day (i : Z) : M World pyval :=
  now <- utcnow ;;
  delta <- lift_res (Dt.timedelta_days i) ;;
  forecast_date <- lift_res (Dt.add_checked now delta) ;;
  tmin <- random_randint 5 20 ;;
  tmax <- random_randint 20 35 ;;
  tavg <- random_randint 10 28 ;;
  description <- random_choice mock_conditions "" ;;
  icon <- random_choice ["01d"; "02d"; "03d"; "04d"; "09d"; "10d"; "11d"] "" ;;
  humidity <- random_randint 40 85 ;;
  wind_speed <- random_randint 5 20 ;;
  precipitation <- random_uniform 0 10 ;;
  uv_index <- random_randint 1 10 ;;
  ret (PyDict
         [("date", PyStr (strftime_ymd rt forecast_date));
          ("temperature", PyDict [("min", PyInt tmin); ("max", PyInt tmax);
                                  ("avg", PyInt tavg)]);
          ("conditions", PyDict [("description", PyStr description);
                                 ("icon", PyStr icon)]);
          ("humidity", PyInt humidity);
          ("wind_speed", PyInt wind_speed);
          ("precipitation", PyFloat precipitation);
          ("uv_index", PyInt uv_index)]).

(** [range(n)]. *)
Definition range (n : Z) : list Z := map Z.of_nat (seq 0 (Z.to_nat n)).

(** [WeatherAPI._get_mock_forecast]. *)
Definition _get_mock_forecast (location : pyval) (days : Z) : M World pyval :=
  daily_forecasts <- map_m mock_day (range days) ;;
  latitude <- random_uniform (-90) 90 ;;
  longitude <- random_uniform (-180) 180 ;;
  now <- utcnow ;;
  ret (PyDict
         [("location", PyDict [("name", location); ("country", PyStr "Unknown");
                               ("coordinates",
                                 PyDict [("latitude", PyFloat latitude);
                                         ("longitude", PyFloat longitude)])]);
          ("forecast", PyList daily_forecasts);
          ("alerts", PyList []);
          ("timestamp", PyStr (isoformat rt now));
          ("source", PyStr "mock")]).

(** [WeatherAPI.get_forecast]. *)
Definition get_forecast (location : pyval) (days : Z) : M World pyval :=
  try_except
    (if Py.truthy (openweather_api_key (weather_api env))
     then _get_openweather_forecast location days
     else if Py.truthy (weatherapi_key (weather_api env))
     then _get_weatherapi_forecast location days
     else _get_mock_forecast location days)
    (fun _ => _get_mock_forecast location days).

(* ------------------------------------------------------------------- *)
(** ** lambda_functions/alerts_handler.py: the four evaluators *)

(** An evaluator runs over the world and its local list [alerts]; what
    was appended stays appended when an exception ends the loop. *)
Definition EvalState : Type := World * list pyval.

Definition liftW {A} (m : M World A) : M EvalState A :=
  fun s => let (r, w) := m (fst s) in (r, (w, snd s)).

(** [alerts.append(a)]. *)
Definition emit (a : pyval) : M EvalState unit :=
  fun s => (Ok tt, (fst s, (snd s ++ [a])%list)).

(** [alerts = []; try: m  except Exception: log;  return alerts]. *)
Definition run_evaluator (m : M EvalState unit) : M World (list pyval) :=
  fun w => let (_, s) := m (w, []) in (Ok (snd s), fst s).

(** The [try] around the parse of the departure date. *)
Definition parse_iso {S} (v : pyval) : M S (option datetime) :=
  try_except
    (s <- lift_res (Py.replace_Z v) ;;
     match fromisoformat rt s with
     | Some d => ret (Some d)
     | None => raise ValueError
     end)
    (fun _ => ret None).

(** The body of the loop of [check_flight_alerts]. *)
Definition flight_booking_alerts (booking : pyval) : M EvalState unit :=
  type <- lift_res (Py.get booking "type" PyNone) ;;
  status_ <- lift_res (Py.get booking "status" PyNone) ;;
  if negb (Py.is_str "flight" type) || negb (Py.is_str "confirmed" status_)
  then ret tt
  else
    flight_details <- lift_res (Py.get booking "details" (PyDict [])) ;;
    departure_date <- lift_res (Py.get flight_details "departure_date" PyNone) ;;
    if negb (Py.truthy departure_date) then ret tt
    else
      parsed <- parse_iso departure_date ;;
      match parsed with
      | None => ret tt
      | Some dept_datetime =>
          now <- liftW utcnow ;;
          time_diff <- lift_res (Dt.sub dept_datetime now) ;;
          (if (Dt.hours 22 <=? time_diff) && (time_diff <=? Dt.hours 24)
           then
             flight_number <- lift_res (Py.get flight_details "flight_number" (PyStr "N/A")) ;;
             booking_id <- lift_res (Py.get booking "booking_id" PyNone) ;;
             emit (PyDict
                     [("type", PyStr "flight_checkin_reminder");
                      ("priority", PyInt 3);
                      ("title", PyStr "Flight Check-in Available");
                      ("message", PyStr (fstr ["Check-in is now available for your flight ";
                                               py_str rt flight_number]));
                      ("booking_id", booking_id);
                      ("action_required", PyBool true);
                      ("created_at", PyStr (isoformat rt now))])
           else if (Dt.hours 2 <=? time_diff) && (time_diff <=? Dt.hours 3)
           then
             flight_number <- lift_res (Py.get flight_details "flight_number" (PyStr "N/A")) ;;
             booking_id <- lift_res (Py.get booking "booking_id" PyNone) ;;
             emit (PyDict
                     [("type", PyStr "departure_reminder");
                      ("priority", PyInt 4);
                      ("title", PyStr "Upcoming Flight Departure");
                      ("message",
                        PyStr (fstr ["Your flight "; py_str rt flight_number;
                                     " departs in approximately ";
                                     F64.format_1f
                                       (F64.div (Dt.total_seconds time_diff)
                                                (F64.of_Z 3600));
                                     " hours"]));
                      ("booking_id", booking_id);
                      ("action_required", PyBool false);
                      ("created_at", PyStr (isoformat rt now))])
           else ret tt) ;;;
          (if (time_diff <=? Dt.hours 6) && (Dt.hours 0 <=? time_diff)
           then
             draw <- liftW random_random ;;
             if F64.ltb draw (F64.lit 1 10)
             then
               flight_number <- lift_res (Py.get flight_details "flight_number" (PyStr "N/A")) ;;
               gate <- liftW (random_choice ["A12"; "B23"; "C34"; "D45"] "") ;;
               booking_id <- lift_res (Py.get booking "booking_id" PyNone) ;;
               emit (PyDict
                       [("type", PyStr "gate_change");
                        ("priority", PyInt 5);
                        ("title", PyStr "Gate Change Alert");
                        ("message", PyStr (fstr ["Gate change for flight ";
                                                 py_str rt flight_number;
                                                 ". New gate: "; gate]));
                        ("booking_id", booking_id);
                        ("action_required", PyBool true);
                        ("created_at", PyStr (isoformat rt now))])
             else ret tt
           else ret tt)
      end.

(** [check_flight_alerts]. *)
Definition check_flight_alerts (bookings : pyval) : M World (list pyval) :=
  run_evaluator
    (items <- lift_res (Py.iter bookings) ;;
     for_each items flight_booking_alerts).

(** The body of the inner loop of [check_weather_alerts]: one forecast
    day of one destination. *)
Definition weather_day_alerts (location day_forecast : pyval) : M EvalState unit :=
  forecast_date <- lift_res (Py.get day_forecast "date" PyNone) ;;
  conditions <- lift_res (Py.get day_forecast "conditions" (PyDict [])) ;;
  description <- lift_res (Py.get conditions "description" (PyStr "")) ;;
  lowered <- lift_res (Py.lower description) ;;
  if Str.any_in ["storm"; "hurricane"; "blizzard"; "flood"] lowered
  then
    shown <- lift_res (Py.get conditions "description" (PyStr "N/A")) ;;
    now <- liftW utcnow ;;
    emit (PyDict
            [("type", PyStr "severe_weather");
             ("priority", PyInt 4);
             ("title", PyStr (fstr ["Severe Weather Alert - "; py_str rt location]));
             ("message", PyStr (fstr ["Severe weather expected in "; py_str rt location;
                                      " on "; py_str rt forecast_date; ": ";
                                      py_str rt shown]));
             ("location", location);
             ("date", forecast_date);
             ("action_required", PyBool true);
             ("created_at", PyStr (isoformat rt now))])
  else if Str.any_in ["heavy rain"; "heavy snow"; "fog"] lowered
  then
    shown <- lift_res (Py.get conditions "description" (PyStr "N/A")) ;;
    now <- liftW utcnow ;;
    emit (PyDict
            [("type", PyStr "weather_advisory");
             ("priority", PyInt 2);
             ("title", PyStr (fstr ["Weather Advisory - "; py_str rt location]));
             ("message", PyStr (fstr ["Weather conditions may affect travel in ";
                                      py_str rt location; " on ";
                                      py_str rt forecast_date; ": ";
                                      py_str rt shown]));
             ("location", location);
             ("date", forecast_date);
             ("action_required", PyBool false);
             ("created_at", PyStr (isoformat rt now))])
  else ret tt.

Definition weather_destination_alerts (destination : pyval) : M EvalState unit :=
  location <- lift_res (Py.get destination "location" PyNone) ;;
  arrival_date <- lift_res (Py.get destination "arrival_date" PyNone) ;;
  if negb (Py.truthy location) || negb (Py.truthy arrival_date) then ret tt
  else
    weather_data <- liftW (get_forecast location 5) ;;
    if negb (Py.truthy weather_data) then ret tt
    else
      forecast <- lift_res (Py.get weather_data "forecast" (PyList [])) ;;
      days <- lift_res (Py.iter forecast) ;;
      for_each days (weather_day_alerts location).

(** [check_weather_alerts]. *)
Definition check_weather_alerts (itinerary : pyval) : M World (list pyval) :=
  run_evaluator
    (destinations <- lift_res (Py.get itinerary "destinations" (PyList [])) ;;
     items <- lift_res (Py.iter destinations) ;;
     for_each items weather_destination_alerts).

Definition travel_keywords : list string :=
  ["travel advisory"; "border closure"; "flight cancellation";
   "embassy"; "security alert"; "strike"; "protest";
   "visa requirement"; "entry restriction"].

Definition news_article_alerts (location country article : pyval)
  : M EvalState unit :=
  title <- lift_res (Py.get article "title" (PyStr "")) ;;
  description <- lift_res (Py.get article "description" (PyStr "")) ;;
  hit <- any_m travel_keywords
           (fun keyword =>
              t <- lift_res (Py.lower title) ;;
              if Str.contains keyword t then ret true
              else (d <- lift_res (Py.lower description) ;;
                    ret (Str.contains keyword d))) ;;
  if hit : bool
  then
    head <- lift_res (Py.slice_to 100 title) ;;
    source <- lift_res (Py.get article "source" (PyStr "Unknown")) ;;
    url <- lift_res (Py.get article "url" (PyStr "")) ;;
    now <- liftW utcnow ;;
    emit (PyDict
            [("type", PyStr "travel_advisory");
             ("priority", PyInt 3);
             ("title", PyStr (fstr ["Travel Advisory - "; py_str rt country]));
             ("message", PyStr (fstr ["Travel news for "; py_str rt country; ": ";
                                      py_str rt head; "..."]));
             ("location", location);
             ("country", country);
             ("source", source);
             ("url", url);
             ("action_required", PyBool true);
             ("created_at", PyStr (isoformat rt now))])
  else ret tt.

Definition news_destination_alerts (destination : pyval) : M EvalState unit :=
  location <- lift_res (Py.get destination "location" PyNone) ;;
  country <- lift_res (Py.get destination "country" location) ;;
  if negb (Py.truthy location) then ret tt
  else
    news_data <- liftW (get_travel_news country 7) ;;
    if negb (Py.truthy news_data) then ret tt
    else
      articles <- lift_res (Py.get news_data "articles" (PyList [])) ;;
      top <- lift_res (Py.slice_to 3 articles) ;;
      items <- lift_res (Py.iter top) ;;
      for_each items (news_article_alerts location country).

(** [check_news_alerts]. *)
Definition check_news_alerts (itinerary : pyval) : M World (list pyval) :=
  run_evaluator
    (destinations <- lift_res (Py.get itinerary "destinations" (PyList [])) ;;
     items <- lift_res (Py.iter destinations) ;;
     for_each items news_destination_alerts).

Definition document_alerts (doc : pyval) : M EvalState unit :=
  doc_type <- lift_res (Py.get doc "document_type" (PyStr "")) ;;
  if Py.is_str "identification" doc_type
  then
    filename <- lift_res (Py.get doc "filename" (PyStr "")) ;;
    lowered <- lift_res (Py.lower filename) ;;
    if Str.contains "passport" lowered
    then
      draw <- liftW random_random ;;
      if F64.ltb draw (F64.lit 2 10)
      then
        document <- lift_res (Py.get doc "filename" PyNone) ;;
        now <- liftW utcnow ;;
        emit (PyDict
                [("type", PyStr "document_expiry");
                 ("priority", PyInt 4);
                 ("title", PyStr "Passport Expiry Warning");
                 ("message", PyStr "Your passport may expire soon. Please verify the expiry date and renew if necessary.");
                 ("document", document);
                 ("action_required", PyBool true);
                 ("created_at", PyStr (isoformat rt now))])
      else ret tt
    else ret tt
  else ret tt.

(** [check_document_alerts]. *)
Definition check_document_alerts (user_id : pyval) : M World (list pyval) :=
  run_evaluator
    (documents <- liftW (list_user_documents user_id) ;;
     for_each documents document_alerts).

(* ------------------------------------------------------------------- *)
(** ** lambda_functions/alerts_handler.py: the aggregator *)

(** [x.get('priority', 0)], the sort key. Every alert the evaluators
    build carries an int; a key that is no int is taken to fail the
    comparison. *)
Definition priority_key (x : pyval) : Res Z :=
  match Py.get x "priority" (PyInt 0) with
  | Ok (PyInt p) => Ok p
  | Ok (PyBool b) => Ok (if b then 1 else 0)
  | Ok _ => Raise TypeError
  | Raise e => Raise e
  end.

Fixpoint priority_keys (l : list pyval) : Res (list Z) :=
  match l with
  | [] => Ok []
  | x :: t =>
      match priority_key x with
      | Ok k => match priority_keys t with
                | Ok ks => Ok (k :: ks)
                | Raise e => Raise e
                end
      | Raise e => Raise e
      end
  end.

(** [alerts.sort(key=lambda x: x.get('priority', 0), reverse=True)]: the
    keys are computed first, then the pairs are sorted by key. *)
Definition sort_by_priority (alerts : list pyval) : Res (list pyval) :=
  match priority_keys alerts with
  | Ok keys =>
      Ok (map snd (sort_desc (fun a b => fst a <? fst b) (combine keys alerts)))
  | Raise e => Raise e
  end.

(** [handle_alerts]. *)
Definition handle_alerts (user_id : pyval) : M World Response :=
  try_except
    (if negb (Py.truthy user_id)
     then ret (jsonify_code [("error", PyStr "Missing user_id")] 400)
     else
       user_data <- get_user_data user_id ;;
       if negb (Py.truthy user_data)
       then ret (jsonify [("message", PyStr "No user data found");
                          ("alerts", PyList [])])
       else
         let alerts := [] in
         bookings <- lift_res (Py.get user_data "bookings" (PyList [])) ;;
         flight_alerts <- check_flight_alerts bookings ;;
         let alerts := (alerts ++ flight_alerts)%list in
         itinerary <- lift_res (Py.get user_data "current_itinerary" (PyDict [])) ;;
         weather_alerts <- check_weather_alerts itinerary ;;
         let alerts := (alerts ++ weather_alerts)%list in
         itinerary <- lift_res (Py.get user_data "current_itinerary" (PyDict [])) ;;
         news_alerts <- check_news_alerts itinerary ;;
         let alerts := (alerts ++ news_alerts)%list in
         document_alerts <- check_document_alerts user_id ;;
         let alerts := (alerts ++ document_alerts)%list in
         alerts <- lift_res (sort_by_priority alerts) ;;
         now1 <- utcnow ;;
         user_data <- lift_res (Py.setitem user_data "last_alert_check"
                                           (PyStr (isoformat rt now1))) ;;
         user_data <- lift_res (Py.setitem user_data "current_alerts" (PyList alerts)) ;;
         save_user_data user_id user_data ;;;
         now2 <- utcnow ;;
         ret (jsonify [("alerts", PyList alerts);
                       ("count", PyInt (Z.of_nat (length alerts)));
                       ("last_updated", PyStr (isoformat rt now2))]))
    (fun _ => ret (jsonify_code [("error", PyStr "Alert service error")] 500)).

(** [x or {}]. *)
Definition or_empty_dict (x : pyval) : pyval :=
  if Py.truthy x then x else PyDict [].

(** [l.append(v)]. *)
Definition py_append (l v : pyval) : Res pyval :=
  match l with
  | PyList xs => Ok (PyList (xs ++ [v]))
  | _ => Raise AttributeError
  end.

(** [create_custom_alert]. *)
Definition create_custom_alert (data : pyval) : M World Response :=
  try_except
    (user_id <- lift_res (Py.get data "user_id" PyNone) ;;
     alert_data <- lift_res (Py.get data "alert" (PyDict [])) ;;
     if negb (Py.truthy user_id) || negb (Py.truthy alert_data)
     then ret (jsonify_code [("error", PyStr "Missing user_id or alert data")] 400)
     else
       priority <- lift_res (Py.get alert_data "priority" (PyInt 1)) ;;
       title <- lift_res (Py.get alert_data "title" (PyStr "Custom Alert")) ;;
       message <- lift_res (Py.get alert_data "message" (PyStr "")) ;;
       trigger_date <- lift_res (Py.get alert_data "trigger_date" PyNone) ;;
       action_required <- lift_res (Py.get alert_data "action_required" (PyBool false)) ;;
       now <- utcnow ;;
       let custom_alert := PyDict
         [("type", PyStr "custom");
          ("priority", priority);
          ("title", title);
          ("message", message);
          ("trigger_date", trigger_date);
          ("action_required", action_required);
          ("created_at", PyStr (isoformat rt now));
          ("user_created", PyBool true)] in
       stored <- get_user_data user_id ;;
       let user_data := or_empty_dict stored in
       custom_alerts <- lift_res (Py.get user_data "custom_alerts" (PyList [])) ;;
       custom_alerts <- lift_res (py_append custom_alerts custom_alert) ;;
       user_data <- lift_res (Py.setitem user_data "custom_alerts" custom_alerts) ;;
       success <- save_user_data user_id user_data ;;
       if success : bool
       then ret (jsonify [("message", PyStr "Custom alert created successfully");
                          ("alert", custom_alert)])
       else ret (jsonify_code [("error", PyStr "Failed to create alert")] 500))
    (fun _ => ret (jsonify_code [("error", PyStr "Custom alert creation error")] 500)).

(** [dismiss_alert]. *)
Definition dismiss_alert (data : pyval) : M World Response :=
  try_except
    (user_id <- lift_res (Py.get data "user_id" PyNone) ;;
     alert_id <- lift_res (Py.get data "alert_id" PyNone) ;;
     if negb (Py.truthy user_id) || negb (Py.truthy alert_id)
     then ret (jsonify_code [("error", PyStr "Missing user_id or alert_id")] 400)
     else
       user_data <- get_user_data user_id ;;
       if negb (Py.truthy user_data)
       then ret (jsonify_code [("error", PyStr "User data not found")] 404)
       else
         dismissed_alerts <- lift_res (Py.get user_data "dismissed_alerts" (PyList [])) ;;
         now <- utcnow ;;
         dismissed_alerts <-
           lift_res (py_append dismissed_alerts
                       (PyDict [("alert_id", alert_id);
                                ("dismissed_at", PyStr (isoformat rt now))])) ;;
         user_data <- lift_res (Py.setitem user_data "dismissed_alerts" dismissed_alerts) ;;
         success <- save_user_data user_id user_data ;;
         if success : bool
         then ret (jsonify [("message", PyStr "Alert dismissed successfully")])
         else ret (jsonify_code [("error", PyStr "Failed to dismiss alert")] 500))
    (fun _ => ret (jsonify_code [("error", PyStr "Alert dismissal error")] 500)).

(* ------------------------------------------------------------------- *)
(** ** lambda_functions/itinerary_handler.py *)

Definition default_day (destination : pyval) (day_num : Z) : M World pyval :=
  now <- utcnow ;;
  delta <- lift_res (Dt.timedelta_days (day_num - 1)) ;;
  date <- lift_res (Dt.add_checked now delta) ;;
  let dest := py_str rt destination in
  ret (PyDict
         [("day", PyInt day_num);
          ("date", PyStr (strftime_ymd rt date));
          ("title", PyStr (fstr ["Day "; Str.of_Z day_num; " in "; dest]));
          ("activities",
            PyList
              [PyDict [("time", PyStr "09:00");
                       ("title", PyStr "Morning Exploration");
                       ("description", PyStr (fstr ["Explore the highlights of "; dest]));
                       ("location", destination);
                       ("type", PyStr "sightseeing");
                       ("duration", PyStr "3 hours");
                       ("estimated_cost", PyInt 20)];
               PyDict [("time", PyStr "14:00");
                       ("title", PyStr "Afternoon Activities");
                       ("description", PyStr "Cultural activities and local experiences");
                       ("location", destination);
                       ("type", PyStr "culture");
                       ("duration", PyStr "3 hours");
                       ("estimated_cost", PyInt 30)];
               PyDict [("time", PyStr "19:00");
                       ("title", PyStr "Dinner and Evening");
                       ("description", PyStr "Local cuisine and evening entertainment");
                       ("location", destination);
                       ("type", PyStr "dining");
                       ("duration", PyStr "2 hours");
                       ("estimated_cost", PyInt 40)]]);
          ("transportation", PyDict [("type", PyStr "walking/public transport");
                                     ("estimated_cost", PyInt 10)]);
          ("total_estimated_cost", PyInt 100);
          ("notes", PyStr "Flexible timing - adjust based on your preferences")]).

(** [create_default_day_structure]: [range(1, duration + 1)]. *)
Definition create_default_day_structure (duration : Z) (destination : pyval)
  : M World (list pyval) :=
  map_m (default_day destination) (map (fun i => i + 1) (range duration)).

(** [datetime.fromisoformat(v.replace('Z', '+00:00'))], unguarded. *)
Definition parse_date {S} (v : pyval) : M S datetime :=
  s <- lift_res (Py.replace_Z v) ;;
  match fromisoformat rt s with
  | Some d => ret d
  | None => raise ValueError
  end.

(** [(end_date - start_date).days + 1] on the two stored strings. *)
Definition trip_duration {S} (start_field end_field : pyval) : M S Z :=
  start_date <- parse_date start_field ;;
  end_date <- parse_date end_field ;;
  delta <- lift_res (Dt.sub end_date start_date) ;;
  ret (Dt.days delta + 1).

Fixpoint first_missing (fields : list string) (d : pyval) : Res (option string) :=
  match fields with
  | [] => Ok None
  | f :: rest =>
      match Py.contains f d with
      | Ok true => first_missing rest d
      | Ok false => Ok (Some f)
      | Raise e => Raise e
      end
  end.

(** [create_itinerary]. *)
Definition create_itinerary (user_id itinerary_data : pyval) : M World Response :=
  try_except
    (missing <- lift_res (first_missing ["destination"; "start_date"; "end_date"]
                                        itinerary_data) ;;
     match missing with
     | Some field =>
         ret (jsonify_code
                [("error", PyStr (fstr ["Missing required field: "; field]))] 400)
     | None =>
         now0 <- utcnow ;;
         destination <- lift_res (Py.item itinerary_data "destination") ;;
         start_date <- lift_res (Py.item itinerary_data "start_date") ;;
         end_date <- lift_res (Py.item itinerary_data "end_date") ;;
         destination' <- lift_res (Py.item itinerary_data "destination") ;;
         title <- lift_res (Py.get itinerary_data "title"
                              (PyStr (fstr ["Trip to "; py_str rt destination']))) ;;
         description <- lift_res (Py.get itinerary_data "description" (PyStr "")) ;;
         days <- lift_res (Py.get itinerary_data "days" (PyList [])) ;;
         budget <- lift_res (Py.get itinerary_data "budget" (PyDict [])) ;;
         travelers <- lift_res (Py.get itinerary_data "travelers" (PyInt 1)) ;;
         preferences <- lift_res (Py.get itinerary_data "preferences" (PyDict [])) ;;
         now1 <- utcnow ;;
         now2 <- utcnow ;;
         let itinerary :=
           [("id", PyStr (fstr ["itinerary_"; Str.of_Z (posix_seconds rt now0)]));
            ("user_id", user_id);
            ("destination", destination);
            ("start_date", start_date);
            ("end_date", end_date);
            ("title", title);
            ("description", description);
            ("days", days);
            ("budget", budget);
            ("travelers", travelers);
            ("preferences", preferences);
            ("created_at", PyStr (isoformat rt now1));
            ("updated_at", PyStr (isoformat rt now2));
            ("status", PyStr "draft")] in
         duration <- trip_duration start_date end_date ;;
         let itinerary := Py.store "duration_days" (PyInt duration) itinerary in
         itinerary <-
           (if negb (Py.truthy days)
            then (structure <- create_default_day_structure duration destination ;;
                  ret (Py.store "days" (PyList structure) itinerary))
            else ret itinerary) ;;
         success <- save_itinerary user_id (PyDict itinerary) ;;
         if success : bool
         then ret (jsonify [("message", PyStr "Itinerary created successfully");
                            ("itinerary", PyDict itinerary)])
         else ret (jsonify_code [("error", PyStr "Failed to create itinerary")] 500)
     end)
    (fun _ => ret (jsonify_code [("error", PyStr "Itinerary creation error")] 500)).

Definition updatable_fields : list string :=
  ["title"; "description"; "days"; "budget"; "travelers";
   "preferences"; "destination"; "start_date"; "end_date"].

(** [for field in updatable_fields: if field in itinerary_data:
    existing_itinerary[field] = itinerary_data[field]]. *)
Fixpoint copy_fields {S} (fields : list string) (itinerary_data existing : pyval)
  : M S pyval :=
  match fields with
  | [] => ret existing
  | field :: rest =>
      present <- lift_res (Py.contains field itinerary_data) ;;
      if present : bool
      then (v <- lift_res (Py.item itinerary_data field) ;;
            existing <- lift_res (Py.setitem existing field v) ;;
            copy_fields rest itinerary_data existing)
      else copy_fields rest itinerary_data existing
  end.

(** [update_itinerary]. *)
Definition update_itinerary (user_id itinerary_data : pyval) : M World Response :=
  try_except
    (existing_itinerary <- get_itinerary user_id ;;
     if negb (Py.truthy existing_itinerary)
     then ret (jsonify_code [("error", PyStr "Itinerary not found")] 404)
     else
       existing_itinerary <- copy_fields updatable_fields itinerary_data existing_itinerary ;;
       now <- utcnow ;;
       existing_itinerary <-
         lift_res (Py.setitem existing_itinerary "updated_at" (PyStr (isoformat rt now))) ;;
       has_start <- lift_res (Py.contains "start_date" itinerary_data) ;;
       has_end <- (if has_start : bool then ret true
                   else lift_res (Py.contains "end_date" itinerary_data)) ;;
       existing_itinerary <-
         (if has_end : bool
          then (start_field <- lift_res (Py.item existing_itinerary "start_date") ;;
                end_field <- lift_res (Py.item existing_itinerary "end_date") ;;
                duration <- trip_duration start_field end_field ;;
                lift_res (Py.setitem existing_itinerary "duration_days" (PyInt duration)))
          else ret existing_itinerary) ;;
       success <- save_itinerary user_id existing_itinerary ;;
       if success : bool
       then ret (jsonify [("message", PyStr "Itinerary updated successfully");
                          ("itinerary", existing_itinerary)])
       else ret (jsonify_code [("error", PyStr "Failed to update itinerary")] 500))
    (fun _ => ret (jsonify_code [("error", PyStr "Itinerary update error")] 500)).

End Model.

(* ===================================================================== *)
(** * A concrete runtime for the worked examples *)
(* ===================================================================== *)

(** The standard library on the ISO layout
    [YYYY-MM-DD[(T| )HH:MM[:SS]][(+|-)HH:MM]], in a process whose local
    time zone is UTC. Wall-clock readings count microseconds from
    1970-01-01T00:00:00. The other layouts [datetime.fromisoformat]
    reads (fractional seconds, an hour alone, compact dates, an offset
    after a bare date) are not read here: this runtime serves the worked
    inputs, whose timestamps have the layout above, and every general
    statement is about an arbitrary runtime. *)
Module Iso.

Definition digit (c : ascii) : option Z :=
  let n := Z.of_N (N_of_ascii c) in
  if (48 <=? n) && (n <=? 57) then Some (n - 48) else None.

(** Reads exactly [n] decimal digits. *)
Fixpoint number (n : nat) (acc : Z) (s : string) : option (Z * string) :=
  match n with
  | O => Some (acc, s)
  | S k =>
      match s with
      | String c t =>
          match digit c with
          | Some d => number k (10 * acc + d) t
          | None => None
          end
      | EmptyString => None
      end
  end.

Definition expect (c : ascii) (s : string) : option string :=
  match s with
  | String a t => if Ascii.eqb a c then Some t else None
  | EmptyString => None
  end.

Definition is_leap (y : Z) : bool :=
  ((y mod 4 =? 0) && negb (y mod 100 =? 0)) || (y mod 400 =? 0).

Definition days_in_month (y m : Z) : Z :=
  if m =? 2 then (if is_leap y then 29 else 28)
  else if (m =? 4) || (m =? 6) || (m =? 9) || (m =? 11) then 30 else 31.

(** Days from 1970-01-01 to the civil date. *)
Definition days_from_civil (y m d : Z) : Z :=
  let y' := if m <=? 2 then y - 1 else y in
  let era := y' / 400 in
  let yoe := y' - era * 400 in
  let doy := (153 * (if 2 <? m then m - 3 else m + 9) + 2) / 5 + d - 1 in
  let doe := yoe * 365 + yoe / 4 - yoe / 100 + doy in
  era * 146097 + doe - 719468.

(** The civil date [days] after 1970-01-01. *)
Definition civil_from_days (days : Z) : Z * Z * Z :=
  let z := days + 719468 in
  let era := z / 146097 in
  let doe := z - era * 146097 in
  let yoe := (doe - doe / 1460 + doe / 36524 - doe / 146096) / 365 in
  let doy := doe - (365 * yoe + yoe / 4 - yoe / 100) in
  let mp := (5 * doy + 2) / 153 in
  let d := doy - (153 * mp + 2) / 5 + 1 in
  let m := if mp <? 10 then mp + 3 else mp - 9 in
  (if m <=? 2 then yoe + era * 400 + 1 else yoe + era * 400, m, d).

Definition parse_offset (s : string) : option (option Z) :=
  match s with
  | EmptyString => Some None
  | String c t =>
      let sign := if Ascii.eqb c "+" then Some 1
                  else if Ascii.eqb c "-" then Some (-1) else None in
      match sign, number 2 0 t with
      | Some sg, Some (hh, t1) =>
          match expect ":" t1 with
          | Some t2 =>
              match number 2 0 t2 with
              | Some (mm, EmptyString) =>
                  if (hh <? 24) && (mm <? 60)
                  then Some (Some (sg * (hh * 60 + mm) * 60 * Dt.us_per_second))
                  else None
              | _ => None
              end
          | None => None
          end
      | _, _ => None
      end
  end.

Definition parse_time (s : string) : option (Z * option Z) :=
  match number 2 0 s with
  | Some (hh, t1) =>
      match expect ":" t1 with
      | Some t2 =>
          match number 2 0 t2 with
          | Some (mm, t3) =>
              let with_seconds :=
                match expect ":" t3 with
                | Some t4 => number 2 0 t4
                | None => Some (0, t3)
                end in
              match with_seconds with
              | Some (ss, t5) =>
                  match parse_offset t5 with
                  | Some off =>
                      if (hh <? 24) && (mm <? 60) && (ss <? 60)
                      then Some (((hh * 60 + mm) * 60 + ss) * Dt.us_per_second, off)
                      else None
                  | None => None
                  end
              | None => None
              end
          | None => None
          end
      | None => None
      end
  | None => None
  end.

Definition parse (s : string) : option datetime :=
  match number 4 0 s with
  | Some (y, t1) =>
      match expect "-" t1 with
      | Some t2 =>
          match number 2 0 t2 with
          | Some (m, t3) =>
              match expect "-" t3 with
              | Some t4 =>
                  match number 2 0 t4 with
                  | Some (d, t5) =>
                      if (1 <=? y) && (1 <=? m) && (m <=? 12)
                         && (1 <=? d) && (d <=? days_in_month y m)
                      then
                        let midnight := days_from_civil y m d * Dt.us_per_day in
                        match t5 with
                        | EmptyString => Some (Dt.naive midnight)
                        | String c t6 =>
                            if Ascii.eqb c "T" || Ascii.eqb c " "
                            then match parse_time t6 with
                                 | Some (us, off) =>
                                     Some {| dt_wall := midnight + us; dt_offset := off |}
                                 | None => None
                                 end
                            else None
                        end
                      else None
                  | None => None
                  end
              | None => None
              end
          | None => None
          end
      | None => None
      end
  | None => None
  end.

(** A number printed on [n] digits at least. *)
Definition padded (n : nat) (z : Z) : string :=
  let s := Str.of_Z z in
  (String.concat "" (repeat "0" (n - String.length s)) ++ s)%string.

Definition print_date (us : Z) : string :=
  let '(y, m, d) := civil_from_days (us / Dt.us_per_day) in
  Str.concat [padded 4 y; "-"; padded 2 m; "-"; padded 2 d].

Definition print (dt : datetime) : string :=
  let us := dt_wall dt in
  let in_day := us mod Dt.us_per_day in
  let secs := in_day / Dt.us_per_second in
  let frac := in_day mod Dt.us_per_second in
  let offset :=
    match dt_offset dt with
    | None => ""
    | Some o =>
        let minutes := Z.abs o / (60 * Dt.us_per_second) in
        Str.concat [if o <? 0 then "-" else "+"; padded 2 (minutes / 60); ":";
                    padded 2 (minutes mod 60)]
    end in
  Str.concat [print_date us; "T"; padded 2 (secs / 3600); ":";
              padded 2 (secs / 60 mod 60); ":"; padded 2 (secs mod 60);
              (if frac =? 0 then "" else ("." ++ padded 6 frac)%string); offset].

Definition runtime : Runtime := {|
  fromisoformat := parse;
  isoformat := print;
  strftime_ymd := fun dt => print_date (dt_wall dt);
  posix_seconds := fun dt => dt_wall dt / Dt.us_per_second;
  fromtimestamp := fun v =>
    match v with
    | PyInt n => Ok (Dt.naive (n * Dt.us_per_second))
    | PyBool b => Ok (Dt.naive ((if b then 1 else 0) * Dt.us_per_second))
    | _ => Raise TypeError
    end;
  repr := fun _ => "<object>"
|}.

End Iso.

(* ===================================================================== *)
(** * The specification's own wording, for comparison *)
(* ===================================================================== *)

(** The classifier as the specification words it: the categories with
    their keyword sets, in the order in which they are tested. *)
Definition category_keywords : list (string * list string) :=
  [("identification", ["passport"; "visa"; "id"]);
   ("flight_document", ["ticket"; "boarding"; "flight"]);
   ("accommodation", ["hotel"; "reservation"; "booking"]);
   ("insurance", ["insurance"; "policy"]);
   ("itinerary", ["itinerary"; "plan"; "schedule"])].

(** First matching category, ['other'] when none matches. *)
Definition classify_first_match (filename : string) : string :=
  match find (fun ck => Str.any_in (snd ck) (Str.lower filename)) category_keywords with
  | Some ck => fst ck
  | None => "other"
  end.

(** The priority an alert is ranked by. *)
Definition priority_of (a : pyval) : Z :=
  match priority_key a with
  | Ok p => p
  | Raise _ => 0
  end.

(** Descending by priority: no alert is followed, anywhere later in the
    list, by one of a higher priority. *)
Definition sorted_by_priority (l : list pyval) : Prop :=
  forall (i j : nat) (a b : pyval),
    (i < j)%nat -> nth_error l i = Some a -> nth_error l j = Some b ->
    priority_of b <= priority_of a.

(** The alerts of priority [p], in the order in which they stand. *)
Definition with_priority (p : Z) (l : list pyval) : list pyval :=
  List.filter (fun a => priority_of a =? p) l.

(** A field of a dict that holds a string or is missing. *)
Definition text_or_missing (d : list (string * pyval)) (k : string) : Prop :=
  match Py.lookup k d with
  | None => True
  | Some (PyStr _) => True
  | Some _ => False
  end.

Definition text_of (d : list (string * pyval)) (k : string) : string :=
  match Py.lookup k d with
  | Some (PyStr s) => s
  | _ => ""
  end.

(** The publish timestamp does not parse: it is no string, or
    [fromisoformat] rejects it. A missing one reads as the empty string. *)
Definition unparseable (rt : Runtime) (d : list (string * pyval)) : Prop :=
  match Py.replace_Z (default (PyStr "") (Py.lookup "publishedAt" d)) with
  | Ok s => fromisoformat rt s = None
  | Raise _ => True
  end.

(** An itinerary record keeps the invariant when its [duration_days] is
    [(end_date - start_date).days + 1] for the dates it stores. *)
Definition duration_invariant (env : Env) (record : pyval) : Prop :=
  exists (start_field end_field : pyval) (days : Z),
    Py.item record "start_date" = Ok start_field /\
    Py.item record "end_date" = Ok end_field /\
    fst (trip_duration env start_field end_field tt) = Ok days /\
    Py.item record "duration_days" = Ok (PyInt days).

(** The record stored as the user's current itinerary. *)
Definition stored_itinerary (w : World) (uid : string) : option pyval :=
  match table w !! uid with
  | Some item => CurrentItinerary item
  | None => None
  end.




(** The kind, priority and urgency an alert announces. *)
Definition alert_shape (kind : string) (priority : Z) (action : bool) (a : pyval) : Prop :=
  Py.item a "type" = Ok (PyStr kind) /\
  Py.item a "priority" = Ok (PyInt priority) /\
  Py.item a "action_required" = Ok (PyBool action).





(** [m] returns: no state makes it raise. *)
Definition returns {S A} (m : M S A) : Prop :=
  forall s, exists a s', m s = (Ok a, s').

(** Whatever [m] returns satisfies [Q]. *)
Definition post {S A} (m : M S A) (Q : A -> Prop) : Prop :=
  forall s a s', m s = (Ok a, s') -> Q a.

(** A result that names where it comes from. *)
Definition tagged (sources : list string) (v : pyval) : Prop :=
  exists src, Py.item v "source" = Ok (PyStr src) /\ In src sources.

Definition none_or_tagged (sources : list string) (v : pyval) : Prop :=
  v = PyNone \/ tagged sources v.

(** The dict [get_user_data] builds from a stored item. *)
Definition user_record (user_id : pyval) (item : Item) : pyval :=
  PyDict
    (add_if_present "bookings" (Bookings item)
       (add_if_present "preferences" (Preferences item)
          (add_if_present "current_itinerary" (CurrentItinerary item)
             [("user_id", user_id);
              ("updated_at", PyStr (default "" (UpdatedAt item)));
              ("data", default (PyDict []) (Data item))]))).

Definition dismissed_ack : Response :=
  jsonify [("message", PyStr "Alert dismissed successfully")].


Definition value_of (r : Res pyval) : pyval :=
  match r with
  | Ok v => v
  | Raise _ => PyNone
  end.

Definition dismiss_known : list (string * pyval) :=
    [("user_id", PyStr "u1"); ("alert_id", PyStr "a1")].
Definition custom_without_message : list (string * pyval) :=
    [("user_id", PyStr "u1"); ("alert", PyDict [("title", PyStr "Pack the adapter")])].

(** The custom alert built from an alert specification. *)
Definition custom_alert_of (spec : list (string * pyval)) (created_at : string) : pyval :=
  PyDict
    [("type", PyStr "custom");
     ("priority", default (PyInt 1) (Py.lookup "priority" spec));
     ("title", default (PyStr "Custom Alert") (Py.lookup "title" spec));
     ("message", default (PyStr "") (Py.lookup "message" spec));
     ("trigger_date", default PyNone (Py.lookup "trigger_date" spec));
     ("action_required", default (PyBool false) (Py.lookup "action_required" spec));
     ("created_at", PyStr created_at);
     ("user_created", PyBool true)].

(** A confirmed flight booking whose details carry the departure string. *)
Definition confirmed_flight (booking details : list (string * pyval))
    (departure : string) : Prop :=
  Py.lookup "type" booking = Some (PyStr "flight") /\
  Py.lookup "status" booking = Some (PyStr "confirmed") /\
  Py.lookup "details" booking = Some (PyDict details) /\
  Py.lookup "departure_date" details = Some (PyStr departure) /\
  departure <> "".

(** Two hours and a half. *)
Definition two_and_a_half_hours : timedelta := 9000 * Dt.us_per_second.

(** The value [random.random()] draws at event [n]. *)
Definition draw_at (env : Env) (n : nat) : spec_float :=
  binary_normalize F64.prec F64.emax (Z.of_N (entropy env n) mod 2 ^ 53) (-53) false.

(** The text of a departure reminder two hours and a half ahead. *)
Definition departure_message (env : Env) (details : list (string * pyval)) : pyval :=
  PyStr (fstr ["Your flight ";
               py_str (runtime env) (default (PyStr "N/A") (Py.lookup "flight_number" details));
               " departs in approximately "; "2.5"; " hours"]).

(** Whenever the clock is read, the reading moved by [i] days is still a
    date of the years 1 to 9999, and [i] days make a [timedelta]. *)
Definition day_offset_in_range (env : Env) (i : Z) : Prop :=
  -999999999 <= i <= 999999999 /\
  forall n, Dt.min_us <= clock env n + Dt.days_delta i <= Dt.max_us.

(** [m] leaves the DynamoDB table as it is. *)
Definition keeps_table {A} (m : M World A) : Prop :=
  forall w, table (snd (m w)) = table w.

(** A computation that does not look at the state. *)
Definition pure_in {S A} (m : M S A) (r : Res A) : Prop := forall s, m s = (r, s).

(** The table after a step: untouched, or with an itinerary record that
    keeps the invariant stored for the user and nothing else changed. *)
Definition stores_sound_record (env : Env) (user_id : pyval) (w w' : World) : Prop :=
  table w' = table w \/
  exists uid record,
    user_id = PyStr uid /\
    stored_itinerary w' uid = Some record /\
    duration_invariant env record /\
    forall other, other <> uid -> table w' !! other = table w !! other.

(** What [update_itinerary] leaves in the table: nothing new, or the
    updated record in place of the existing one. The record keeps the
    invariant when the caller supplied a date, and also when the existing
    record kept it. *)
Definition updates_soundly (env : Env) (user_id itinerary_data : pyval)
    (w w' : World) : Prop :=
  table w' = table w \/
  exists uid existing record,
    user_id = PyStr uid /\
    stored_itinerary w uid = Some existing /\
    Py.truthy existing = true /\
    stored_itinerary w' uid = Some record /\
    (forall other, other <> uid -> table w' !! other = table w !! other) /\
    (Py.contains "start_date" itinerary_data = Ok true \/
     Py.contains "end_date" itinerary_data = Ok true ->
     duration_invariant env record) /\
    (duration_invariant env existing -> duration_invariant env record).

(** Every itinerary record of the store that is not empty keeps the
    invariant. *)
Definition store_invariant (env : Env) (w : World) : Prop :=
  forall uid record,
    stored_itinerary w uid = Some record ->
    Py.truthy record = true ->
    duration_invariant env record.

(** The comparison of two items by their keys. *)
Definition key_lt {A} (key : A -> Z) (a b : A) : bool := key a <? key b.

(** No item is followed by one with a greater key. *)
Definition descending {A} (key : A -> Z) (l : list A) : Prop :=
  StronglySorted (fun a b => key b <= key a) l.

(* ===================================================================== *)
(** * Worked inputs *)
(* ===================================================================== *)

Module Example.

(** 2026-11-03T10:00:00. *)
Definition t0 : Z := 1793700000000000.

(** No credentials, a reachable AWS, draws of 0.5: nothing random fires. *)
Definition env : Env := {|
  runtime := Iso.runtime;
  clock := fun _ => t0;
  entropy := fun _ => (2 ^ 52)%N;
  http_reply := fun _ => HttpFailure;
  aws_outcome := fun _ => AwsOk;
  presigned_url := fun k => ("https://s3.example/" ++ k)%string;
  news_api := {| newsapi_key := PyNone; guardian_api_key := PyNone |};
  weather_api := {| openweather_api_key := PyNone; weatherapi_key := PyNone |}
|}.

(** The same with draws of 2^-53: every random event fires. *)
Definition env_low_draw : Env := {|
  runtime := Iso.runtime;
  clock := fun _ => t0;
  entropy := fun _ => 1%N;
  http_reply := fun _ => HttpFailure;
  aws_outcome := fun _ => AwsOk;
  presigned_url := fun k => ("https://s3.example/" ++ k)%string;
  news_api := {| newsapi_key := PyNone; guardian_api_key := PyNone |};
  weather_api := {| openweather_api_key := PyNone; weatherapi_key := PyNone |}
|}.

(** Credentials for the live providers, which do not answer. *)
Definition env_live_down : Env := {|
  runtime := Iso.runtime;
  clock := fun _ => t0;
  entropy := fun _ => (2 ^ 52)%N;
  http_reply := fun _ => HttpFailure;
  aws_outcome := fun _ => AwsOk;
  presigned_url := fun k => ("https://s3.example/" ++ k)%string;
  news_api := {| newsapi_key := PyStr "news-key"; guardian_api_key := PyNone |};
  weather_api := {| openweather_api_key := PyStr "weather-key"; weatherapi_key := PyNone |}
|}.

Definition empty_world : World := {| step := 0; table := ∅; bucket := [] |}.

Definition flight (departure : string) : pyval :=
  PyDict [("booking_id", PyStr "b1");
          ("type", PyStr "flight");
          ("status", PyStr "confirmed");
          ("details", PyDict [("flight_number", PyStr "AI101");
                              ("departure_date", PyStr departure)])].

(** A user with one stored alert, whose id is a1. *)
Definition user_item : Item := {|
  UpdatedAt := Some "2026-11-03T09:00:00";
  Data := Some (PyDict [("current_alerts",
                         PyList [PyDict [("alert_id", PyStr "a1");
                                         ("type", PyStr "custom");
                                         ("priority", PyInt 1)]])]);
  TTL := None;
  CurrentItinerary := None;
  Preferences := None;
  Bookings := None
|}.

Definition world : World :=
  {| step := 0; table := <["u1" := user_item]> ∅; bucket := [] |}.

(** A user with a stored itinerary of two days. *)
Definition itinerary_world : World :=
  {| step := 0;
     table := <["u1" := {| UpdatedAt := None; Data := None; TTL := None;
                           CurrentItinerary :=
                             Some (PyDict [("start_date", PyStr "2026-11-05");
                                           ("end_date", PyStr "2026-11-06");
                                           ("duration_days", PyInt 2)]);
                           Preferences := None; Bookings := None |}]> ∅;
     bucket := [] |}.

Definition article : list (string * pyval) :=
  [("title", PyStr "Embassy in Paris issues security alert");
   ("description", PyStr "Flights to Paris are affected")].

Definition stormy_day : pyval :=
  PyDict [("date", PyStr "2026-11-05");
          ("conditions", PyDict [("description", PyStr "Severe Thunderstorm expected")])].

(** WeatherAPI.com answers for Paris with two days, a stormy one and a
    clear one. *)
Definition stormy_reply : pyval :=
  PyDict
    [("location", PyDict [("name", PyStr "Paris"); ("country", PyStr "France")]);
     ("forecast",
      PyDict [("forecastday",
               PyList
                 [PyDict [("date", PyStr "2026-11-05");
                          ("day", PyDict [("condition",
                                           PyDict [("text",
                                                    PyStr "Severe Thunderstorm expected")])])];
                  PyDict [("date", PyStr "2026-11-06");
                          ("day", PyDict [("condition",
                                           PyDict [("text", PyStr "Sunny")])])]])])].

Definition env_stormy : Env := {|
  runtime := Iso.runtime;
  clock := fun _ => t0;
  entropy := fun _ => (2 ^ 52)%N;
  http_reply := fun _ => HttpReply 200 (Some stormy_reply);
  aws_outcome := fun _ => AwsOk;
  presigned_url := fun k => ("https://s3.example/" ++ k)%string;
  news_api := {| newsapi_key := PyNone; guardian_api_key := PyNone |};
  weather_api := {| openweather_api_key := PyNone; weatherapi_key := PyStr "weather-key" |}
|}.

Definition trip_to_paris : pyval :=
  PyDict [("destinations",
           PyList [PyDict [("location", PyStr "Paris");
                           ("arrival_date", PyStr "2026-11-05")]])].

End Example.

(** An alert the sort can rank: its priority is an int. *)
Definition ranked (a : pyval) : Prop := exists p, priority_key a = Ok p.

(** One step of an evaluator: the table stays, and alerts that can be
    ranked stay alerts that can be ranked. *)
Definition evolves (s s' : EvalState) : Prop :=
  table (fst s') = table (fst s) /\
  (Forall ranked (snd s) -> Forall ranked (snd s')).

Definition steady {A} (m : M EvalState A) : Prop :=
  forall s, evolves s (snd (m s)).

Definition list_of (r : Res (list pyval)) : list pyval :=
  match r with
  | Ok l => l
  | Raise _ => []
  end.

(** The alerts of one refresh as the four evaluators emit them, flight,
    weather, news, document, one after the other. *)
Definition emitted_alerts (env : Env) (user_id : pyval) (w : World) : list pyval :=
  match get_user_data env user_id w with
  | (Ok user_data, w1) =>
      if Py.truthy user_id && Py.truthy user_data
      then
        let bookings := value_of (Py.get user_data "bookings" (PyList [])) in
        let itinerary := value_of (Py.get user_data "current_itinerary" (PyDict [])) in
        let (flight_alerts, w2) := check_flight_alerts env bookings w1 in
        let (weather_alerts, w3) := check_weather_alerts env itinerary w2 in
        let (news_alerts, w4) := check_news_alerts env itinerary w3 in
        let (document_alerts, w5) := check_document_alerts env user_id w4 in
        (((list_of flight_alerts ++ list_of weather_alerts)
          ++ list_of news_alerts) ++ list_of document_alerts)%list
      else []
  | _ => []
  end.

(** What the refresh leaves in the store: nothing new, or the user's item
    with the given alerts as current_alerts. *)
Definition persists (user_id : pyval) (alerts : list pyval) (w w' : World) : Prop :=
  table w' = table w \/
  exists uid item data,
    user_id = PyStr uid /\ table w' !! uid = Some item /\
    Data item = Some data /\
    Py.item data "current_alerts" = Ok (PyList alerts).

(** A user with two confirmed flights, the first 23 hours ahead and the
    second two hours and a half ahead. *)
Definition two_flights_world : World :=
  {| step := 0;
     table := <["u3" := {| UpdatedAt := None; Data := None; TTL := None;
                           CurrentItinerary := None; Preferences := None;
                           Bookings := Some (PyList [Example.flight "2026-11-04T09:00:00";
                                                     Example.flight "2026-11-03T12:30:00"]) |}]> ∅;
     bucket := [] |}.

(* ===================================================================== *)
(** * Further definitions *)
(* ===================================================================== *)

(** The entries of the dict [get_user_data] builds from a stored item. *)
Definition user_fields (user_id : pyval) (item : Item) : list (string * pyval) :=
  add_if_present "bookings" (Bookings item)
    (add_if_present "preferences" (Preferences item)
       (add_if_present "current_itinerary" (CurrentItinerary item)
          [("user_id", user_id);
           ("updated_at", PyStr (default "" (UpdatedAt item)));
           ("data", default (PyDict []) (Data item))])).


(* ===================================================================== *)
(** * lambda_functions/itinerary_handler.py: the other operations *)
(* ===================================================================== *)

(** [x.copy()]: dicts and lists have it. *)
Definition py_copy (x : pyval) : Res pyval :=
  match x with
  | PyDict _ | PyList _ => Ok x
  | _ => Raise AttributeError
  end.

(** [s[-n:]] on a string. *)
Definition str_last (n : nat) (s : string) : string :=
  string_of_list_ascii
    (skipn (length (list_ascii_of_string s) - n) (list_ascii_of_string s)).

(** [x[-n:]] for a positive [n]. *)
Definition slice_last (n : nat) (x : pyval) : Res pyval :=
  match x with
  | PyList l => Ok (PyList (skipn (length l - n) l))
  | PyStr s => Ok (PyStr (str_last n s))
  | _ => Raise TypeError
  end.

Section Itinerary.

Context (env : Env).

Let rt : Runtime := runtime env.

(** [get_itinerary] of itinerary_handler.py, which answers with what the
    client's [get_itinerary] finds. *)
Definition handler_get_itinerary (user_id : pyval) : M World Response :=
  try_except
    (itinerary <- get_itinerary env user_id ;;
     if Py.truthy itinerary
     then ret (jsonify [("itinerary", itinerary); ("found", PyBool true)])
     else ret (jsonify [("message", PyStr "No itinerary found");
                        ("found", PyBool false)]))
    (fun _ => ret (jsonify_code [("error", PyStr "Itinerary retrieval error")] 500)).

(** [delete_itinerary]: the itinerary is archived inside the user's
    record, then replaced by an empty one. *)
Definition delete_itinerary (user_id : pyval) : M World Response :=
  try_except
    (existing_itinerary <- get_itinerary env user_id ;;
     if negb (Py.truthy existing_itinerary)
     then ret (jsonify_code [("error", PyStr "Itinerary not found")] 404)
     else
       archived_itinerary <- lift_res (py_copy existing_itinerary) ;;
       archived_itinerary <-
         lift_res (Py.setitem archived_itinerary "status" (PyStr "archived")) ;;
       now <- utcnow env ;;
       archived_itinerary <-
         lift_res (Py.setitem archived_itinerary "archived_at"
                              (PyStr (isoformat rt now))) ;;
       stored <- get_user_data env user_id ;;
       let user_data := or_empty_dict stored in
       archived_itineraries <-
         lift_res (Py.get user_data "archived_itineraries" (PyList [])) ;;
       archived_itineraries <-
         lift_res (py_append archived_itineraries archived_itinerary) ;;
       kept <- lift_res (slice_last 10 archived_itineraries) ;;
       user_data <- lift_res (Py.setitem user_data "archived_itineraries" kept) ;;
       save_user_data env user_id user_data ;;;
       success <- save_itinerary env user_id (PyDict []) ;;
       if success : bool
       then ret (jsonify [("message", PyStr "Itinerary deleted successfully");
                          ("archived", PyBool true)])
       else ret (jsonify_code [("error", PyStr "Failed to delete itinerary")] 500))
    (fun _ => ret (jsonify_code [("error", PyStr "Itinerary deletion error")] 500)).

(** [share_itinerary]: the share record is built and dropped; nothing is
    stored. *)
Definition share_itinerary (data : pyval) : M World Response :=
  try_except
    (user_id <- lift_res (Py.get data "user_id" PyNone) ;;
     share_method <- lift_res (Py.get data "method" (PyStr "link")) ;;
     if negb (Py.truthy user_id)
     then ret (jsonify_code [("error", PyStr "Missing user_id")] 400)
     else
       itinerary <- get_itinerary env user_id ;;
       if negb (Py.truthy itinerary)
       then ret (jsonify_code [("error", PyStr "No itinerary found")] 404)
       else if Py.is_str "link" share_method
       then
         now0 <- utcnow env ;;
         let share_id := fstr ["share_"; Str.of_Z (posix_seconds rt now0)] in
         let share_url := fstr ["https://your-app-domain.com/shared/"; share_id] in
         now1 <- utcnow env ;;
         now2 <- utcnow env ;;
         let shared_data :=
           PyDict [("share_id", PyStr share_id);
                   ("itinerary", itinerary);
                   ("shared_by", user_id);
                   ("created_at", PyStr (isoformat rt now1));
                   ("expires_at", PyStr (isoformat rt (Dt.add now2 (Dt.days_delta 30))))] in
         ret (jsonify [("share_url", PyStr share_url);
                       ("share_id", PyStr share_id);
                       ("expires_in_days", PyInt 30)])
       else ret (jsonify_code [("error", PyStr "Unsupported share method")] 400))
    (fun _ => ret (jsonify_code [("error", PyStr "Itinerary sharing error")] 500)).

(** [generate_itinerary] asks the Bedrock model for a plan; the router
    below is stated for any such operation. *)
Variable generate_itinerary : pyval -> pyval -> M World Response.

(** [handle_itinerary]: the router of the itinerary operations. *)
Definition handle_itinerary (data : pyval) : M World Response :=
  try_except
    (action_field <- lift_res (Py.get data "action" (PyStr "get")) ;;
     action <- lift_res (Py.lower action_field) ;;
     user_id <- lift_res (Py.get data "user_id" PyNone) ;;
     if negb (Py.truthy user_id)
     then ret (jsonify_code [("error", PyStr "Missing user_id")] 400)
     else if String.eqb action "create"
     then (itinerary_data <- lift_res (Py.get data "itinerary_data" (PyDict [])) ;;
           create_itinerary env user_id itinerary_data)
     else if String.eqb action "update"
     then (itinerary_data <- lift_res (Py.get data "itinerary_data" (PyDict [])) ;;
           update_itinerary env user_id itinerary_data)
     else if String.eqb action "get" then handler_get_itinerary user_id
     else if String.eqb action "delete" then delete_itinerary user_id
     else if String.eqb action "generate"
     then (preferences <- lift_res (Py.get data "preferences" (PyDict [])) ;;
           generate_itinerary user_id preferences)
     else ret (jsonify_code
                 [("error", PyStr (fstr ["Unsupported action: "; action]))] 400))
    (fun _ => ret (jsonify_code [("error", PyStr "Itinerary service error")] 500)).

End Itinerary.

(** The keys of a record that [create_itinerary] builds, in order. *)
Definition created_keys : list string :=
  ["id"; "user_id"; "destination"; "start_date"; "end_date"; "title";
   "description"; "days"; "budget"; "travelers"; "preferences";
   "created_at"; "updated_at"; "status"; "duration_days"].

(** The cost an activity, or the transport of a day, announces. *)
Definition estimated_cost (v : pyval) : Z :=
  match Py.get v "estimated_cost" (PyInt 0) with
  | Ok (PyInt c) => c
  | _ => 0
  end.

(** The costs of a day of an itinerary added up: its activities and its
    transportation. *)
Definition day_cost (day : pyval) : Z :=
  fold_right Z.add 0
    (map estimated_cost
       (match Py.get day "activities" (PyList []) with
        | Ok (PyList l) => l
        | _ => []
        end))
  + estimated_cost (value_of (Py.get day "transportation" (PyDict []))).

(** A day of the default plan: its number, and a total that is the sum of
    its parts. *)
Definition default_day_shape (n : Z) (day : pyval) : Prop :=
  Py.item day "day" = Ok (PyInt n) /\
  Py.item day "total_estimated_cost" = Ok (PyInt (day_cost day)) /\
  exists activities, Py.item day "activities" = Ok (PyList activities) /\
                     length activities = 3%nat.

(** A request for three days in Paris, and one whose end date is before
    its start date. *)
Definition paris_trip : pyval :=
  PyDict [("destination", PyStr "Paris");
          ("start_date", PyStr "2026-11-05");
          ("end_date", PyStr "2026-11-07")].

Definition backwards_trip : pyval :=
  PyDict [("destination", PyStr "Paris");
          ("start_date", PyStr "2026-11-07");
          ("end_date", PyStr "2026-11-05")].

(** The itinerary that [delete_itinerary] archives. *)
Definition archived_copy (existing : list (string * pyval)) (stamp : string) : pyval :=
  PyDict (Py.store "archived_at" (PyStr stamp)
            (Py.store "status" (PyStr "archived") existing)).

(** AWS answers every call but the sixth event, which fails with a client
    error. *)
Definition env_sixth_fails : Env := {|
  runtime := Iso.runtime;
  clock := fun _ => Example.t0;
  entropy := fun _ => (2 ^ 52)%N;
  http_reply := fun _ => HttpFailure;
  aws_outcome := fun n => if Nat.eqb n 5 then AwsClientError else AwsOk;
  presigned_url := fun k => ("https://s3.example/" ++ k)%string;
  news_api := {| newsapi_key := PyNone; guardian_api_key := PyNone |};
  weather_api := {| openweather_api_key := PyNone; weatherapi_key := PyNone |}
|}.

(** The alerts an evaluator appends all satisfy [P]. *)
Definition emits_only (P : pyval -> Prop) {A} (m : M EvalState A) : Prop :=
  forall s, Forall P (snd s) -> Forall P (snd (snd (m s))).

(** An alert of the given kind and priority. *)
Definition alert_of (kinds : list (string * Z)) (a : pyval) : Prop :=
  exists kind priority,
    In (kind, priority) kinds /\
    Py.item a "type" = Ok (PyStr kind) /\
    Py.item a "priority" = Ok (PyInt priority).

Definition flight_kinds : list (string * Z) :=
  [("flight_checkin_reminder", 3); ("departure_reminder", 4); ("gate_change", 5)].
Definition weather_kinds : list (string * Z) :=
  [("severe_weather", 4); ("weather_advisory", 2)].
Definition news_kinds : list (string * Z) := [("travel_advisory", 3)].
Definition document_kinds : list (string * Z) := [("document_expiry", 4)].

(** The kinds of alert of the four evaluators together. *)
Definition evaluator_kinds : list (string * Z) :=
  (flight_kinds ++ weather_kinds ++ news_kinds ++ document_kinds)%list.

(** The keyword score by what was found: the location in the title, in
    the description, a priority keyword, a medium keyword. *)
Definition score_of_flags (in_title in_description priority medium : bool) : spec_float :=
  let score := F64.of_Z 0 in
  let score := if in_title then F64.add score (F64.lit 5 10) else score in
  let score := if in_description then F64.add score (F64.lit 3 10) else score in
  let score := if priority then F64.add score (F64.lit 4 10) else score in
  let score := if medium then F64.add score (F64.lit 2 10) else score in
  score.

(** The scores [_calculate_relevance] can return for an article that
    mentions the location. *)
Definition relevant_scores : list spec_float :=
  flat_map
    (fun flags : bool * bool * bool * bool =>
       let '(t, d, p, m) := flags in
       if t || d
       then map (fun s => F64.min s (F64.of_Z 1))
                [score_of_flags t d p m;
                 F64.add (score_of_flags t d p m) (F64.lit 2 10);
                 F64.add (score_of_flags t d p m) (F64.lit 1 10)]
       else [])
    (flat_map (fun t => flat_map (fun d => flat_map (fun p => map (fun m => (t, d, p, m))
                                                                 [true; false])
                                                    [true; false])
                                 [true; false])
              [true; false]).

(** The relevance score an article of a result carries. *)
Definition relevance_of (a : pyval) : option spec_float :=
  match Py.item a "relevance_score" with
  | Ok (PyFloat s) => Some s
  | _ => None
  end.

(** No article is followed by one with a higher relevance score. *)
Definition descending_relevance (l : list pyval) : Prop :=
  forall (i j : nat) (a b : pyval),
    (i < j)%nat -> nth_error l i = Some a -> nth_error l j = Some b ->
    exists x y, relevance_of a = Some x /\ relevance_of b = Some y /\ F64.leb y x = true.

(** An article scored between 0.3 and 1.0. *)
Definition scored_relevant (a : pyval) : Prop :=
  exists s, relevance_of a = Some s /\
            F64.leb (F64.lit 3 10) s = true /\ F64.leb s (F64.of_Z 1) = true.

(** What a provider choice allows as the answer of an entry point: with
    the first key configured, None or a result of the first provider; else
    with the second key, None or a result of the second; else mock data. *)
Definition answer_of_provider (first_key second_key : pyval) (first second : string)
    (v : pyval) : Prop :=
  if Py.truthy first_key then none_or_tagged [first] v
  else if Py.truthy second_key then none_or_tagged [second] v
  else tagged ["mock"] v.

(** What one day of the mock forecast looks like: temperatures, humidity,
    wind and UV index within the ranges of the draws, a description out
    of the list of conditions. *)
Definition mock_day_shape (d : pyval) : Prop :=
  exists tmin tmax tavg description icon humidity wind_speed uv_index : _,
    Py.item d "temperature"
      = Ok (PyDict [("min", PyInt tmin); ("max", PyInt tmax); ("avg", PyInt tavg)]) /\
    Py.item d "conditions"
      = Ok (PyDict [("description", PyStr description); ("icon", PyStr icon)]) /\
    Py.item d "humidity" = Ok (PyInt humidity) /\
    Py.item d "wind_speed" = Ok (PyInt wind_speed) /\
    Py.item d "uv_index" = Ok (PyInt uv_index) /\
    5 <= tmin <= 20 /\ 20 <= tmax <= 35 /\ 10 <= tavg <= 28 /\
    In description mock_conditions /\
    40 <= humidity <= 85 /\ 5 <= wind_speed <= 20 /\ 1 <= uv_index <= 10.

(** The objects [list_user_documents] asks about: the first page of the
    keys under the prefix. *)
Definition user_objects (prefix : string) (objs : list S3Object) : list S3Object :=
  firstn 1000 (List.filter (fun o => String.prefix prefix (Key o)) objs).

(** The entry of a listing describes the object: its key and size, and
    the file name and document type of its metadata. *)
Definition describes (o : S3Object) (d : pyval) : Prop :=
  Py.item d "key" = Ok (PyStr (Key o)) /\
  Py.item d "size" = Ok (PyInt (Size o)) /\
  Py.item d "filename" = Ok (metadata_get o "original_filename" "Unknown") /\
  Py.item d "document_type" = Ok (metadata_get o "document_type" "unknown").

(** A bucket with two documents of u1 and one of u10. *)
Definition documents_world : World :=
  {| step := 0;
     table := ∅;
     bucket :=
       [ {| Key := "documents/u1/a.pdf"; Size := 10; LastModified := {| dt_wall := Example.t0; dt_offset := Some 0 |};
            Metadata := [("original_filename", "passport.pdf");
                         ("document_type", "identification")] |};
         {| Key := "documents/u10/b.pdf"; Size := 20; LastModified := {| dt_wall := Example.t0; dt_offset := Some 0 |};
            Metadata := [] |};
         {| Key := "documents/u1/c.bin"; Size := 30; LastModified := {| dt_wall := Example.t0; dt_offset := Some 0 |};
            Metadata := [] |} ] |}.

(* ------------------------------------------------------------------- *)
(** ** dynamodb_client.py: preferences, bookings and deletion *)

(** The attributes [update_item] starts from when the key has no item. *)
Definition absent_item : Item :=
  {| UpdatedAt := None; Data := None; TTL := None;
     CurrentItinerary := None; Preferences := None; Bookings := None |}.

Section Store.

Context (env : Env).

Let rt : Runtime := runtime env.

(** [DynamoDBClient.save_preferences]: [update_item] sets Preferences and
    UpdatedAt. *)
Definition save_preferences (user_id preferences : pyval) : M World bool :=
  try_except_client
    (now <- utcnow env ;;
     let timestamp := isoformat rt now in
     uid <- string_param user_id ;;
     aws_call env ;;;
     t <- get_table ;;
     let old := default absent_item (t !! uid) in
     put_table (<[uid := {| UpdatedAt := Some timestamp;
                            Data := Data old;
                            TTL := TTL old;
                            CurrentItinerary := CurrentItinerary old;
                            Preferences := Some preferences;
                            Bookings := Bookings old |}]> t) ;;;
     ret true)
    (ret false).

(** [DynamoDBClient.get_preferences]. *)
Definition get_preferences (user_id : pyval) : M World pyval :=
  try_except_client
    (uid <- string_param user_id ;;
     aws_call env ;;;
     t <- get_table ;;
     match t !! uid with
     | Some item => ret (default (PyDict []) (Preferences item))
     | None => ret (PyDict [])
     end)
    (ret (PyDict [])).

(** [DynamoDBClient.save_booking]: the bookings are read with
    [get_user_data], the new one is stamped and appended, and
    [update_item] sets Bookings and UpdatedAt. *)
Definition save_booking (user_id booking : pyval) : M World bool :=
  try_except_client
    (now1 <- utcnow env ;;
     let timestamp := isoformat rt now1 in
     now2 <- utcnow env ;;
     let booking_id := fstr ["booking_"; Str.of_Z (posix_seconds rt now2)] in
     existing_data <- get_user_data env user_id ;;
     bookings <- (if Py.truthy existing_data
                  then lift_res (Py.get existing_data "bookings" (PyList []))
                  else ret (PyList [])) ;;
     booking <- lift_res (Py.setitem booking "booking_id" (PyStr booking_id)) ;;
     booking <- lift_res (Py.setitem booking "created_at" (PyStr timestamp)) ;;
     bookings <- lift_res (py_append bookings booking) ;;
     uid <- string_param user_id ;;
     aws_call env ;;;
     t <- get_table ;;
     let old := default absent_item (t !! uid) in
     put_table (<[uid := {| UpdatedAt := Some timestamp;
                            Data := Data old;
                            TTL := TTL old;
                            CurrentItinerary := CurrentItinerary old;
                            Preferences := Preferences old;
                            Bookings := Some bookings |}]> t) ;;;
     ret true)
    (ret false).

(** [DynamoDBClient.get_bookings]. *)
Definition get_bookings (user_id : pyval) : M World pyval :=
  try_except_client
    (uid <- string_param user_id ;;
     aws_call env ;;;
     t <- get_table ;;
     match t !! uid with
     | Some item => ret (default (PyList []) (Bookings item))
     | None => ret (PyList [])
     end)
    (ret (PyList [])).

(** [DynamoDBClient.delete_user_data]: [delete_item] on the main table. *)
Definition delete_user_data (user_id : pyval) : M World bool :=
  try_except_client
    (uid <- string_param user_id ;;
     aws_call env ;;;
     t <- get_table ;;
     put_table (delete uid t) ;;;
     ret true)
    (ret false).

End Store.

(** The preferences and the bookings stored for a user. *)
Definition stored_preferences (w : World) (uid : string) : option pyval :=
  match table w !! uid with
  | Some item => Preferences item
  | None => None
  end.

Definition stored_bookings (w : World) (uid : string) : option pyval :=
  match table w !! uid with
  | Some item => Bookings item
  | None => None
  end.

(** A booking as [save_booking] stamps it. *)
Definition stamped_booking (env : Env) (w : World) (b : list (string * pyval)) : pyval :=
  PyDict
    (Py.store "created_at"
       (PyStr (isoformat (runtime env) (Dt.naive (clock env (step w)))))
       (Py.store "booking_id"
          (PyStr (fstr ["booking_";
                        Str.of_Z (posix_seconds (runtime env)
                                    (Dt.naive (clock env (S (step w)))))]))
          b)).

(** AWS answers every call but the third event, which fails with a client
    error. *)
Definition env_third_fails : Env := {|
  runtime := Iso.runtime;
  clock := fun _ => Example.t0;
  entropy := fun _ => (2 ^ 52)%N;
  http_reply := fun _ => HttpFailure;
  aws_outcome := fun n => if Nat.eqb n 2 then AwsClientError else AwsOk;
  presigned_url := fun k => ("https://s3.example/" ++ k)%string;
  news_api := {| newsapi_key := PyNone; guardian_api_key := PyNone |};
  weather_api := {| openweather_api_key := PyNone; weatherapi_key := PyNone |}
|}.

(** A user with one stored booking. *)
Definition booked_world : World :=
  {| step := 0;
     table := <["u1" := {| UpdatedAt := None; Data := None; TTL := None;
                           CurrentItinerary := None; Preferences := None;
                           Bookings := Some (PyList [Example.flight "2026-11-04T10:00:00"]) |}]> ∅;
     bucket := [] |}.

(** An itinerary changed as [update_itinerary] changes it: the
    updatable fields the caller sent are the caller's, and every other
    field but updated_at and duration_days is the stored one. *)
Definition updated_from (itinerary_data existing updated : pyval) : Prop :=
  (forall k, In k updatable_fields -> Py.contains k itinerary_data = Ok true ->
             Py.item updated k = Py.item itinerary_data k) /\
  (forall k, In k updatable_fields -> Py.contains k itinerary_data = Ok false ->
             Py.item updated k = Py.item existing k) /\
  (forall k, ~ In k updatable_fields -> k <> "updated_at" -> k <> "duration_days" ->
             Py.item updated k = Py.item existing k).

(** A user whose stored itinerary is the one [generate_itinerary] stores
    for a duration of 2.5 days from 2026-11-05: the end date is the start
    date moved by 1.5 days, and duration_days is the 2.5 of the request. *)
Definition generated_world : World :=
  {| step := 0;
     table := <["u1" := {| UpdatedAt := None; Data := None; TTL := None;
                           CurrentItinerary :=
                             Some (PyDict [("start_date", PyStr "2026-11-05T00:00:00");
                                           ("end_date", PyStr "2026-11-06T12:00:00");
                                           ("duration_days", PyFloat (F64.lit 25 10))]);
                           Preferences := None; Bookings := None |}]> ∅;
     bucket := [] |}.

(** A request that renames the trip and tries to set its status. *)
Definition rename_request : pyval :=
  PyDict [("title", PyStr "Rome"); ("status", PyStr "archived")].

(* ===================================================================== *)
(** * Properties *)
(* ===================================================================== *)

(** ** The document classifier *)

(** C9. For every filename the classifier of the code returns the first
    category, in the order identification, flight_document, accommodation,
    insurance, itinerary, one of whose keywords occurs in the lowered
    filename, and 'other' when none does; the three filenames of the
    specification classify as identification, accommodation and other. *)
Theorem C9_classifier_first_match :
  (forall filename : string,
      _classify_document_type filename = classify_first_match filename) /\
  _classify_document_type "my_passport_scan.pdf" = "identification" /\
  _classify_document_type "hotel_reservation_confirm.pdf" = "accommodation" /\
  _classify_document_type "randomfile.pdf" = "other".
Proof.
  split; [| repeat split; reflexivity].
  intros filename.
  unfold _classify_document_type, classify_first_match, category_keywords.
  cbn [find fst snd].
  repeat match goal with
         | |- context [if Str.any_in ?ws ?s then _ else _] =>
             destruct (Str.any_in ws s)
         end; reflexivity.
Qed.

(** ** Reasoning about computations *)



Lemma returns_ret {S A} (a : A) : returns (S := S) (ret a).
Proof. intros s. unfold ret. eauto. Qed.

Lemma returns_bind {S A B} (m : M S A) (k : A -> M S B) :
  returns m -> (forall a, returns (k a)) -> returns (bind m k).
Proof.
  intros Hm Hk s. unfold bind.
  destruct (Hm s) as (a & s' & ->). apply Hk.
Qed.

Lemma returns_try_except {S A} (m : M S A) (h : exn -> M S A) :
  (forall e, returns (h e)) -> returns (try_except m h).
Proof.
  intros Hh s. unfold try_except.
  destruct (m s) as [[a | e] s']; [eauto | apply Hh].
Qed.

Lemma returns_map_m {S A B} (f : A -> M S B) (l : list A) :
  (forall x, returns (f x)) -> returns (map_m f l).
Proof.
  intros Hf. induction l as [| x t IH]; cbn [map_m].
  - apply returns_ret.
  - apply returns_bind; [apply Hf | intros y].
    apply returns_bind; [exact IH | intros ys]. apply returns_ret.
Qed.

Lemma returns_utcnow env : returns (utcnow env).
Proof. intros s. unfold utcnow. eauto. Qed.

Lemma returns_next_word env : returns (next_word env).
Proof. intros s. unfold next_word. eauto. Qed.


Ltac returns_tac :=
  repeat first
    [ apply returns_ret
    | apply returns_utcnow
    | apply returns_next_word
    | apply returns_bind; [| intros ?]
    | apply returns_map_m; intros ? ].

Lemma post_ret {S A} (a : A) (Q : A -> Prop) : Q a -> post (S := S) (ret a) Q.
Proof. intros H s a' s'. unfold ret. intros [= <- _]. exact H. Qed.

Lemma post_raise {S A} (e : exn) (Q : A -> Prop) : post (S := S) (raise e) Q.
Proof. intros s a s'. unfold raise. discriminate. Qed.

Lemma post_bind {S A B} (m : M S A) (k : A -> M S B) (Q : B -> Prop) :
  (forall a, post (k a) Q) -> post (bind m k) Q.
Proof.
  intros Hk s b s'. unfold bind.
  destruct (m s) as [[a | e] s1]; [apply Hk | discriminate].
Qed.

Lemma post_try_except {S A} (m : M S A) (h : exn -> M S A) (Q : A -> Prop) :
  post m Q -> (forall e, post (h e) Q) -> post (try_except m h) Q.
Proof.
  intros Hm Hh s a s'. unfold try_except.
  destruct (m s) as [[a1 | e] s1] eqn:E.
  - intros [= <- <-]. eapply Hm; eassumption.
  - apply Hh.
Qed.

Ltac post_tac :=
  repeat first
    [ apply post_raise
    | apply post_bind; intros ?
    | match goal with
      | |- post (if ?b then _ else _) _ => destruct b
      | |- post (match ?x with _ => _ end) _ => destruct x
      end ].

(** ** The adapters *)


Lemma mock_travel_news_returns env location : returns (_get_mock_travel_news env location).
Proof. unfold _get_mock_travel_news. returns_tac. Qed.

Lemma mock_travel_news_tagged env location :
  post (_get_mock_travel_news env location) (tagged ["mock"]).
Proof.
  unfold _get_mock_travel_news. post_tac. apply post_ret.
  exists "mock". split; [reflexivity | left; reflexivity].
Qed.

(** The date arithmetic on a reading of the clock goes through when the
    offset is in range. *)
Lemma timedelta_days_in_range env i :
  day_offset_in_range env i -> Dt.timedelta_days i = Ok (Dt.days_delta i).
Proof.
  intros [Hi _]. unfold Dt.timedelta_days.
  destruct (Z.leb_spec (-999999999) i); [| lia].
  destruct (Z.leb_spec i 999999999); [reflexivity | lia].
Qed.

Lemma add_checked_in_range env i n :
  day_offset_in_range env i ->
  Dt.add_checked (Dt.naive (clock env n)) (Dt.days_delta i)
  = Ok (Dt.add (Dt.naive (clock env n)) (Dt.days_delta i)).
Proof.
  intros [_ Hn]. specialize (Hn n). unfold Dt.add_checked. cbn [Dt.naive dt_wall].
  destruct (Z.leb_spec Dt.min_us (clock env n + Dt.days_delta i)); [| lia].
  destruct (Z.leb_spec (clock env n + Dt.days_delta i) Dt.max_us); [reflexivity | lia].
Qed.

Lemma mock_day_returns env i : day_offset_in_range env i -> returns (mock_day env i).
Proof.
  intros Hi w.
  unfold mock_day, random_randint, random_choice, random_uniform, random_random,
    bind, utcnow, next_word, lift_res, ret.
  rewrite (timedelta_days_in_range env i Hi), (add_checked_in_range env i _ Hi).
  eexists _, _. reflexivity.
Qed.

Lemma returns_map_m_in {S A B} (f : A -> M S B) (l : list A) :
  (forall x, In x l -> returns (f x)) -> returns (map_m f l).
Proof.
  induction l as [| x t IH]; intros Hf; cbn [map_m].
  - apply returns_ret.
  - apply returns_bind; [apply Hf; left; reflexivity | intros y].
    apply returns_bind; [apply IH; intros z Hz; apply Hf; right; exact Hz | intros ys].
    apply returns_ret.
Qed.

Lemma in_range a days : In a (range days) -> 0 <= a < days.
Proof.
  unfold range. rewrite in_map_iff. intros (k & <- & Hk). apply in_seq in Hk. lia.
Qed.

Lemma mock_forecast_returns env location days :
  (forall i, 0 <= i < days -> day_offset_in_range env i) ->
  returns (_get_mock_forecast env location days).
Proof.
  intros Hdays.
  unfold _get_mock_forecast, random_uniform, random_random.
  apply returns_bind; [| intros ?; returns_tac].
  apply returns_map_m_in. intros i Hi. apply mock_day_returns, Hdays, in_range, Hi.
Qed.

Lemma mock_forecast_tagged env location days :
  post (_get_mock_forecast env location days) (tagged ["mock"]).
Proof.
  unfold _get_mock_forecast. post_tac. apply post_ret.
  exists "mock". split; [reflexivity | left; reflexivity].
Qed.


Lemma newsapi_travel_news_post env location days_back :
  post (_get_newsapi_travel_news env location days_back) (none_or_tagged ["newsapi"]).
Proof.
  unfold _get_newsapi_travel_news. apply post_try_except.
  - post_tac. apply post_ret. right.
    exists "newsapi". split; [reflexivity | left; reflexivity].
  - intros e. apply post_ret. left. reflexivity.
Qed.

Lemma guardian_travel_news_post env location days_back :
  post (_get_guardian_travel_news env location days_back) (none_or_tagged ["guardian"]).
Proof.
  unfold _get_guardian_travel_news. apply post_try_except.
  - post_tac. apply post_ret. right.
    exists "guardian". split; [reflexivity | left; reflexivity].
  - intros e. apply post_ret. left. reflexivity.
Qed.

Lemma openweather_forecast_post env location days :
  post (_get_openweather_forecast env location days) (none_or_tagged ["openweathermap"]).
Proof.
  unfold _get_openweather_forecast. apply post_try_except.
  - post_tac. apply post_ret. right.
    exists "openweathermap". split; [reflexivity | left; reflexivity].
  - intros e. apply post_ret. left. reflexivity.
Qed.

Lemma weatherapi_forecast_post env location days :
  post (_get_weatherapi_forecast env location days) (none_or_tagged ["weatherapi"]).
Proof.
  unfold _get_weatherapi_forecast. apply post_try_except.
  - post_tac. apply post_ret. right.
    exists "weatherapi". split; [reflexivity | left; reflexivity].
  - intros e. apply post_ret. left. reflexivity.
Qed.

Lemma post_weaken {S A} (m : M S A) (Q R : A -> Prop) :
  post m Q -> (forall a, Q a -> R a) -> post m R.
Proof. intros H HQR s a s' E. apply HQR. eapply H. eassumption. Qed.

Lemma none_or_tagged_incl l l' v :
  incl l l' -> none_or_tagged l v -> none_or_tagged l' v.
Proof.
  intros Hincl [-> | (src & H1 & H2)]; [left; reflexivity | right].
  exists src. split; [assumption | apply Hincl, H2].
Qed.

(** [get_travel_news] never raises, and what it returns is None or a
    result tagged mock, newsapi or guardian. *)
Lemma get_travel_news_total env location days_back :
  returns (get_travel_news env location days_back) /\
  post (get_travel_news env location days_back)
       (none_or_tagged ["mock"; "newsapi"; "guardian"]).
Proof.
  unfold get_travel_news. split.
  - apply returns_try_except. intros e. apply mock_travel_news_returns.
  - apply post_try_except.
    + destruct (Py.truthy (newsapi_key (news_api env))).
      * eapply post_weaken; [apply newsapi_travel_news_post |].
        intros v. apply none_or_tagged_incl. intros x [<- | []]. simpl; auto.
      * destruct (Py.truthy (guardian_api_key (news_api env))).
        -- eapply post_weaken; [apply guardian_travel_news_post |].
           intros v. apply none_or_tagged_incl. intros x [<- | []]. simpl; auto.
        -- eapply post_weaken; [apply mock_travel_news_tagged |].
           intros v H. right. destruct H as (src & H1 & [<- | []]).
           exists "mock". split; [assumption | simpl; auto].
    + intros e. eapply post_weaken; [apply mock_travel_news_tagged |].
      intros v H. right. destruct H as (src & H1 & [<- | []]).
      exists "mock". split; [assumption | simpl; auto].
Qed.

(** [get_forecast] does not raise when the dates of the mock forecast
    are in range, and what it returns is None or a result tagged mock,
    openweathermap or weatherapi. *)
Lemma get_forecast_total env location days :
  ((forall i, 0 <= i < days -> day_offset_in_range env i) ->
   returns (get_forecast env location days)) /\
  post (get_forecast env location days)
       (none_or_tagged ["mock"; "openweathermap"; "weatherapi"]).
Proof.
  unfold get_forecast. split.
  - intros Hdays. apply returns_try_except. intros e.
    apply mock_forecast_returns, Hdays.
  - apply post_try_except.
    + destruct (Py.truthy (openweather_api_key (weather_api env))).
      * eapply post_weaken; [apply openweather_forecast_post |].
        intros v. apply none_or_tagged_incl. intros x [<- | []]. simpl; auto.
      * destruct (Py.truthy (weatherapi_key (weather_api env))).
        -- eapply post_weaken; [apply weatherapi_forecast_post |].
           intros v. apply none_or_tagged_incl. intros x [<- | []]. simpl; auto.
        -- eapply post_weaken; [apply mock_forecast_tagged |].
           intros v H. right. destruct H as (src & H1 & [<- | []]).
           exists "mock". split; [assumption | simpl; auto].
    + intros e. eapply post_weaken; [apply mock_forecast_tagged |].
      intros v H. right. destruct H as (src & H1 & [<- | []]).
      exists "mock". split; [assumption | simpl; auto].
Qed.

(** Without credentials both entry points answer with mock data. *)
Lemma no_credentials_mock env location days w :
  Py.truthy (newsapi_key (news_api env)) = false ->
  Py.truthy (guardian_api_key (news_api env)) = false ->
  exists v w', get_travel_news env location days w = (Ok v, w') /\ tagged ["mock"] v.
Proof.
  intros H1 H2. unfold get_travel_news, try_except. rewrite H1, H2.
  destruct (mock_travel_news_returns env location w) as (v & w' & E).
  rewrite E. exists v, w'. split; [reflexivity |].
  eapply mock_travel_news_tagged. eassumption.
Qed.

(** With a configured provider whose call fails, the news entry point
    returns None: the inner helper has already caught the failure, and the
    fallback of the entry point is never reached. *)
Lemma newsapi_failure_gives_none env location days_back w :
  Py.truthy (newsapi_key (news_api env)) = true ->
  http_reply env (S (S (step w))) = HttpFailure ->
  fst (get_travel_news env location days_back w) = Ok PyNone.
Proof.
  intros Hkey Hhttp.
  unfold get_travel_news, try_except. rewrite Hkey.
  unfold _get_newsapi_travel_news, try_except, bind, utcnow, lift_res, requests_get.
  destruct (Dt.timedelta_days days_back) as [delta | e]; [| reflexivity].
  destruct (Dt.add_checked _ _) as [since | e]; [| reflexivity].
  cbn [tick step]. rewrite Hhttp. reflexivity.
Qed.

Lemma openweather_failure_gives_none env location days w :
  Py.truthy (openweather_api_key (weather_api env)) = true ->
  http_reply env (step w) = HttpFailure ->
  fst (get_forecast env location days w) = Ok PyNone.
Proof.
  intros Hkey Hhttp.
  unfold get_forecast, try_except. rewrite Hkey.
  unfold _get_openweather_forecast, try_except, bind, requests_get.
  rewrite Hhttp. reflexivity.
Qed.

(** C1. With credentials configured and a live provider that does not
    answer, neither entry point raises, but both return None instead of a
    result tagged mock. *)
Theorem C1_live_failure_returns_None :
  fst (get_travel_news Example.env_live_down (PyStr "Paris") 7 Example.empty_world)
    = Ok PyNone /\
  fst (get_forecast Example.env_live_down (PyStr "Paris") 5 Example.empty_world)
    = Ok PyNone.
Proof.
  split.
  - apply newsapi_failure_gives_none; reflexivity.
  - apply openweather_failure_gives_none; reflexivity.
Qed.

(** ** Relevance scores *)

Lemma keyword_score_bounds (title description location_lower : string) (s : spec_float) :
  s = keyword_score title description location_lower \/
  s = F64.add (keyword_score title description location_lower) (F64.lit 2 10) \/
  s = F64.add (keyword_score title description location_lower) (F64.lit 1 10) ->
  F64.leb (F64.of_Z 0) (F64.min s (F64.of_Z 1)) = true /\
  F64.leb (F64.min s (F64.of_Z 1)) (F64.of_Z 1) = true.
Proof.
  unfold keyword_score.
  destruct (Str.contains location_lower title),
           (Str.contains location_lower description),
           (existsb _ ["security alert"; "travel warning"; "embassy"; "border closure"]),
           (existsb _ ["flight"; "airport"; "hotel"; "tourism"]);
    intros [-> | [-> | ->]]; vm_compute; split; reflexivity.
Qed.

Lemma with_recency_cases env score published_at w s w' :
  with_recency env score published_at w = (Ok s, w') ->
  s = score \/ s = F64.add score (F64.lit 2 10) \/ s = F64.add score (F64.lit 1 10).
Proof.
  unfold with_recency, bind, lift_res, raise, ret, utcnow.
  destruct (Py.replace_Z published_at) as [iso | e]; [| discriminate].
  destruct (fromisoformat (runtime env) iso) as [pub_date |]; [| discriminate].
  destruct (Dt.sub _ _) as [age | e]; [| discriminate].
  destruct (F64.ltb _ (F64.of_Z 6)); [intros [= <- _]; auto |].
  destruct (F64.ltb _ (F64.of_Z 24)); intros [= <- _]; auto.
Qed.

Lemma with_recency_unparseable env score d w :
  unparseable (runtime env) d ->
  exists e, with_recency env score
              match Py.lookup "publishedAt" d with Some v => v | None => PyStr "" end w
            = (Raise e, w).
Proof.
  unfold unparseable, with_recency, bind, lift_res, raise, from_option, id.
  destruct (Py.replace_Z _) as [iso | e]; [intros -> |]; eauto.
Qed.

Lemma lower_field_text {S} d k (s : S) :
  text_or_missing d k ->
  lower_field (PyDict d) k s = (Ok (Str.lower (text_of d k)), s).
Proof.
  unfold text_or_missing, text_of, lower_field, bind, lift_res, Py.get.
  destruct (Py.lookup k d) as [[] |]; simpl; intros H; try contradiction; reflexivity.
Qed.

(** C6. For every article whose title and description are strings (or
    missing), every location string and every publish timestamp, the
    relevance score is computed without error and lies between 0.0 and
    1.0; when the timestamp is missing or does not parse the score is the
    keyword score capped at 1.0, that is, the recency bonus is 0. *)
Theorem C6_relevance_in_unit_interval env (d : list (string * pyval))
    (location : string) (w : World) :
  text_or_missing d "title" ->
  text_or_missing d "description" ->
  exists (score : spec_float) (w' : World),
    _calculate_relevance env (PyDict d) (PyStr location) w = (Ok score, w') /\
    F64.leb (F64.of_Z 0) score = true /\
    F64.leb score (F64.of_Z 1) = true /\
    (unparseable (runtime env) d ->
     w' = w /\
     score = F64.min (keyword_score (Str.lower (text_of d "title"))
                                    (Str.lower (text_of d "description"))
                                    (Str.lower location))
                     (F64.of_Z 1)).
Proof.
  intros Htitle Hdescription.
  unfold _calculate_relevance.
  unfold bind at 1. rewrite (lower_field_text d "title" w Htitle).
  unfold bind at 1. rewrite (lower_field_text d "description" w Hdescription).
  unfold bind, lift_res, try_except, ret. cbn [Py.lower Py.get].
  set (ks := keyword_score _ _ _).
  destruct (with_recency env ks _ w) as [[s | e] w1] eqn:Hrec.
  - exists (F64.min s (F64.of_Z 1)), w1.
    destruct (keyword_score_bounds _ _ _ s (with_recency_cases _ _ _ _ _ _ Hrec)) as [H0 H1].
    split; [reflexivity |]. split; [exact H0 |]. split; [exact H1 |].
    intros Hbad. destruct (with_recency_unparseable env ks d w Hbad) as [e He].
    rewrite He in Hrec. discriminate.
  - exists (F64.min ks (F64.of_Z 1)), w1.
    destruct (keyword_score_bounds _ _ _ ks (or_introl eq_refl)) as [H0 H1].
    split; [reflexivity |]. split; [exact H0 |]. split; [exact H1 |].
    intros Hbad. destruct (with_recency_unparseable env ks d w Hbad) as [e' He].
    rewrite He in Hrec. split; [congruence | reflexivity].
Qed.

Lemma C6_relevance_in_unit_interval_witness :
  text_or_missing Example.article "title" /\
  text_or_missing Example.article "description" /\
  exists (score : spec_float) (w' : World),
    _calculate_relevance Example.env (PyDict Example.article) (PyStr "Paris")
      Example.empty_world = (Ok score, w') /\
    F64.leb (F64.of_Z 0) score = true /\
    F64.leb score (F64.of_Z 1) = true.
Proof.
  split; [simpl; exact I |]. split; [simpl; exact I |].
  destruct (C6_relevance_in_unit_interval Example.env Example.article "Paris"
              Example.empty_world) as (score & w' & H & H0 & H1 & _);
    [simpl; exact I | simpl; exact I |].
  exists score, w'. repeat split; assumption.
Defined.

(** ** The weather evaluator *)



Lemma weather_day_at_most_one env location day_forecast s :
  exists l, snd (snd (weather_day_alerts env location day_forecast s)) = (snd s ++ l)%list /\
            (length l <= 1)%nat.
Proof.
  unfold weather_day_alerts, bind, lift_res, ret, emit, liftW, utcnow.
  destruct (Py.get day_forecast "date" PyNone) as [forecast_date | e];
    [| exists []; rewrite app_nil_r; auto].
  destruct (Py.get day_forecast "conditions" (PyDict [])) as [conditions | e];
    [| exists []; rewrite app_nil_r; auto].
  destruct (Py.get conditions "description" (PyStr "")) as [description | e];
    [| exists []; rewrite app_nil_r; auto].
  destruct (Py.lower description) as [lowered | e];
    [| exists []; rewrite app_nil_r; auto].
  destruct (Str.any_in _ lowered).
  - destruct (Py.get conditions "description" (PyStr "N/A")) as [shown | e];
      [| exists []; rewrite app_nil_r; auto].
    cbn [fst snd]. eexists [_]. split; [reflexivity | auto].
  - destruct (Str.any_in _ lowered).
    + destruct (Py.get conditions "description" (PyStr "N/A")) as [shown | e];
        [| exists []; rewrite app_nil_r; auto].
      cbn [fst snd]. eexists [_]. split; [reflexivity | auto].
    + exists []. rewrite app_nil_r; auto.
Qed.


(** The loop over the forecast days of one destination appends at most
    one alert a day, also when a day ends the loop with an exception. *)
Lemma weather_days_at_most_one_each env location days s :
  exists l,
    snd (snd (for_each days (weather_day_alerts env location) s)) = (snd s ++ l)%list /\
    (length l <= length days)%nat.
Proof.
  revert s. induction days as [| day days IH]; intros s.
  - exists []. cbn. rewrite app_nil_r. auto.
  - cbn [for_each]. unfold bind.
    destruct (weather_day_at_most_one env location day s) as (l1 & H1 & L1).
    destruct (weather_day_alerts env location day s) as [[u | e] s1]; cbn [snd] in H1.
    + destruct (IH s1) as (l2 & H2 & L2).
      exists (l1 ++ l2)%list. rewrite H2, H1, <- app_assoc.
      split; [reflexivity |]. rewrite length_app. cbn [length]. lia.
    + exists l1. cbn [snd length]. split; [assumption | lia].
Qed.


(** From the reply of the provider to the alert list: the stormy day gives
    one severe_weather alert, the clear day gives none. *)
Lemma stormy_forecast_gives_one_alert :
  match fst (check_weather_alerts Example.env_stormy Example.trip_to_paris
               Example.empty_world) with
  | Ok alerts => map (fun a => (Py.item a "type", Py.item a "priority", Py.item a "date")) alerts
  | Raise _ => []
  end
  = [(Ok (PyStr "severe_weather"), Ok (PyInt 4), Ok (PyStr "2026-11-05"))].
Proof. vm_compute. reflexivity. Qed.

(** ** The user-state store *)


(** Reading the store leaves the table and the bucket as they are. *)
Lemma get_user_data_frame env user_id w :
  table (snd (get_user_data env user_id w)) = table w /\
  bucket (snd (get_user_data env user_id w)) = bucket w.
Proof.
  unfold get_user_data, try_except_client, try_except, bind, string_param,
    aws_call, get_table, ret, raise.
  destruct user_id; cbn; auto.
  destruct (aws_outcome env (step w)); cbn; auto.
  destruct (table w !! s); cbn; auto.
Qed.

(** When the store has data for the user, the data is the record of the
    user's item, and the read was one AWS call. *)
Lemma get_user_data_found env user_id w user_data w1 :
  get_user_data env user_id w = (Ok user_data, w1) ->
  Py.truthy user_data = true ->
  exists uid item,
    user_id = PyStr uid /\ table w !! uid = Some item /\
    user_data = user_record user_id item /\ w1 = tick w.
Proof.
  unfold get_user_data, try_except_client, try_except, bind, string_param,
    aws_call, get_table, ret, raise.
  destruct user_id; cbn; try discriminate.
  destruct (aws_outcome env (step w)); cbn; try discriminate;
    try (intros [= <- <-]; discriminate).
  destruct (table w !! s) as [item |] eqn:E; cbn;
    intros [= <- <-]; [| discriminate]; intros _.
  exists s, item. repeat split; assumption.
Qed.

(** ** Refreshing the alerts of a user without stored data *)

(** C10. When the store returns no data for the user (no item, or a
    client error on the read), [handle_alerts] writes nothing: the table,
    and with it the state of every user, is the one before the call; and
    for a user id that is not empty the response carries an empty alert
    list. *)
Theorem C10_no_user_data_no_write env (user_id : pyval) (w : World) :
  fst (get_user_data env user_id w) = Ok PyNone ->
  table (snd (handle_alerts env user_id w)) = table w /\
  bucket (snd (handle_alerts env user_id w)) = bucket w /\
  (Py.truthy user_id = true ->
   fst (handle_alerts env user_id w)
   = Ok (jsonify [("message", PyStr "No user data found"); ("alerts", PyList [])])).
Proof.
  intros Hnone.
  pose proof (get_user_data_frame env user_id w) as [Ht Hb].
  unfold handle_alerts, try_except, bind, ret.
  destruct (Py.truthy user_id); cbn [negb].
  - destruct (get_user_data env user_id w) as [[ud | e] w1]; cbn in Hnone;
      [| discriminate].
    injection Hnone as ->. cbn in *. repeat split; assumption.
  - cbn. repeat split; discriminate.
Qed.

Lemma C10_no_user_data_no_write_witness :
  fst (get_user_data Example.env (PyStr "u2") Example.world) = Ok PyNone /\
  table (snd (handle_alerts Example.env (PyStr "u2") Example.world)) = table Example.world /\
  fst (handle_alerts Example.env (PyStr "u2") Example.world)
  = Ok (jsonify [("message", PyStr "No user data found"); ("alerts", PyList [])]).
Proof.
  split; [reflexivity |].
  destruct (C10_no_user_data_no_write Example.env (PyStr "u2") Example.world eq_refl)
    as (Ht & _ & Hr).
  split; [exact Ht | exact (Hr eq_refl)].
Defined.

(** ** Dismissing an alert *)




(** ** Custom alerts *)

Lemma user_record_custom_alerts user_id item :
  Py.get (user_record user_id item) "custom_alerts" (PyList []) = Ok (PyList []).
Proof.
  unfold user_record.
  destruct (Bookings item), (Preferences item), (CurrentItinerary item); reflexivity.
Qed.

(** C8. [create_custom_alert] rejects with status 400, and without
    touching the state, every request that lacks a user id and every
    request whose alert specification is missing or empty. A specification
    that is not empty is accepted also when it carries no message: the
    created alert takes the caller's fields and defaults priority to 1,
    action_required to false and the message to the empty string. *)
Theorem C8_custom_alert_validation_and_defaults env (d : list (string * pyval))
    (w : World) :
  (Py.truthy (default PyNone (Py.lookup "user_id" d)) = false \/
   Py.truthy (default (PyDict []) (Py.lookup "alert" d)) = false ->
   create_custom_alert env (PyDict d) w
   = (Ok (jsonify_code [("error", PyStr "Missing user_id or alert data")] 400), w)) /\
  (forall (spec : list (string * pyval)) (resp : Response) (w' : World),
      Py.truthy (default PyNone (Py.lookup "user_id" d)) = true ->
      Py.lookup "alert" d = Some (PyDict spec) ->
      spec <> [] ->
      create_custom_alert env (PyDict d) w = (Ok resp, w') ->
      status resp = 200 ->
      Py.item (body resp) "alert"
      = Ok (custom_alert_of spec (isoformat (runtime env) (Dt.naive (clock env (step w)))))).
Proof.
  split.
  - intros H. unfold create_custom_alert, try_except, bind, lift_res, ret, Py.get.
    unfold from_option, id in H.
    destruct H as [H | H]; rewrite H; [reflexivity |].
    rewrite orb_true_r. reflexivity.
  - intros spec resp w' Tu Hspec Hne.
    unfold create_custom_alert, try_except, bind, lift_res, ret, Py.get, utcnow.
    unfold from_option, id in Tu. rewrite Tu, Hspec.
    destruct spec as [| kv spec']; [contradiction |].
    cbn [Py.truthy negb orb].
    set (spec := kv :: spec').
    destruct (get_user_data env _ (tick w)) as [[ud | e] w1] eqn:Hget;
      [| intros [= <- _]; discriminate].
    assert (Hca : Py.get (or_empty_dict ud) "custom_alerts" (PyList []) = Ok (PyList [])).
    { unfold or_empty_dict. destruct (Py.truthy ud) eqn:Tud; [| reflexivity].
      destruct (get_user_data_found _ _ _ _ _ Hget Tud) as (uid & item & _ & _ & -> & _).
      apply user_record_custom_alerts. }
    unfold Py.get in Hca.
    destruct (or_empty_dict ud) as [| | | | | | ud']; try discriminate.
    injection Hca as Hca. rewrite Hca. cbn [py_append Py.setitem].
    destruct (save_user_data env _ _ w1) as [[[|] | e] w2];
      intros [= <- _]; try discriminate.
    intros _. reflexivity.
Qed.

Lemma C8_custom_alert_validation_and_defaults_witness :
  Py.truthy (default PyNone (Py.lookup "user_id" custom_without_message)) = true /\
  Py.lookup "alert" custom_without_message
  = Some (PyDict [("title", PyStr "Pack the adapter")]) /\
  exists resp,
    fst (create_custom_alert Example.env (PyDict custom_without_message) Example.world)
    = Ok resp /\
    status resp = 200 /\
    Py.item (body resp) "alert"
    = Ok (custom_alert_of [("title", PyStr "Pack the adapter")] "2026-11-03T10:00:00") /\
    Py.item (custom_alert_of [("title", PyStr "Pack the adapter")] "2026-11-03T10:00:00")
      "priority" = Ok (PyInt 1) /\
    Py.item (custom_alert_of [("title", PyStr "Pack the adapter")] "2026-11-03T10:00:00")
      "action_required" = Ok (PyBool false) /\
    Py.item (custom_alert_of [("title", PyStr "Pack the adapter")] "2026-11-03T10:00:00")
      "message" = Ok (PyStr "").
Proof.
  split; [reflexivity |]. split; [reflexivity |].
  pose proof (proj2 (C8_custom_alert_validation_and_defaults Example.env
                       custom_without_message Example.world)
                [("title", PyStr "Pack the adapter")]) as H.
  destruct (create_custom_alert Example.env (PyDict custom_without_message) Example.world)
    as [r w'] eqn:E.
  vm_compute in E. injection E as <- <-.
  eexists. split; [reflexivity |]. split; [reflexivity |].
  split; [| repeat split; reflexivity].
  apply (H _ _ eq_refl eq_refl ltac:(discriminate) eq_refl eq_refl).
Defined.

(** A request with a user id and an alert specification that has a title
    but no message is accepted. *)
Lemma C8_alert_without_message_is_accepted :
  Py.lookup "message" [("title", PyStr "Pack the adapter")] = None /\
  fst (create_custom_alert Example.env (PyDict custom_without_message) Example.world)
  = Ok (jsonify [("message", PyStr "Custom alert created successfully");
                 ("alert", custom_alert_of [("title", PyStr "Pack the adapter")]
                                           "2026-11-03T10:00:00")]).
Proof. split; vm_compute; reflexivity. Qed.

(** ** The flight evaluator *)

Lemma nonempty_truthy s : s <> "" -> Py.truthy (PyStr s) = true.
Proof. destruct s; [contradiction | reflexivity]. Qed.

(** C3. For a confirmed flight booking whose departure timestamp parses
    to a datetime without UTC offset: 23 hours ahead of the clock the
    evaluator emits exactly one alert, a flight_checkin_reminder of
    priority 3; 10 hours ahead it emits nothing; two hours and a half
    ahead it emits one departure_reminder of priority 4 whose message
    shows 2.5 hours, followed by a gate_change alert of priority 5
    exactly when the simulated draw is below 0.1. *)
Theorem C3_flight_timing env (booking details : list (string * pyval))
    (departure : string) (dept : datetime) (w : World) :
  confirmed_flight booking details departure ->
  fromisoformat (runtime env) (Str.replace_char "Z" "+00:00" departure) = Some dept ->
  dt_offset dept = None ->
  (dt_wall dept - clock env (step w) = Dt.hours 23 ->
   exists a, fst (check_flight_alerts env (PyList [PyDict booking]) w) = Ok [a] /\
             alert_shape "flight_checkin_reminder" 3 true a) /\
  (dt_wall dept - clock env (step w) = Dt.hours 10 ->
   fst (check_flight_alerts env (PyList [PyDict booking]) w) = Ok []) /\
  (dt_wall dept - clock env (step w) = two_and_a_half_hours ->
   exists a,
     alert_shape "departure_reminder" 4 false a /\
     Py.item a "message" = Ok (departure_message env details) /\
     if F64.ltb (draw_at env (S (step w))) (F64.lit 1 10)
     then exists g, fst (check_flight_alerts env (PyList [PyDict booking]) w) = Ok [a; g] /\
                    alert_shape "gate_change" 5 true g
     else fst (check_flight_alerts env (PyList [PyDict booking]) w) = Ok [a]).
Proof.
  intros (Hty & Hst & Hde & Hdd & Hne) Hparse Hnaive.
  pose proof (nonempty_truthy _ Hne) as Htruthy.
  unfold check_flight_alerts, run_evaluator, for_each, flight_booking_alerts,
    parse_iso, try_except, bind, lift_res, ret, raise, liftW, emit, utcnow,
    random_random, random_choice, next_word, Py.iter, Py.get, Py.replace_Z.
  rewrite Hty, Hst, Hde, Hdd. cbn [Py.is_str String.eqb Ascii.eqb Bool.eqb negb orb].
  rewrite Htruthy, Hparse. cbn [negb fst snd].
  unfold Dt.sub. rewrite Hnaive. cbn [Dt.naive dt_offset dt_wall].
  repeat split.
  - intros ->. eexists. split; [reflexivity | repeat split].
  - intros ->. reflexivity.
  - intros ->.
    change ((Dt.hours 22 <=? two_and_a_half_hours)
            && (two_and_a_half_hours <=? Dt.hours 24)) with false.
    change ((Dt.hours 2 <=? two_and_a_half_hours)
            && (two_and_a_half_hours <=? Dt.hours 3)) with true.
    change ((two_and_a_half_hours <=? Dt.hours 6)
            && (Dt.hours 0 <=? two_and_a_half_hours)) with true.
    unfold bind, ret.
    cbn beta iota delta [fst snd tick step app].
    fold (draw_at env (S (step w))).
    eexists. split; [| split].
    3: { destruct (F64.ltb (draw_at env (S (step w))) (F64.lit 1 10)).
         - eexists. split; [reflexivity | repeat split].
         - reflexivity. }
    + repeat split.
    + reflexivity.
Qed.

Lemma C3_flight_timing_witness :
  (forall departure, departure <> "" ->
     confirmed_flight
       [("booking_id", PyStr "b1"); ("type", PyStr "flight"); ("status", PyStr "confirmed");
        ("details", PyDict [("flight_number", PyStr "AI101");
                            ("departure_date", PyStr departure)])]
       [("flight_number", PyStr "AI101"); ("departure_date", PyStr departure)]
       departure) /\
  (Iso.parse "2026-11-04T09:00:00" = Some (Dt.naive (Example.t0 + Dt.hours 23)) /\
   exists a,
     fst (check_flight_alerts Example.env (PyList [Example.flight "2026-11-04T09:00:00"])
            Example.empty_world) = Ok [a] /\
     alert_shape "flight_checkin_reminder" 3 true a) /\
  (Iso.parse "2026-11-03T20:00:00" = Some (Dt.naive (Example.t0 + Dt.hours 10)) /\
   fst (check_flight_alerts Example.env (PyList [Example.flight "2026-11-03T20:00:00"])
          Example.empty_world) = Ok []) /\
  (Iso.parse "2026-11-03T12:30:00" = Some (Dt.naive (Example.t0 + two_and_a_half_hours)) /\
   exists a,
     fst (check_flight_alerts Example.env (PyList [Example.flight "2026-11-03T12:30:00"])
            Example.empty_world) = Ok [a] /\
     alert_shape "departure_reminder" 4 false a /\
     Py.item a "message"
     = Ok (PyStr "Your flight AI101 departs in approximately 2.5 hours")).
Proof.
  assert (Hc : forall departure, departure <> "" ->
     confirmed_flight
       [("booking_id", PyStr "b1"); ("type", PyStr "flight"); ("status", PyStr "confirmed");
        ("details", PyDict [("flight_number", PyStr "AI101");
                            ("departure_date", PyStr departure)])]
       [("flight_number", PyStr "AI101"); ("departure_date", PyStr departure)]
       departure).
  { intros departure Hd. repeat split; assumption. }
  split; [exact Hc |].
  split; [split; [reflexivity |] | split; [split; [reflexivity |] | split; [reflexivity |]]].
  - apply (proj1 (C3_flight_timing Example.env _ _ "2026-11-04T09:00:00"
                    (Dt.naive (Example.t0 + Dt.hours 23)) Example.empty_world
                    (Hc "2026-11-04T09:00:00" ltac:(discriminate)) eq_refl eq_refl)).
    reflexivity.
  - apply (proj1 (proj2 (C3_flight_timing Example.env _ _ "2026-11-03T20:00:00"
                    (Dt.naive (Example.t0 + Dt.hours 10)) Example.empty_world
                    (Hc "2026-11-03T20:00:00" ltac:(discriminate)) eq_refl eq_refl))).
    reflexivity.
  - destruct (proj2 (proj2 (C3_flight_timing Example.env _ _ "2026-11-03T12:30:00"
                    (Dt.naive (Example.t0 + two_and_a_half_hours)) Example.empty_world
                    (Hc "2026-11-03T12:30:00" ltac:(discriminate)) eq_refl eq_refl)) eq_refl)
      as (a & Hshape & Hmessage & Hdraw).
    assert (Hd : F64.ltb (draw_at Example.env (S (step Example.empty_world))) (F64.lit 1 10)
                 = false) by (vm_compute; reflexivity).
    rewrite Hd in Hdraw.
    exists a. split; [exact Hdraw |]. split; [exact Hshape |].
    rewrite Hmessage. vm_compute. reflexivity.
Defined.

(** A departure two hours and a half ahead with a draw below 0.1: the
    departure reminder comes with a gate change alert. *)
Lemma C3_gate_change_joins_departure_reminder :
  Iso.parse "2026-11-03T12:30:00"
  = Some (Dt.naive (clock Example.env_low_draw 0 + two_and_a_half_hours)) /\
  match fst (check_flight_alerts Example.env_low_draw
               (PyList [Example.flight "2026-11-03T12:30:00"]) Example.empty_world) with
  | Ok alerts => map (fun a => Py.item a "type") alerts
  | Raise _ => []
  end = [Ok (PyStr "departure_reminder"); Ok (PyStr "gate_change")].
Proof. split; vm_compute; reflexivity. Qed.

(** A departure written with the suffix Z parses to a datetime with an
    offset; subtracting the naive clock reading raises, the evaluator
    stops there, and the bookings after it are not looked at. *)
Lemma flight_with_utc_suffix_ends_the_evaluation :
  fst (check_flight_alerts Example.env
         (PyList [Example.flight "2026-11-04T09:00:00Z";
                  Example.flight "2026-11-04T09:00:00"]) Example.empty_world)
  = Ok [].
Proof. vm_compute. reflexivity. Qed.

(** ** Itinerary records *)

Lemma keeps_ret {A} (a : A) : keeps_table (ret a).
Proof. intros w. reflexivity. Qed.

Lemma keeps_raise {A} (e : exn) : keeps_table (raise (A := A) e).
Proof. intros w. reflexivity. Qed.

Lemma keeps_lift_res {A} (r : Res A) : keeps_table (lift_res r).
Proof. intros w. reflexivity. Qed.

Lemma keeps_utcnow env : keeps_table (utcnow env).
Proof. intros w. reflexivity. Qed.

Lemma keeps_bind {A B} (m : M World A) (k : A -> M World B) :
  keeps_table m -> (forall a, keeps_table (k a)) -> keeps_table (bind m k).
Proof.
  intros Hm Hk w. unfold bind. specialize (Hm w).
  destruct (m w) as [[a | e] w1]; cbn in *; [| assumption].
  rewrite Hk. assumption.
Qed.

Lemma keeps_map_m {A B} (f : A -> M World B) (l : list A) :
  (forall x, keeps_table (f x)) -> keeps_table (map_m f l).
Proof.
  intros Hf. induction l as [| x t IH]; cbn [map_m].
  - apply keeps_ret.
  - apply keeps_bind; [apply Hf | intros y].
    apply keeps_bind; [exact IH | intros ys]. apply keeps_ret.
Qed.

Lemma keeps_default_days env duration destination :
  keeps_table (create_default_day_structure env duration destination).
Proof.
  unfold create_default_day_structure. apply keeps_map_m. intros i.
  unfold default_day. apply keeps_bind; [apply keeps_utcnow | intros now].
  apply keeps_bind; [apply keeps_lift_res | intros delta].
  apply keeps_bind; [apply keeps_lift_res | intros date]. apply keeps_ret.
Qed.

Lemma parse_date_pure env {S} v :
  pure_in (S := S) (parse_date env v) (fst (parse_date env v tt)).
Proof.
  intros s. unfold parse_date, bind, lift_res, ret, raise.
  destruct (Py.replace_Z v); [| reflexivity].
  destruct (fromisoformat _ _); reflexivity.
Qed.

Lemma trip_duration_pure env {S} a b :
  pure_in (S := S) (trip_duration env a b) (fst (trip_duration env a b tt)).
Proof.
  intros s. unfold trip_duration, parse_date, bind, lift_res, ret, raise.
  destruct (Py.replace_Z a) as [sa | e]; cbn; [| reflexivity].
  destruct (fromisoformat (runtime env) sa) as [da |]; cbn; [| reflexivity].
  destruct (Py.replace_Z b) as [sb | e]; cbn; [| reflexivity].
  destruct (fromisoformat (runtime env) sb) as [db |]; cbn; [| reflexivity].
  destruct (Dt.sub db da); reflexivity.
Qed.

Lemma item_store_other k f v d :
  k <> f -> Py.lookup k (Py.store f v d) = Py.lookup k d.
Proof.
  intros Hne. induction d as [| [k' v'] t IH]; cbn.
  - destruct (String.eqb_spec k f); [contradiction | reflexivity].
  - destruct (String.eqb_spec f k') as [-> | Hf]; cbn.
    + destruct (String.eqb_spec k k'); [contradiction | reflexivity].
    + destruct (String.eqb_spec k k'); [reflexivity | exact IH].
Qed.

Lemma item_store_same k v d : Py.lookup k (Py.store k v d) = Some v.
Proof.
  induction d as [| [k' v'] t IH]; cbn.
  - rewrite String.eqb_refl. reflexivity.
  - destruct (String.eqb_spec k k') as [-> | Hf]; cbn.
    + rewrite String.eqb_refl. reflexivity.
    + destruct (String.eqb_spec k k'); [contradiction | exact IH].
Qed.

Lemma item_setitem_other x f v x' k :
  Py.setitem x f v = Ok x' -> k <> f -> Py.item x' k = Py.item x k.
Proof.
  destruct x; cbn; try discriminate. intros [= <-] Hne. cbn.
  rewrite item_store_other by assumption. reflexivity.
Qed.

Lemma item_setitem_same x f v x' :
  Py.setitem x f v = Ok x' -> Py.item x' f = Ok v.
Proof.
  destruct x; cbn; try discriminate. intros [= <-]. cbn.
  rewrite item_store_same. reflexivity.
Qed.

(** Copying the caller's fields leaves alone every key that is not
    copied. *)
Lemma copy_fields_keeps {S} fields itinerary_data k :
  (~ In k fields \/ Py.contains k itinerary_data = Ok false) ->
  forall existing (s : S) r s',
    copy_fields fields itinerary_data existing s = (Ok r, s') ->
    Py.item r k = Py.item existing k.
Proof.
  intros Hk. induction fields as [| f rest IH]; intros existing s r s'.
  - cbn. unfold ret. intros [= <- _]. reflexivity.
  - cbn [copy_fields]. unfold bind, lift_res.
    assert (Hrest : ~ In k rest \/ Py.contains k itinerary_data = Ok false).
    { destruct Hk as [Hk | Hk]; [left; intros H; apply Hk; right; exact H | right; exact Hk]. }
    destruct (Py.contains f itinerary_data) as [[|] | e] eqn:Hf; try discriminate.
    + destruct (Py.item itinerary_data f) as [v | e]; [| discriminate].
      destruct (Py.setitem existing f v) as [existing' | e] eqn:Hset; [| discriminate].
      intros H. rewrite (IH Hrest _ _ _ _ H).
      eapply item_setitem_other; [eassumption |].
      intros ->. destruct Hk as [Hk | Hk]; [apply Hk; left; reflexivity | congruence].
    + apply IH. exact Hrest.
Qed.

Lemma copy_fields_state {S} fields itinerary_data :
  forall existing (s : S), snd (copy_fields fields itinerary_data existing s) = s.
Proof.
  induction fields as [| f rest IH]; intros existing s; [reflexivity |].
  cbn [copy_fields]. unfold bind, lift_res.
  destruct (Py.contains f itinerary_data) as [[|] | e]; try reflexivity.
  - destruct (Py.item itinerary_data f) as [v | e]; [| reflexivity].
    destruct (Py.setitem existing f v) as [existing' | e]; [| reflexivity].
    apply IH.
  - apply IH.
Qed.

(** What [save_itinerary] does to the table: nothing, or it stores the
    record as the user's current itinerary and touches no other user. *)
Lemma save_itinerary_effect env user_id record w :
  table (snd (save_itinerary env user_id record w)) = table w \/
  exists uid, user_id = PyStr uid /\
              stored_itinerary (snd (save_itinerary env user_id record w)) uid = Some record /\
              forall other, other <> uid ->
                table (snd (save_itinerary env user_id record w)) !! other = table w !! other.
Proof.
  unfold save_itinerary, try_except_client, try_except, bind, utcnow, string_param,
    aws_call, get_table, put_table, ret, raise.
  destruct user_id; cbn; auto.
  destruct (aws_outcome env (S (step w))); cbn; auto.
  right. exists s. split; [reflexivity |]. split.
  - unfold stored_itinerary. cbn. rewrite lookup_insert_eq. reflexivity.
  - intros other Hne. rewrite lookup_insert_ne by congruence. reflexivity.
Qed.

(** What [get_itinerary] returns when it finds one. *)
Lemma get_itinerary_found env user_id w existing w1 :
  get_itinerary env user_id w = (Ok existing, w1) ->
  Py.truthy existing = true ->
  table w1 = table w /\
  exists uid, user_id = PyStr uid /\ stored_itinerary w uid = Some existing.
Proof.
  unfold get_itinerary, try_except_client, try_except, bind, string_param,
    aws_call, get_table, ret, raise.
  destruct user_id; cbn; try discriminate.
  destruct (aws_outcome env (step w)); cbn; try discriminate;
    try (intros [= <- <-]; discriminate).
  unfold stored_itinerary.
  destruct (table w !! s) as [item |] eqn:E; cbn; [| intros [= <- <-]; discriminate].
  destruct (CurrentItinerary item) eqn:E'; cbn; intros [= <- <-]; [| discriminate].
  intros _. split; [reflexivity |]. exists s. rewrite E. split; [reflexivity | exact E'].
Qed.

Lemma get_itinerary_frame env user_id w :
  table (snd (get_itinerary env user_id w)) = table w.
Proof.
  unfold get_itinerary, try_except_client, try_except, bind, string_param,
    aws_call, get_table, ret, raise.
  destruct user_id; cbn; auto.
  destruct (aws_outcome env (step w)); cbn; auto.
  destruct (table w !! s); cbn; auto.
Qed.

Lemma bind_lift_res {S A B} (r : Res A) (k : A -> M S B) (s : S) :
  bind (lift_res r) k s = match r with Ok a => k a s | Raise e => (Raise e, s) end.
Proof. unfold bind, lift_res. destruct r; reflexivity. Qed.

Lemma bind_ret {S A B} (a : A) (k : A -> M S B) (s : S) : bind (ret a) k s = k a s.
Proof. reflexivity. Qed.

Lemma bind_utcnow env {B} (k : datetime -> M World B) (w : World) :
  bind (utcnow env) k w = k (Dt.naive (clock env (step w))) (tick w).
Proof. reflexivity. Qed.

Lemma bind_pure {S A B} (m : M S A) (r : Res A) (k : A -> M S B) (s : S) :
  pure_in m r ->
  bind m k s = match r with Ok a => k a s | Raise e => (Raise e, s) end.
Proof. intros H. unfold bind. rewrite H. destruct r; reflexivity. Qed.

Lemma bind_assoc {S A B C} (m : M S A) (f : A -> M S B) (g : B -> M S C) (s : S) :
  bind (bind m f) g s = bind m (fun a => bind (f a) g) s.
Proof. unfold bind. destruct (m s) as [[a | e] s']; reflexivity. Qed.

(** The last step of both handlers: store the record, then answer. *)
Lemma store_and_answer env user_id record (yes no err : Response) w0 w :
  table w = table w0 ->
  duration_invariant env record ->
  stores_sound_record env user_id w0
    (snd (let (r, s') :=
            bind (save_itinerary env user_id record)
                 (fun success : bool => if success then ret yes else ret no) w in
          match r with
          | Ok a => (Ok a, s')
          | Raise e => (Ok err, s')
          end)).
Proof.
  intros Ht Hinv. unfold bind.
  pose proof (save_itinerary_effect env user_id record w) as Heff.
  destruct (save_itinerary env user_id record w) as [[[|] | e] w']; cbn in *.
  all: destruct Heff as [Heq | (uid & Hu & Hs & Ho)];
    [left; congruence | right; exists uid, record].
  all: repeat split; try assumption; intros other Hne; rewrite <- Ht; apply Ho, Hne.
Qed.

Lemma create_itinerary_sound env user_id itinerary_data w :
  stores_sound_record env user_id w (snd (create_itinerary env user_id itinerary_data w)).
Proof.
  unfold create_itinerary, try_except.
  rewrite bind_lift_res.
  destruct (first_missing _ itinerary_data) as [[field |] | e]; cbn [snd];
    try (left; reflexivity).
  rewrite bind_utcnow.
  rewrite bind_lift_res.
  destruct (Py.item itinerary_data "destination") as [destination | e];
    [| left; reflexivity].
  rewrite bind_lift_res.
  destruct (Py.item itinerary_data "start_date") as [start_date | e];
    [| left; reflexivity].
  rewrite bind_lift_res.
  destruct (Py.item itinerary_data "end_date") as [end_date | e];
    [| left; reflexivity].
  rewrite bind_lift_res.
  cbn beta iota. rewrite bind_lift_res.
  destruct (Py.get itinerary_data "title" _) as [title | e]; [| left; reflexivity].
  rewrite bind_lift_res.
  destruct (Py.get itinerary_data "description" _) as [description | e];
    [| left; reflexivity].
  rewrite bind_lift_res.
  destruct (Py.get itinerary_data "days" _) as [days | e]; [| left; reflexivity].
  rewrite bind_lift_res.
  destruct (Py.get itinerary_data "budget" _) as [budget | e]; [| left; reflexivity].
  rewrite bind_lift_res.
  destruct (Py.get itinerary_data "travelers" _) as [travelers | e];
    [| left; reflexivity].
  rewrite bind_lift_res.
  destruct (Py.get itinerary_data "preferences" _) as [preferences | e];
    [| left; reflexivity].
  do 2 rewrite bind_utcnow.
  rewrite (bind_pure _ _ _ _ (trip_duration_pure env start_date end_date)).
  destruct (fst (trip_duration env start_date end_date tt)) as [duration | e] eqn:Hdur;
    [| left; reflexivity].
  destruct (Py.truthy days); cbn [negb].
  - rewrite bind_ret. apply store_and_answer; [reflexivity |].
    exists start_date, end_date, duration. repeat split; assumption.
  - rewrite bind_assoc. unfold bind at 1.
    pose proof (keeps_default_days env duration destination (tick (tick (tick w)))) as Hk.
    destruct (create_default_day_structure env duration destination _)
      as [[structure | e] w4]; cbn [snd] in *; [| left; exact Hk].
    rewrite bind_ret. apply store_and_answer; [exact Hk |].
    exists start_date, end_date, duration. repeat split; assumption.
Qed.

Lemma store_and_answer_any env user_id record (yes no err : Response) w0 w :
  table w = table w0 ->
  let w' := snd (let (r, s') :=
                   bind (save_itinerary env user_id record)
                        (fun success : bool => if success then ret yes else ret no) w in
                 match r with
                 | Ok a => (Ok a, s')
                 | Raise e => (Ok err, s')
                 end) in
  table w' = table w0 \/
  exists uid, user_id = PyStr uid /\
              stored_itinerary w' uid = Some record /\
              forall other, other <> uid -> table w' !! other = table w0 !! other.
Proof.
  intros Ht. unfold bind.
  pose proof (save_itinerary_effect env user_id record w) as Heff.
  destruct (save_itinerary env user_id record w) as [[[|] | e] w']; cbn in *.
  all: destruct Heff as [Heq | (uid & Hu & Hs & Ho)];
    [left; congruence | right; exists uid].
  all: repeat split; try assumption; intros other Hne; rewrite <- Ht; apply Ho, Hne.
Qed.

Lemma duration_days_not_updatable : ~ In "duration_days" updatable_fields.
Proof. cbn. intuition discriminate. Qed.

(** A record whose three fields are those of a record that keeps the
    invariant keeps it too. *)
Lemma duration_invariant_same_fields env a b :
  Py.item b "start_date" = Py.item a "start_date" ->
  Py.item b "end_date" = Py.item a "end_date" ->
  Py.item b "duration_days" = Py.item a "duration_days" ->
  duration_invariant env a -> duration_invariant env b.
Proof.
  intros H1 H2 H3 (s & e & d & Hs & He & Hd & Hn).
  exists s, e, d. rewrite H1, H2, H3. repeat split; assumption.
Qed.

(** The recomputation of [update_itinerary] establishes the invariant. *)
Lemma recomputed_invariant env existing start_field end_field duration record :
  Py.item existing "start_date" = Ok start_field ->
  Py.item existing "end_date" = Ok end_field ->
  fst (trip_duration env start_field end_field tt) = Ok duration ->
  Py.setitem existing "duration_days" (PyInt duration) = Ok record ->
  duration_invariant env record.
Proof.
  intros Hs He Hd Hset. exists start_field, end_field, duration.
  rewrite (item_setitem_other _ _ _ _ "start_date" Hset) by discriminate.
  rewrite (item_setitem_other _ _ _ _ "end_date" Hset) by discriminate.
  rewrite (item_setitem_same _ _ _ _ Hset). repeat split; assumption.
Qed.

Lemma update_itinerary_sound env user_id itinerary_data w :
  updates_soundly env user_id itinerary_data w
    (snd (update_itinerary env user_id itinerary_data w)).
Proof.
  unfold update_itinerary, try_except. unfold bind at 1.
  pose proof (get_itinerary_frame env user_id w) as Hframe.
  destruct (get_itinerary env user_id w) as [[existing | e] w1] eqn:Hget;
    cbn [snd] in Hframe; [| left; exact Hframe].
  destruct (Py.truthy existing) eqn:Htruthy; cbn [negb]; [| left; exact Hframe].
  destruct (get_itinerary_found _ _ _ _ _ Hget Htruthy) as (_ & uid & Huid & Hstored).
  unfold bind at 1.
  pose proof (copy_fields_state updatable_fields itinerary_data existing w1) as Hstate.
  destruct (copy_fields updatable_fields itinerary_data existing w1)
    as [[copied | e] w2] eqn:Hcopy; cbn [snd] in Hstate; subst w2;
    [| left; exact Hframe].
  rewrite bind_utcnow, bind_lift_res.
  destruct (Py.setitem copied "updated_at" _) as [stamped | e] eqn:Hstamp;
    [| left; exact Hframe].
  assert (Hfinish : forall record (yes no err : Response) w3,
             table w3 = table w ->
             (Py.contains "start_date" itinerary_data = Ok true \/
              Py.contains "end_date" itinerary_data = Ok true ->
              duration_invariant env record) ->
             (duration_invariant env existing -> duration_invariant env record) ->
             updates_soundly env user_id itinerary_data w
               (snd (let (r, s') :=
                       bind (save_itinerary env user_id record)
                            (fun success : bool => if success then ret yes else ret no) w3 in
                     match r with
                     | Ok a => (Ok a, s')
                     | Raise e => (Ok err, s')
                     end))).
  { intros record yes no err w3 Ht Hsup Hpres.
    destruct (store_and_answer_any env user_id record yes no err w w3 Ht)
      as [Heq | (uid' & Hu' & Hs' & Ho')]; [left; exact Heq | right].
    exists uid, existing, record.
    assert (uid' = uid) as -> by congruence.
    repeat split; assumption. }
  assert (Hrecompute :
            forall (k : pyval -> M World Response) (err : Response),
              (forall record,
                  duration_invariant env record ->
                  updates_soundly env user_id itinerary_data w
                    (snd (let (r, s') := k record (tick w1) in
                          match r with
                          | Ok a => (Ok a, s')
                          | Raise e => (Ok err, s')
                          end))) ->
              updates_soundly env user_id itinerary_data w
                (snd (let (r, s') :=
                        bind (start_field <- lift_res (Py.item stamped "start_date") ;;
                              end_field <- lift_res (Py.item stamped "end_date") ;;
                              duration <- trip_duration env start_field end_field ;;
                              lift_res (Py.setitem stamped "duration_days" (PyInt duration)))
                             k (tick w1) in
                      match r with
                      | Ok a => (Ok a, s')
                      | Raise e => (Ok err, s')
                      end))).
  { intros k err Hk.
    rewrite bind_assoc, bind_lift_res.
    destruct (Py.item stamped "start_date") as [start_field | e] eqn:Hs;
      [| left; exact Hframe].
    rewrite bind_assoc, bind_lift_res.
    destruct (Py.item stamped "end_date") as [end_field | e] eqn:He;
      [| left; exact Hframe].
    rewrite bind_assoc.
    rewrite (bind_pure _ _ _ _ (trip_duration_pure env start_field end_field)).
    destruct (fst (trip_duration env start_field end_field tt)) as [duration | e] eqn:Hd;
      [| left; exact Hframe].
    rewrite bind_lift_res.
    destruct (Py.setitem stamped "duration_days" _) as [record | e] eqn:Hset;
      [| left; exact Hframe].
    apply Hk. eapply recomputed_invariant; eassumption. }
  rewrite bind_lift_res.
  destruct (Py.contains "start_date" itinerary_data) as [[|] | e] eqn:Hhas_start;
    [| | left; exact Hframe].
  - rewrite bind_ret. apply Hrecompute. intros record Hinv.
    apply Hfinish; [exact Hframe | intros _; exact Hinv | intros _; exact Hinv].
  - rewrite bind_lift_res.
    destruct (Py.contains "end_date" itinerary_data) as [[|] | e] eqn:Hhas_end;
      [| | left; exact Hframe].
    + apply Hrecompute. intros record Hinv.
      apply Hfinish; [exact Hframe | intros _; exact Hinv | intros _; exact Hinv].
    + rewrite bind_ret. apply Hfinish; [exact Hframe | |].
      * intros [H | H]; discriminate.
      * apply duration_invariant_same_fields.
        -- rewrite (item_setitem_other _ _ _ _ "start_date" Hstamp) by discriminate.
           eapply copy_fields_keeps; [right; exact Hhas_start | exact Hcopy].
        -- rewrite (item_setitem_other _ _ _ _ "end_date" Hstamp) by discriminate.
           eapply copy_fields_keeps; [right; exact Hhas_end | exact Hcopy].
        -- rewrite (item_setitem_other _ _ _ _ "duration_days" Hstamp) by discriminate.
           eapply copy_fields_keeps; [left; exact duration_days_not_updatable | exact Hcopy].
Qed.

Lemma stored_itinerary_same w w' uid :
  table w' !! uid = table w !! uid -> stored_itinerary w' uid = stored_itinerary w uid.
Proof. unfold stored_itinerary. intros ->. reflexivity. Qed.

Lemma create_itinerary_preserves env user_id itinerary_data w :
  store_invariant env w ->
  store_invariant env (snd (create_itinerary env user_id itinerary_data w)).
Proof.
  intros Hinv uid0 record0 Hstored Htruthy.
  destruct (create_itinerary_sound env user_id itinerary_data w)
    as [Heq | (uid & record & _ & Hs & Hrec & Hother)].
  - apply (Hinv uid0); [| exact Htruthy].
    rewrite <- Hstored. symmetry. apply stored_itinerary_same. rewrite Heq. reflexivity.
  - destruct (String.eqb_spec uid0 uid) as [-> | Hne].
    + rewrite Hs in Hstored. injection Hstored as <-. exact Hrec.
    + apply (Hinv uid0); [| exact Htruthy].
      rewrite <- Hstored. symmetry. apply stored_itinerary_same, Hother, Hne.
Qed.

Lemma update_itinerary_preserves env user_id itinerary_data w :
  store_invariant env w ->
  store_invariant env (snd (update_itinerary env user_id itinerary_data w)).
Proof.
  intros Hinv uid0 record0 Hstored Htruthy.
  destruct (update_itinerary_sound env user_id itinerary_data w)
    as [Heq | (uid & existing & record & _ & Hex & Tex & Hs & Hother & _ & Hkeep)].
  - apply (Hinv uid0); [| exact Htruthy].
    rewrite <- Hstored. symmetry. apply stored_itinerary_same. rewrite Heq. reflexivity.
  - destruct (String.eqb_spec uid0 uid) as [-> | Hne].
    + rewrite Hs in Hstored. injection Hstored as <-.
      apply Hkeep. apply (Hinv uid existing); assumption.
    + apply (Hinv uid0); [| exact Htruthy].
      rewrite <- Hstored. symmetry. apply stored_itinerary_same, Hother, Hne.
Qed.


(** ** Sorting by a key, descending and stable *)

Section SortDesc.

Context {A : Type} (key : A -> Z).

Lemma insert_desc_perm x l : Permutation (x :: l) (insert_desc (key_lt key) x l).
Proof.
  induction l as [| y t IH]; cbn; [reflexivity |].
  destruct (key_lt key x y); [| reflexivity].
  rewrite perm_swap. constructor. exact IH.
Qed.

Lemma sort_desc_perm l : Permutation l (sort_desc (key_lt key) l).
Proof.
  induction l as [| x t IH]; cbn; [constructor |].
  rewrite <- insert_desc_perm. constructor. exact IH.
Qed.

Lemma insert_desc_descending x l : descending key l -> descending key (insert_desc (key_lt key) x l).
Proof.
  unfold descending. induction l as [| y t IH]; cbn; intros Hs.
  - repeat constructor.
  - inversion Hs as [| ? ? Ht Hy]; subst.
    destruct (key_lt key x y) eqn:E; unfold key_lt in E.
    + constructor; [apply IH, Ht |].
      apply Z.ltb_lt in E.
      eapply Permutation_Forall; [apply insert_desc_perm |].
      constructor; [lia | exact Hy].
    + apply Z.ltb_ge in E. constructor; [exact Hs |].
      constructor; [exact E |].
      eapply Forall_impl; [exact Hy |]. cbn. intros; lia.
Qed.

Lemma sort_desc_descending l : descending key (sort_desc (key_lt key) l).
Proof.
  induction l as [| x t IH]; cbn; [constructor | apply insert_desc_descending, IH].
Qed.

(** The items with one key keep their order. *)
Lemma insert_desc_stable k x l :
  List.filter (fun a => key a =? k) (insert_desc (key_lt key) x l)
  = List.filter (fun a => key a =? k) (x :: l).
Proof.
  induction l as [| y t IH]; [reflexivity |].
  cbn [insert_desc]. destruct (key_lt key x y) eqn:E; [| reflexivity].
  unfold key_lt in E. apply Z.ltb_lt in E.
  cbn [List.filter] in *. rewrite IH.
  destruct (Z.eqb_spec (key x) k), (Z.eqb_spec (key y) k); try reflexivity. lia.
Qed.

Lemma sort_desc_stable k l :
  List.filter (fun a => key a =? k) (sort_desc (key_lt key) l)
  = List.filter (fun a => key a =? k) l.
Proof.
  induction l as [| x t IH]; [reflexivity |].
  cbn [sort_desc fold_right]. rewrite insert_desc_stable.
  cbn [List.filter]. fold (sort_desc (key_lt key) t). rewrite IH. reflexivity.
Qed.

Lemma descending_nth l :
  descending key l ->
  forall (i j : nat) (a b : A),
    (i < j)%nat -> nth_error l i = Some a -> nth_error l j = Some b ->
    key b <= key a.
Proof.
  unfold descending. induction 1 as [| x t Ht IH Hx]; intros i j a b Hij Ha Hb.
  - destruct i; discriminate.
  - destruct j as [| j]; [lia |]. cbn in Hb.
    destruct i as [| i]; cbn in Ha.
    + injection Ha as <-. rewrite List.Forall_forall in Hx.
      apply Hx. eapply nth_error_In. exact Hb.
    + eapply IH; [| exact Ha | exact Hb]. lia.
Qed.

End SortDesc.

(** Sorting the decorated list and dropping the keys is sorting by the
    key. *)
Lemma insert_decorated {A} (key : A -> Z) x (lp : list (Z * A)) :
  Forall (fun p => fst p = key (snd p)) lp ->
  map snd (insert_desc (fun a b => fst a <? fst b) (key x, x) lp)
  = insert_desc (key_lt key) x (map snd lp).
Proof.
  induction 1 as [| p t Hp Ht IH]; [reflexivity |].
  cbn. unfold key_lt. rewrite Hp.
  destruct (key x <? key (snd p)); cbn; [rewrite IH |]; reflexivity.
Qed.

Lemma sort_desc_cons {A} (lt : A -> A -> bool) x l :
  sort_desc lt (x :: l) = insert_desc lt x (sort_desc lt l).
Proof. reflexivity. Qed.

Lemma sort_decorated {A} (key : A -> Z) (l : list A) :
  map snd (sort_desc (fun a b => fst a <? fst b) (combine (map key l) l))
  = sort_desc (key_lt key) l.
Proof.
  induction l as [| x t IH]; [reflexivity |].
  cbn [map combine]. rewrite !sort_desc_cons.
  rewrite insert_decorated; [rewrite IH; reflexivity |].
  eapply Permutation_Forall; [apply (sort_desc_perm fst) |].
  clear. induction t; cbn; constructor; auto.
Qed.

(** ** What the adapters and evaluators leave alone *)

Lemma keeps_try_except {A} (m : M World A) (h : exn -> M World A) :
  keeps_table m -> (forall e, keeps_table (h e)) -> keeps_table (try_except m h).
Proof.
  intros Hm Hh w. unfold try_except. specialize (Hm w).
  destruct (m w) as [[a | e] w1]; cbn in *; [assumption |].
  rewrite Hh. assumption.
Qed.

Lemma keeps_next_word env : keeps_table (next_word env).
Proof. intros w. reflexivity. Qed.

Lemma keeps_requests_get env : keeps_table (requests_get env).
Proof. intros w. unfold requests_get. destruct (http_reply env (step w)); reflexivity. Qed.

Lemma keeps_aws_call env : keeps_table (aws_call env).
Proof. intros w. unfold aws_call. destruct (aws_outcome env (step w)); reflexivity. Qed.

Lemma keeps_get_bucket : keeps_table get_bucket.
Proof. intros w. reflexivity. Qed.

Lemma keeps_get_table : keeps_table get_table.
Proof. intros w. reflexivity. Qed.

Ltac keeps_step :=
  first
    [ apply keeps_ret | apply keeps_raise | apply keeps_lift_res | apply keeps_utcnow
    | apply keeps_next_word | apply keeps_requests_get | apply keeps_aws_call
    | apply keeps_get_bucket | apply keeps_get_table
    | apply keeps_bind; [| intros ?]
    | apply keeps_try_except; [| intros ?]
    | apply keeps_map_m; intros ?
    | match goal with
      | |- keeps_table (if ?b then _ else _) => destruct b
      | |- keeps_table (match ?x with _ => _ end) => destruct x
      end ].

Ltac keeps := repeat keeps_step.

Lemma keeps_calculate_relevance env article location :
  keeps_table (_calculate_relevance env article location).
Proof.
  unfold _calculate_relevance, lower_field, with_recency. keeps.
Qed.

Lemma keeps_newsapi_articles env raw location :
  keeps_table (newsapi_articles env raw location).
Proof.
  induction raw as [| article rest IH]; cbn [newsapi_articles]; [apply keeps_ret |].
  apply keeps_bind; [unfold _is_travel_relevant, lower_field; keeps | intros relevant].
  destruct relevant; [| exact IH].
  apply keeps_bind; [| intros entry; apply keeps_bind; [exact IH | intros ?; apply keeps_ret]].
  unfold newsapi_entry, get2, snippet, _categorize_news, lower_field.
  repeat first [apply keeps_calculate_relevance | keeps_step].
Qed.

Lemma keeps_group_by_day env items :
  forall daily_forecasts current_date current_day,
    keeps_table (group_by_day env items daily_forecasts current_date current_day).
Proof.
  induction items as [| forecast rest IH]; intros; cbn [group_by_day]; [apply keeps_ret |].
  unfold openweather_day, weather0, widen_day, get2.
  repeat first [apply IH | keeps_step].
Qed.

Lemma keeps_get_travel_news env location days_back :
  keeps_table (get_travel_news env location days_back).
Proof.
  unfold get_travel_news, _get_newsapi_travel_news, _get_guardian_travel_news,
    _get_mock_travel_news, raise_for_status, response_json, guardian_entry, get2.
  repeat first [apply keeps_newsapi_articles | keeps_step].
Qed.

Lemma keeps_get_forecast env location days :
  keeps_table (get_forecast env location days).
Proof.
  unfold get_forecast, _get_openweather_forecast, _get_weatherapi_forecast,
    _get_mock_forecast, mock_day, raise_for_status, response_json, weatherapi_day,
    coordinates, get2, random_uniform, random_randint, random_choice, random_random.
  repeat first [apply keeps_group_by_day | keeps_step].
Qed.

Lemma keeps_describe_objects env objs : keeps_table (describe_objects env objs).
Proof.
  induction objs as [| obj rest IH]; cbn [describe_objects]; [apply keeps_ret |].
  unfold get_document_url, try_except_client.
  repeat first [apply IH | keeps_step].
Qed.

Lemma keeps_list_user_documents env user_id :
  keeps_table (list_user_documents env user_id).
Proof.
  unfold list_user_documents, try_except_client.
  repeat first [apply keeps_describe_objects | keeps_step].
Qed.

Lemma evolves_refl s : evolves s s.
Proof. split; auto. Qed.

Lemma evolves_trans s1 s2 s3 : evolves s1 s2 -> evolves s2 s3 -> evolves s1 s3.
Proof. intros [H1 H2] [H3 H4]. split; [congruence | auto]. Qed.

Lemma steady_ret {A} (a : A) : steady (ret a).
Proof. intros s. apply evolves_refl. Qed.

Lemma steady_raise {A} (e : exn) : steady (raise (A := A) e).
Proof. intros s. apply evolves_refl. Qed.

Lemma steady_lift_res {A} (r : Res A) : steady (lift_res r).
Proof. intros s. apply evolves_refl. Qed.

Lemma steady_bind {A B} (m : M EvalState A) (k : A -> M EvalState B) :
  steady m -> (forall a, steady (k a)) -> steady (bind m k).
Proof.
  intros Hm Hk s. unfold bind. specialize (Hm s).
  destruct (m s) as [[a | e] s1]; cbn in *; [| assumption].
  eapply evolves_trans; [exact Hm | apply Hk].
Qed.

Lemma steady_try_except {A} (m : M EvalState A) (h : exn -> M EvalState A) :
  steady m -> (forall e, steady (h e)) -> steady (try_except m h).
Proof.
  intros Hm Hh s. unfold try_except. specialize (Hm s).
  destruct (m s) as [[a | e] s1]; cbn in *; [assumption |].
  eapply evolves_trans; [exact Hm | apply Hh].
Qed.

Lemma steady_for_each {A} (l : list A) (body : A -> M EvalState unit) :
  (forall x, steady (body x)) -> steady (for_each l body).
Proof.
  intros Hb. induction l as [| x t IH]; cbn [for_each]; [apply steady_ret |].
  apply steady_bind; [apply Hb | intros _; exact IH].
Qed.

Lemma steady_any_m {A} (l : list A) (test : A -> M EvalState bool) :
  (forall x, steady (test x)) -> steady (any_m l test).
Proof.
  intros Ht. induction l as [| x t IH]; cbn [any_m]; [apply steady_ret |].
  apply steady_bind; [apply Ht | intros b]. destruct b; [apply steady_ret | exact IH].
Qed.

Lemma steady_liftW {A} (m : M World A) : keeps_table m -> steady (liftW m).
Proof.
  intros Hm s. unfold liftW. specialize (Hm (fst s)).
  destruct (m (fst s)) as [r w]. cbn in *. split; auto.
Qed.

Lemma steady_emit a : ranked a -> steady (emit a).
Proof.
  intros Ha s. unfold emit. cbn. split; [reflexivity |].
  intros Hs. apply Forall_app. split; [exact Hs | repeat constructor; exact Ha].
Qed.

Ltac steady_step :=
  first
    [ apply steady_ret | apply steady_raise | apply steady_lift_res
    | apply steady_emit; eexists; reflexivity
    | apply steady_liftW
    | apply steady_bind; [| intros ?]
    | apply steady_try_except; [| intros ?]
    | apply steady_for_each; intros ?
    | apply steady_any_m; intros ?
    | match goal with
      | |- steady (if ?b then _ else _) => destruct b
      | |- steady (match ?x with _ => _ end) => destruct x
      end ].

(** An evaluator whose steps are steady returns a list of alerts that can
    be ranked and leaves the table alone. *)
Lemma run_evaluator_steady (m : M EvalState unit) (w : World) :
  steady m ->
  exists alerts w',
    run_evaluator m w = (Ok alerts, w') /\
    table w' = table w /\ Forall ranked alerts.
Proof.
  intros Hm. unfold run_evaluator. specialize (Hm (w, [])).
  destruct (m (w, [])) as [r [w' alerts]]. cbn in Hm.
  exists alerts, w'. destruct Hm as [Ht Hr]. repeat split; auto.
Qed.

Lemma check_flight_alerts_steady env bookings w :
  exists alerts w',
    check_flight_alerts env bookings w = (Ok alerts, w') /\
    table w' = table w /\ Forall ranked alerts.
Proof.
  apply run_evaluator_steady.
  unfold flight_booking_alerts, parse_iso, random_random, random_choice.
  repeat first [keeps_step | steady_step].
Qed.

Lemma check_weather_alerts_steady env itinerary w :
  exists alerts w',
    check_weather_alerts env itinerary w = (Ok alerts, w') /\
    table w' = table w /\ Forall ranked alerts.
Proof.
  apply run_evaluator_steady.
  unfold weather_destination_alerts, weather_day_alerts.
  repeat first [apply keeps_get_forecast | keeps_step | steady_step].
Qed.

Lemma check_news_alerts_steady env itinerary w :
  exists alerts w',
    check_news_alerts env itinerary w = (Ok alerts, w') /\
    table w' = table w /\ Forall ranked alerts.
Proof.
  apply run_evaluator_steady.
  unfold news_destination_alerts, news_article_alerts.
  repeat first [apply keeps_get_travel_news | keeps_step | steady_step].
Qed.

Lemma check_document_alerts_steady env user_id w :
  exists alerts w',
    check_document_alerts env user_id w = (Ok alerts, w') /\
    table w' = table w /\ Forall ranked alerts.
Proof.
  apply run_evaluator_steady.
  unfold document_alerts, random_random.
  repeat first [apply keeps_list_user_documents | keeps_step | steady_step].
Qed.

(** ** The aggregator *)

Lemma priority_keys_map l ks : priority_keys l = Ok ks -> ks = map priority_of l.
Proof.
  revert ks. induction l as [| x t IH]; cbn; intros ks.
  - intros [= <-]. reflexivity.
  - unfold priority_of. destruct (priority_key x) as [k |]; [| discriminate].
    destruct (priority_keys t) as [ks' |]; [| discriminate].
    intros [= <-]. rewrite (IH ks' eq_refl). reflexivity.
Qed.

Lemma priority_keys_ranked l :
  Forall ranked l -> exists ks, priority_keys l = Ok ks.
Proof.
  induction 1 as [| x t [k Hk] Ht [ks IH]]; cbn; [eauto |].
  rewrite Hk, IH. eauto.
Qed.

Lemma sort_by_priority_spec l sorted :
  sort_by_priority l = Ok sorted ->
  sorted = sort_desc (key_lt priority_of) l.
Proof.
  unfold sort_by_priority.
  destruct (priority_keys l) as [ks |] eqn:E; [| discriminate].
  intros [= <-]. rewrite (priority_keys_map _ _ E). apply sort_decorated.
Qed.

Lemma sort_by_priority_sound l sorted :
  sort_by_priority l = Ok sorted ->
  sorted_by_priority sorted /\
  (forall p, with_priority p sorted = with_priority p l) /\
  Permutation l sorted.
Proof.
  intros H. rewrite (sort_by_priority_spec _ _ H). repeat split.
  - unfold sorted_by_priority. apply (descending_nth priority_of).
    apply sort_desc_descending.
  - intros p. apply sort_desc_stable.
  - apply sort_desc_perm.
Qed.

Lemma optional_attr_pure data k :
  pure_in (optional_attr data k) (fst (optional_attr data k (tick {| step := 0; table := ∅; bucket := [] |}))).
Proof.
  intros w. unfold optional_attr, bind, lift_res, ret.
  destruct (Py.contains k data) as [[|] | e]; cbn; try reflexivity.
  destruct (Py.item data k); reflexivity.
Qed.

(** What [save_user_data] does to the table: nothing, or it puts an item
    for the user whose Data is the record it was given. *)
Lemma save_user_data_effect env user_id data w :
  table (snd (save_user_data env user_id data w)) = table w \/
  exists uid item,
    user_id = PyStr uid /\
    table (snd (save_user_data env user_id data w)) !! uid = Some item /\
    Data item = Some data.
Proof.
  unfold save_user_data, try_except_client, try_except.
  rewrite !bind_utcnow.
  rewrite (bind_pure _ _ _ _ (optional_attr_pure data "itinerary")).
  destruct (fst (optional_attr data "itinerary" _)) as [itinerary | e];
    [| destruct e; left; reflexivity].
  rewrite (bind_pure _ _ _ _ (optional_attr_pure data "preferences")).
  destruct (fst (optional_attr data "preferences" _)) as [preferences | e];
    [| destruct e; left; reflexivity].
  rewrite (bind_pure _ _ _ _ (optional_attr_pure data "bookings")).
  destruct (fst (optional_attr data "bookings" _)) as [bookings | e];
    [| destruct e; left; reflexivity].
  unfold bind, string_param, aws_call, get_table, put_table, ret, raise.
  destruct user_id; cbn; auto.
  destruct (aws_outcome env _); cbn; auto.
  right; eexists _, _; split; [reflexivity |]; rewrite lookup_insert_eq;
    split; reflexivity.
Qed.

Lemma optional_attr_dict (d : list (string * pyval)) k :
  exists o, pure_in (optional_attr (PyDict d) k) (Ok o).
Proof.
  pose proof (optional_attr_pure (PyDict d) k) as H.
  destruct (fst (optional_attr (PyDict d) k _)) as [o | e] eqn:E; [eauto |].
  exfalso. revert E.
  unfold optional_attr, bind, lift_res, ret, Py.contains, Py.item.
  cbn. destruct (Py.lookup k d); cbn; discriminate.
Qed.

(** With a user id that is a string, a record that is a dict, and AWS
    failing, if at all, with a client error, [save_user_data] returns. *)
Lemma save_user_data_returns env uid (d : list (string * pyval)) w :
  (forall n, aws_outcome env n <> AwsOtherError) ->
  exists saved w', save_user_data env (PyStr uid) (PyDict d) w = (Ok saved, w').
Proof.
  intros Haws.
  unfold save_user_data, try_except_client, try_except.
  rewrite !bind_utcnow.
  destruct (optional_attr_dict d "itinerary") as [i Hi].
  destruct (optional_attr_dict d "preferences") as [p Hp].
  destruct (optional_attr_dict d "bookings") as [b Hb].
  rewrite (bind_pure _ _ _ _ Hi), (bind_pure _ _ _ _ Hp), (bind_pure _ _ _ _ Hb).
  unfold bind, string_param, aws_call, get_table, put_table, ret, raise.
  specialize (Haws (step (tick (tick w)))).
  destruct (aws_outcome env _); cbn; eauto.
  contradiction.
Qed.

(** For a user with stored data, and AWS failing, if at all, with a client
    error, the refresh answers with the alert list, its length and the
    time: the evaluators return whatever the feeds do, every alert they
    emit has a priority, and so the sort has nothing to raise. *)
Lemma handle_alerts_answers env user_id w user_data w1 :
  (forall n, aws_outcome env n <> AwsOtherError) ->
  Py.truthy user_id = true ->
  get_user_data env user_id w = (Ok user_data, w1) ->
  Py.truthy user_data = true ->
  exists alerts last_updated,
    fst (handle_alerts env user_id w)
    = Ok (jsonify [("alerts", PyList alerts);
                   ("count", PyInt (Z.of_nat (length alerts)));
                   ("last_updated", PyStr last_updated)]).
Proof.
  intros Haws Tu Hget Tud.
  destruct (get_user_data_found _ _ _ _ _ Hget Tud) as (uid & item & -> & _ & Hrec & ->).
  destruct (handle_alerts env (PyStr uid) w) as [r w'] eqn:H. cbn [fst].
  unfold handle_alerts, try_except in H. rewrite Tu in H. cbn [negb] in H.
  unfold bind at 1 in H. rewrite Hget, Tud in H. cbn [negb] in H.
  rewrite Hrec in H. unfold user_record in H.
  rewrite bind_lift_res in H. cbn [Py.get] in H.
  unfold bind at 1 in H.
  match type of H with
  | context [check_flight_alerts env ?b ?w0] =>
      destruct (check_flight_alerts_steady env b w0) as (fa & w2 & Hf & _ & Rf)
  end.
  rewrite Hf in H.
  rewrite bind_lift_res in H. cbn [Py.get] in H.
  unfold bind at 1 in H.
  match type of H with
  | context [check_weather_alerts env ?it w2] =>
      destruct (check_weather_alerts_steady env it w2) as (wa & w3 & Hw & _ & Rw);
      destruct (check_news_alerts_steady env it w3) as (na & w4 & Hn & _ & Rn)
  end.
  rewrite Hw in H.
  rewrite bind_lift_res in H. cbn [Py.get] in H.
  unfold bind at 1 in H. rewrite Hn in H.
  unfold bind at 1 in H.
  destruct (check_document_alerts_steady env (PyStr uid) w4) as (da & w5 & Hd & _ & Rd).
  rewrite Hd in H. cbn [app] in H.
  assert (Hranked : Forall ranked (((fa ++ wa) ++ na) ++ da)%list).
  { repeat (apply Forall_app; split); assumption. }
  destruct (priority_keys_ranked _ Hranked) as (ks & Hks).
  rewrite bind_lift_res in H.
  unfold sort_by_priority in H. rewrite Hks in H.
  rewrite bind_utcnow in H. cbn [Py.setitem] in H. rewrite !bind_lift_res in H.
  cbn [Py.setitem] in H. unfold bind at 1 in H.
  match type of H with
  | context [save_user_data env (PyStr uid) (PyDict ?d) ?w0] =>
      destruct (save_user_data_returns env uid d w0 Haws) as (saved & w6 & Hsave)
  end.
  rewrite Hsave in H.
  rewrite bind_utcnow in H. cbn [ret] in H.
  injection H as <- <-. eauto.
Qed.

(** C2. The alert list that [handle_alerts] returns is sorted descending
    by priority; for every priority, the alerts of that priority stand in
    the order in which the evaluators emitted them, flight, weather, news,
    document; the list is a rearrangement of the emitted alerts; and what
    the call writes to the store, when it writes, carries the same list as
    current_alerts. *)
Theorem C2_alerts_sorted_stable env (user_id : pyval) (w : World)
    (resp : Response) (alerts : list pyval) :
  fst (handle_alerts env user_id w) = Ok resp ->
  Py.item (body resp) "alerts" = Ok (PyList alerts) ->
  sorted_by_priority alerts /\
  (forall p, with_priority p alerts = with_priority p (emitted_alerts env user_id w)) /\
  Permutation (emitted_alerts env user_id w) alerts /\
  persists user_id alerts w (snd (handle_alerts env user_id w)).
Proof.
  destruct (handle_alerts env user_id w) as [r w'] eqn:H. cbn [fst snd].
  intros -> Halerts.
  unfold handle_alerts, try_except in H. unfold emitted_alerts.
  destruct (Py.truthy user_id) eqn:Tu; cbn [negb andb] in *;
    [| cbn in H; injection H as <- <-; discriminate].
  unfold bind at 1 in H.
  pose proof (get_user_data_frame env user_id w) as [Hframe _].
  destruct (get_user_data env user_id w) as [[user_data | e] w1] eqn:Hget;
    cbn [fst snd] in *; [| injection H as <- <-; discriminate].
  destruct (Py.truthy user_data) eqn:Tud; cbn [negb] in H.
  2: { cbn in H. injection H as <- <-. cbn in Halerts. injection Halerts as <-.
       split; [intros i j a b _ Ha; destruct i; discriminate |].
       split; [reflexivity |]. split; [constructor |]. left. exact Hframe. }
  rewrite bind_lift_res in H.
  destruct (Py.get user_data "bookings" _) as [bookings | e];
    [| injection H as <- <-; discriminate].
  cbn [value_of].
  unfold bind at 1 in H.
  destruct (check_flight_alerts_steady env bookings w1) as (fa & w2 & Hf & Ht2 & _).
  rewrite Hf in *.
  rewrite bind_lift_res in H.
  destruct (Py.get user_data "current_itinerary" _) as [itinerary | e];
    [| injection H as <- <-; discriminate].
  cbn [value_of].
  unfold bind at 1 in H.
  destruct (check_weather_alerts_steady env itinerary w2) as (wa & w3 & Hw & Ht3 & _).
  rewrite Hw in *.
  rewrite bind_lift_res in H.
  unfold bind at 1 in H.
  destruct (check_news_alerts_steady env itinerary w3) as (na & w4 & Hn & Ht4 & _).
  rewrite Hn in *.
  unfold bind at 1 in H.
  destruct (check_document_alerts_steady env user_id w4) as (da & w5 & Hd & Ht5 & _).
  rewrite Hd in *.
  cbn [list_of app] in *.
  rewrite bind_lift_res in H.
  destruct (sort_by_priority _) as [sorted | e] eqn:Hsort;
    [| injection H as <- <-; discriminate].
  rewrite bind_utcnow, bind_lift_res in H.
  destruct (Py.setitem user_data "last_alert_check" _) as [stamped | e];
    [| injection H as <- <-; discriminate].
  rewrite bind_lift_res in H.
  destruct (Py.setitem stamped "current_alerts" _) as [record | e] eqn:Hrecord;
    [| injection H as <- <-; discriminate].
  unfold bind at 1 in H.
  pose proof (save_user_data_effect env user_id record (tick w5)) as Hsave.
  destruct (save_user_data env user_id record (tick w5)) as [[saved | e] w6];
    cbn [snd] in Hsave; [| injection H as <- <-; discriminate].
  rewrite bind_utcnow in H. cbn [ret fst snd] in H.
  injection H as <- <-. cbn in Halerts. injection Halerts as <-.
  destruct (sort_by_priority_sound _ _ Hsort) as (Hsorted & Hstable & Hperm).
  repeat split; try assumption.
  destruct Hsave as [Heq | (uid & item & Hu & Hi & Hdata)].
  - left. cbn in *. congruence.
  - right. exists uid, item, record. repeat split; try assumption.
    eapply item_setitem_same. exact Hrecord.
Qed.

Lemma C2_alerts_sorted_stable_witness :
  exists resp alerts,
    fst (handle_alerts Example.env (PyStr "u3") two_flights_world) = Ok resp /\
    Py.item (body resp) "alerts" = Ok (PyList alerts) /\
    map (fun a => Py.item a "type") (emitted_alerts Example.env (PyStr "u3") two_flights_world)
    = [Ok (PyStr "flight_checkin_reminder"); Ok (PyStr "departure_reminder")] /\
    map (fun a => Py.item a "type") alerts
    = [Ok (PyStr "departure_reminder"); Ok (PyStr "flight_checkin_reminder")] /\
    sorted_by_priority alerts.
Proof.
  pose proof (C2_alerts_sorted_stable Example.env (PyStr "u3") two_flights_world) as H.
  destruct (handle_alerts Example.env (PyStr "u3") two_flights_world) as [r w'] eqn:E.
  vm_compute in E. injection E as <- <-.
  specialize (H _ _ eq_refl eq_refl). destruct H as (Hsorted & _).
  eexists _, _.
  split; [reflexivity |]. split; [reflexivity |].
  split; [vm_compute; reflexivity |]. split; [vm_compute; reflexivity |].
  exact Hsorted.
Defined.

(* ===================================================================== *)
(** * Further properties of the code *)
(* ===================================================================== *)

(** ** The store: what a write leaves and what a read gets back *)

(** A successful [save_itinerary] is the update of one item. *)
Lemma save_itinerary_done env user_id itinerary w :
  fst (save_itinerary env user_id itinerary w) = Ok true ->
  exists uid,
    user_id = PyStr uid /\
    step (snd (save_itinerary env user_id itinerary w)) = S (S (step w)) /\
    bucket (snd (save_itinerary env user_id itinerary w)) = bucket w /\
    table (snd (save_itinerary env user_id itinerary w))
    = <[uid := {| UpdatedAt := Some (isoformat (runtime env) (Dt.naive (clock env (step w))));
                  Data := (default {| UpdatedAt := None; Data := None; TTL := None;
                                      CurrentItinerary := None; Preferences := None;
                                      Bookings := None |} (table w !! uid)).(Data);
                  TTL := (default {| UpdatedAt := None; Data := None; TTL := None;
                                     CurrentItinerary := None; Preferences := None;
                                     Bookings := None |} (table w !! uid)).(TTL);
                  CurrentItinerary := Some itinerary;
                  Preferences := (default {| UpdatedAt := None; Data := None; TTL := None;
                                             CurrentItinerary := None; Preferences := None;
                                             Bookings := None |} (table w !! uid)).(Preferences);
                  Bookings := (default {| UpdatedAt := None; Data := None; TTL := None;
                                          CurrentItinerary := None; Preferences := None;
                                          Bookings := None |} (table w !! uid)).(Bookings) |}]>
        (table w).
Proof.
  unfold save_itinerary, try_except_client, try_except, bind, utcnow, string_param,
    aws_call, get_table, put_table, ret, raise.
  destruct user_id; cbn; try discriminate.
  destruct (aws_outcome env (S (step w))); cbn; try discriminate.
  intros _. exists s. repeat split; reflexivity.
Qed.

(** What [get_itinerary] answers when the read goes through. *)
Lemma get_itinerary_read env uid w :
  aws_outcome env (step w) = AwsOk ->
  get_itinerary env (PyStr uid) w
  = (Ok (default PyNone (stored_itinerary w uid)), tick w).
Proof.
  intros Haws.
  unfold get_itinerary, try_except_client, try_except, bind, string_param,
    aws_call, get_table, ret, raise, stored_itinerary.
  cbn. rewrite Haws. cbn. destruct (table w !! uid) as [item |]; reflexivity.
Qed.

(** X1. After a [save_itinerary] that reports success, [get_itinerary]
    gives the saved itinerary back whenever its read goes through; the
    items of the other users are untouched, and the user's own data,
    preferences and bookings are the ones stored before. *)
Theorem X1_itinerary_round_trip env (user_id itinerary : pyval) (w : World) :
  fst (save_itinerary env user_id itinerary w) = Ok true ->
  exists uid,
    user_id = PyStr uid /\
    (aws_outcome env (step (snd (save_itinerary env user_id itinerary w))) = AwsOk ->
     fst (get_itinerary env user_id (snd (save_itinerary env user_id itinerary w)))
     = Ok itinerary) /\
    (forall other, other <> uid ->
       table (snd (save_itinerary env user_id itinerary w)) !! other = table w !! other) /\
    (forall item, table w !! uid = Some item ->
       exists item',
         table (snd (save_itinerary env user_id itinerary w)) !! uid = Some item' /\
         Data item' = Data item /\ Preferences item' = Preferences item /\
         Bookings item' = Bookings item).
Proof.
  intros Hok.
  destruct (save_itinerary_done env user_id itinerary w Hok) as (uid & -> & _ & _ & Ht).
  exists uid. split; [reflexivity |]. split; [| split].
  - intros Haws. rewrite (get_itinerary_read env uid _ Haws). cbn [fst].
    unfold stored_itinerary. rewrite Ht, lookup_insert_eq. reflexivity.
  - intros other Hne. rewrite Ht, lookup_insert_ne by congruence. reflexivity.
  - intros item Hitem. rewrite Ht, lookup_insert_eq, Hitem.
    eexists. split; [reflexivity |]. repeat split; reflexivity.
Qed.

Lemma X1_itinerary_round_trip_witness :
  fst (save_itinerary Example.env (PyStr "u1")
         (PyDict [("destination", PyStr "Paris")]) Example.world) = Ok true /\
  fst (get_itinerary Example.env (PyStr "u1")
         (snd (save_itinerary Example.env (PyStr "u1")
                 (PyDict [("destination", PyStr "Paris")]) Example.world)))
  = Ok (PyDict [("destination", PyStr "Paris")]).
Proof.
  split; [reflexivity |].
  destruct (X1_itinerary_round_trip Example.env (PyStr "u1")
              (PyDict [("destination", PyStr "Paris")]) Example.world eq_refl)
    as (uid & _ & Hget & _).
  apply Hget. reflexivity.
Defined.
(** A successful [save_user_data] puts a whole new item. *)
Lemma save_user_data_done env user_id (d : list (string * pyval)) w :
  fst (save_user_data env user_id (PyDict d) w) = Ok true ->
  exists uid,
    user_id = PyStr uid /\
    step (snd (save_user_data env user_id (PyDict d) w)) = S (S (S (step w))) /\
    bucket (snd (save_user_data env user_id (PyDict d) w)) = bucket w /\
    table (snd (save_user_data env user_id (PyDict d) w))
    = <[uid := {| UpdatedAt := Some (isoformat (runtime env) (Dt.naive (clock env (step w))));
                  Data := Some (PyDict d);
                  TTL := Some (posix_seconds (runtime env)
                                 (Dt.naive (clock env (S (step w)))) + 86400 * 365);
                  CurrentItinerary := Py.lookup "itinerary" d;
                  Preferences := Py.lookup "preferences" d;
                  Bookings := Py.lookup "bookings" d |}]> (table w).
Proof.
  unfold save_user_data, try_except_client, try_except.
  rewrite !bind_utcnow.
  unfold optional_attr, bind, lift_res, ret, Py.contains, Py.item, string_param,
    aws_call, get_table, put_table, raise.
  destruct user_id; cbn;
    destruct (Py.lookup "itinerary" d), (Py.lookup "preferences" d),
      (Py.lookup "bookings" d); cbn; try discriminate.
  all: destruct (aws_outcome env _); cbn; try discriminate.
  all: intros _; exists s; repeat split; reflexivity.
Qed.

(** What [get_user_data] answers when the read goes through. *)
Lemma get_user_data_read env uid w :
  aws_outcome env (step w) = AwsOk ->
  get_user_data env (PyStr uid) w
  = (Ok match table w !! uid with
        | Some item => user_record (PyStr uid) item
        | None => PyNone
        end, tick w).
Proof.
  intros Haws.
  unfold get_user_data, try_except_client, try_except, bind, string_param,
    aws_call, get_table, ret, raise, user_record.
  cbn. rewrite Haws. cbn. destruct (table w !! uid) as [item |]; reflexivity.
Qed.

(** X2. [save_user_data] replaces the whole item of the user. After a
    save that reports success, [get_user_data] gives the saved record
    back under the key data, and the itinerary, the preferences and the
    bookings of the item are the record's entries itinerary, preferences
    and bookings: what the record does not carry is gone from the item,
    whatever was stored before. The items of the other users are
    untouched. *)
Theorem X2_save_user_data_replaces_item env (user_id : pyval)
    (d : list (string * pyval)) (w : World) :
  fst (save_user_data env user_id (PyDict d) w) = Ok true ->
  exists uid,
    user_id = PyStr uid /\
    (aws_outcome env (step (snd (save_user_data env user_id (PyDict d) w))) = AwsOk ->
     (exists stamp ttl,
        fst (get_user_data env user_id (snd (save_user_data env user_id (PyDict d) w)))
        = Ok (user_record user_id
                {| UpdatedAt := Some stamp;
                   Data := Some (PyDict d);
                   TTL := Some ttl;
                   CurrentItinerary := Py.lookup "itinerary" d;
                   Preferences := Py.lookup "preferences" d;
                   Bookings := Py.lookup "bookings" d |})) /\
     fst (get_itinerary env user_id (snd (save_user_data env user_id (PyDict d) w)))
     = Ok (default PyNone (Py.lookup "itinerary" d))) /\
    (forall other, other <> uid ->
       table (snd (save_user_data env user_id (PyDict d) w)) !! other = table w !! other).
Proof.
  intros Hok.
  destruct (save_user_data_done env user_id d w Hok) as (uid & -> & _ & _ & Ht).
  exists uid. split; [reflexivity |]. split.
  - intros Haws. split.
    + rewrite (get_user_data_read env uid _ Haws). cbn [fst].
      rewrite Ht, lookup_insert_eq. eexists _, _. reflexivity.
    + rewrite (get_itinerary_read env uid _ Haws). cbn [fst].
      unfold stored_itinerary. rewrite Ht, lookup_insert_eq. reflexivity.
  - intros other Hne. rewrite Ht, lookup_insert_ne by congruence. reflexivity.
Qed.

Lemma X2_save_user_data_replaces_item_witness :
  stored_itinerary Example.itinerary_world "u1" <> None /\
  fst (save_user_data Example.env (PyStr "u1")
         (PyDict [("current_alerts", PyList [])]) Example.itinerary_world) = Ok true /\
  fst (get_itinerary Example.env (PyStr "u1")
         (snd (save_user_data Example.env (PyStr "u1")
                 (PyDict [("current_alerts", PyList [])]) Example.itinerary_world)))
  = Ok PyNone.
Proof.
  split; [vm_compute; discriminate |]. split; [reflexivity |].
  destruct (X2_save_user_data_replaces_item Example.env (PyStr "u1")
              [("current_alerts", PyList [])] Example.itinerary_world eq_refl)
    as (uid & _ & Hget & _).
  apply (proj2 (Hget eq_refl)).
Defined.
(** Whatever its outcome, [save_user_data] leaves the table as it was or
    puts the new item. *)
Lemma save_user_data_table env user_id (d : list (string * pyval)) w :
  table (snd (save_user_data env user_id (PyDict d) w)) = table w \/
  exists uid stamp ttl,
    user_id = PyStr uid /\
    fst (save_user_data env user_id (PyDict d) w) = Ok true /\
    table (snd (save_user_data env user_id (PyDict d) w))
    = <[uid := {| UpdatedAt := Some stamp;
                  Data := Some (PyDict d);
                  TTL := Some ttl;
                  CurrentItinerary := Py.lookup "itinerary" d;
                  Preferences := Py.lookup "preferences" d;
                  Bookings := Py.lookup "bookings" d |}]> (table w).
Proof.
  destruct (fst (save_user_data env user_id (PyDict d) w)) as [[|] | e] eqn:E.
  - right. destruct (save_user_data_done env user_id d w E) as (uid & -> & _ & _ & Ht).
    exists uid. eexists _, _. split; [reflexivity |]. split; [reflexivity | exact Ht].
  - left. destruct (save_user_data_effect env user_id (PyDict d) w)
      as [H | (uid & item & -> & _ & _)]; [exact H |].
    revert E.
    unfold save_user_data, try_except_client, try_except.
    rewrite !bind_utcnow.
    unfold optional_attr, bind, lift_res, ret, Py.contains, Py.item, string_param,
      aws_call, get_table, put_table, raise.
    cbn. destruct (Py.lookup "itinerary" d), (Py.lookup "preferences" d),
      (Py.lookup "bookings" d); cbn.
    all: destruct (aws_outcome env _); cbn; try discriminate; reflexivity.
  - left. destruct (save_user_data_effect env user_id (PyDict d) w)
      as [H | (uid & item & -> & _ & _)]; [exact H |].
    revert E.
    unfold save_user_data, try_except_client, try_except.
    rewrite !bind_utcnow.
    unfold optional_attr, bind, lift_res, ret, Py.contains, Py.item, string_param,
      aws_call, get_table, put_table, raise.
    cbn. destruct (Py.lookup "itinerary" d), (Py.lookup "preferences" d),
      (Py.lookup "bookings" d); cbn.
    all: destruct (aws_outcome env _); cbn; try discriminate; reflexivity.
Qed.

(** ** What a refresh does to the stored item *)

Lemma user_record_fields user_id item :
  user_record user_id item = PyDict (user_fields user_id item).
Proof. reflexivity. Qed.

(** The keys of the record of a user. *)
Lemma user_fields_lookup user_id item k :
  Py.lookup k (user_fields user_id item)
  = if String.eqb k "user_id" then Some user_id
    else if String.eqb k "updated_at" then Some (PyStr (default "" (UpdatedAt item)))
    else if String.eqb k "data" then Some (default (PyDict []) (Data item))
    else if String.eqb k "current_itinerary" then CurrentItinerary item
    else if String.eqb k "preferences" then Preferences item
    else if String.eqb k "bookings" then Bookings item
    else None.
Proof.
  unfold user_fields, add_if_present.
  destruct (String.eqb_spec k "user_id") as [-> | H1];
    [destruct (Bookings item), (Preferences item), (CurrentItinerary item); reflexivity |].
  destruct (String.eqb_spec k "updated_at") as [-> | H2];
    [destruct (Bookings item), (Preferences item), (CurrentItinerary item); reflexivity |].
  destruct (String.eqb_spec k "data") as [-> | H3];
    [destruct (Bookings item), (Preferences item), (CurrentItinerary item); reflexivity |].
  destruct (String.eqb_spec k "current_itinerary") as [-> | H4];
    [destruct (Bookings item), (Preferences item), (CurrentItinerary item); reflexivity |].
  destruct (String.eqb_spec k "preferences") as [-> | H5];
    [destruct (Bookings item), (Preferences item), (CurrentItinerary item); reflexivity |].
  destruct (String.eqb_spec k "bookings") as [-> | H6];
    [destruct (Bookings item), (Preferences item), (CurrentItinerary item); reflexivity |].
  destruct (Bookings item), (Preferences item), (CurrentItinerary item); cbn;
    repeat match goal with
           | |- context [String.eqb k ?s] =>
               destruct (String.eqb_spec k s); [contradiction |]
           end; reflexivity.
Qed.






(** ** Dismissals and custom alerts *)

Lemma user_fields_nonempty user_id item : Py.truthy (user_record user_id item) = true.
Proof.
  unfold user_record.
  destruct (Bookings item), (Preferences item), (CurrentItinerary item); reflexivity.
Qed.

(** The record of a stored user, or nothing, is what [get_user_data]
    returns. *)
Lemma get_user_data_cases env user_id w v w1 :
  get_user_data env user_id w = (Ok v, w1) ->
  v = PyNone \/ exists uid item, user_id = PyStr uid /\ v = user_record user_id item.
Proof.
  intros H. destruct (Py.truthy v) eqn:T.
  - right. destruct (get_user_data_found _ _ _ _ _ H T) as (uid & item & -> & _ & -> & _).
    eauto.
  - left. revert H T.
    unfold get_user_data, try_except_client, try_except, bind, string_param,
      aws_call, get_table, ret, raise.
    destruct user_id; cbn; try discriminate.
    destruct (aws_outcome env (step w)); cbn; try discriminate;
      try (intros [= <- <-]; reflexivity).
    destruct (table w !! s) as [item |]; cbn; intros [= <- <-]; [| reflexivity].
    destruct (Bookings item), (Preferences item), (CurrentItinerary item); discriminate.
Qed.

(** X4. The lists of dismissals and of custom alerts never grow beyond
    one entry. [get_user_data] builds the record of a user from the
    attributes of the item, so the record never has a key
    dismissed_alerts or custom_alerts; [dismiss_alert] and
    [create_custom_alert] therefore append to an empty list, and the
    record they save holds exactly the one dismissal, or the one custom
    alert, of this call, whatever was saved by earlier calls. *)
Theorem X4_alert_lists_hold_one_entry env (d : list (string * pyval)) (w : World) :
  (forall user_id alert_id,
      Py.lookup "user_id" d = Some user_id ->
      Py.lookup "alert_id" d = Some alert_id ->
      fst (dismiss_alert env (PyDict d) w) = Ok dismissed_ack ->
      exists uid item record stamp,
        user_id = PyStr uid /\
        table (snd (dismiss_alert env (PyDict d) w)) !! uid = Some item /\
        Data item = Some record /\
        Py.item record "dismissed_alerts"
        = Ok (PyList [PyDict [("alert_id", alert_id); ("dismissed_at", PyStr stamp)]])) /\
  (forall user_id spec resp,
      Py.lookup "user_id" d = Some user_id ->
      Py.lookup "alert" d = Some (PyDict spec) ->
      fst (create_custom_alert env (PyDict d) w) = Ok resp ->
      status resp = 200 ->
      exists uid item record stamp,
        user_id = PyStr uid /\
        table (snd (create_custom_alert env (PyDict d) w)) !! uid = Some item /\
        Data item = Some record /\
        Py.item record "custom_alerts" = Ok (PyList [custom_alert_of spec stamp])).
Proof.
  split.
  - intros user_id alert_id Hu Ha.
    destruct (dismiss_alert env (PyDict d) w) as [r w'] eqn:H. cbn [fst snd].
    intros ->. revert H.
    unfold dismiss_alert, try_except.
    rewrite !bind_lift_res. cbn [Py.get]. rewrite Hu. rewrite bind_lift_res. rewrite Ha.
    destruct (negb (Py.truthy user_id) || negb (Py.truthy alert_id));
      [cbn; discriminate |].
    unfold bind at 1.
    destruct (get_user_data env user_id w) as [[user_data | e] w1] eqn:Hget;
      [| cbn; discriminate].
    destruct (get_user_data_cases _ _ _ _ _ Hget) as [-> | (uid & item & -> & ->)];
      [cbn; discriminate |].
    rewrite user_fields_nonempty. cbn [negb].
    rewrite user_record_fields, bind_lift_res. cbn [Py.get].
    rewrite user_fields_lookup. cbn [String.eqb Ascii.eqb Bool.eqb].
    rewrite bind_utcnow, !bind_lift_res. cbn [py_append app Py.setitem].
    rewrite bind_lift_res. unfold bind at 1.
    set (record := Py.store "dismissed_alerts" _ _).
    destruct (fst (save_user_data env (PyStr uid) (PyDict record) (tick w1)))
      as [[|] | e] eqn:Hsave.
    + destruct (save_user_data_done env (PyStr uid) record (tick w1) Hsave)
        as (uid' & [= <-] & _ & _ & Ht).
      destruct (save_user_data env (PyStr uid) (PyDict record) (tick w1))
        as [[saved | e] w2]; cbn [fst snd] in *; [| discriminate].
      injection Hsave as ->. cbn [ret fst snd]. intros [= <-].
      exists uid. eexists _, (PyDict record), _. split; [reflexivity |].
      rewrite Ht, lookup_insert_eq. split; [reflexivity |]. split; [reflexivity |].
      subst record. cbn [Py.item]. rewrite item_store_same. reflexivity.
    + destruct (save_user_data env (PyStr uid) (PyDict record) (tick w1))
        as [[saved | e] w2]; cbn [fst snd] in *; [| discriminate].
      injection Hsave as ->. cbn. discriminate.
    + destruct (save_user_data env (PyStr uid) (PyDict record) (tick w1))
        as [[saved | e'] w2]; cbn [fst snd] in *; [discriminate |].
      cbn. discriminate.
  - intros user_id spec resp Hu Hspec.
    destruct (create_custom_alert env (PyDict d) w) as [r w'] eqn:H. cbn [fst snd].
    intros ->. revert H.
    unfold create_custom_alert, try_except.
    rewrite !bind_lift_res. cbn [Py.get]. rewrite Hu. rewrite bind_lift_res. rewrite Hspec.
    destruct (negb (Py.truthy user_id) || negb (Py.truthy (PyDict spec)));
      [cbn; intros [= <- _]; discriminate |].
    rewrite !bind_lift_res. cbn [Py.get]. rewrite !bind_lift_res.
    rewrite bind_utcnow. unfold bind at 1.
    destruct (get_user_data env user_id (tick w)) as [[stored | e] w1] eqn:Hget;
      [| cbn; intros [= <-]; discriminate].
    assert (Hfields : exists fields,
               or_empty_dict stored = PyDict fields /\
               Py.lookup "custom_alerts" fields = None).
    { destruct (get_user_data_cases _ _ _ _ _ Hget) as [-> | (uid & item & -> & ->)].
      - exists []. split; reflexivity.
      - exists (user_fields (PyStr uid) item). unfold or_empty_dict.
        rewrite user_fields_nonempty. split; [reflexivity |].
        rewrite user_fields_lookup. reflexivity. }
    destruct Hfields as (fields & -> & Hnone).
    rewrite bind_lift_res. cbn [Py.get]. rewrite Hnone.
    rewrite !bind_lift_res. cbn [py_append app Py.setitem]. rewrite bind_lift_res.
    unfold bind at 1.
    set (record := Py.store "custom_alerts" _ _).
    destruct (fst (save_user_data env user_id (PyDict record) w1))
      as [[|] | e] eqn:Hsave.
    + destruct (save_user_data_done env user_id record w1 Hsave)
        as (uid & -> & _ & _ & Ht).
      destruct (save_user_data env (PyStr uid) (PyDict record) w1)
        as [[saved | e] w2]; cbn [fst snd] in *; [| discriminate].
      injection Hsave as ->. cbn [ret fst snd]. intros [= <- <-] _.
      exists uid. eexists _, (PyDict record), _. split; [reflexivity |].
      rewrite Ht, lookup_insert_eq. split; [reflexivity |]. split; [reflexivity |].
      subst record. cbn [Py.item]. rewrite item_store_same. reflexivity.
    + destruct (save_user_data env user_id (PyDict record) w1)
        as [[saved | e] w2]; cbn [fst snd] in *; [| discriminate].
      injection Hsave as ->. cbn. intros [= <- _]. discriminate.
    + destruct (save_user_data env user_id (PyDict record) w1)
        as [[saved | e'] w2]; cbn [fst snd] in *; [discriminate |].
      cbn. intros [= <- _]. discriminate.
Qed.

Lemma X4_alert_lists_hold_one_entry_witness :
  fst (dismiss_alert Example.env
         (PyDict [("user_id", PyStr "u1"); ("alert_id", PyStr "a2")])
         (snd (dismiss_alert Example.env (PyDict dismiss_known) Example.world)))
  = Ok dismissed_ack /\
  exists item record stamp,
    table (snd (dismiss_alert Example.env
                  (PyDict [("user_id", PyStr "u1"); ("alert_id", PyStr "a2")])
                  (snd (dismiss_alert Example.env (PyDict dismiss_known) Example.world))))
      !! "u1" = Some item /\
    Data item = Some record /\
    Py.item record "dismissed_alerts"
    = Ok (PyList [PyDict [("alert_id", PyStr "a2"); ("dismissed_at", PyStr stamp)]]).
Proof.
  assert (H : fst (dismiss_alert Example.env
                     (PyDict [("user_id", PyStr "u1"); ("alert_id", PyStr "a2")])
                     (snd (dismiss_alert Example.env (PyDict dismiss_known) Example.world)))
              = Ok dismissed_ack) by (vm_compute; reflexivity).
  split; [exact H |].
  destruct (proj1 (X4_alert_lists_hold_one_entry Example.env
                     [("user_id", PyStr "u1"); ("alert_id", PyStr "a2")]
                     (snd (dismiss_alert Example.env (PyDict dismiss_known) Example.world)))
              (PyStr "u1") (PyStr "a2") eq_refl eq_refl H)
    as (uid & item & record & stamp & Hu & Ht & Hd & Hi).
  injection Hu as <-.
  exists item, record, stamp. repeat split; assumption.
Defined.

(** ** The router of the itinerary operations *)

Lemma lower_char_idempotent c : Str.lower_char (Str.lower_char c) = Str.lower_char c.
Proof.
  destruct c as [[] [] [] [] [] [] [] []]; vm_compute; reflexivity.
Qed.

Lemma lower_idempotent s : Str.lower (Str.lower s) = Str.lower s.
Proof.
  induction s as [| c t IH]; cbn; [reflexivity |].
  rewrite lower_char_idempotent, IH. reflexivity.
Qed.

(** A handler that catches every exception returns. *)
Lemma try_except_returns {S A} (m : M S A) (h : exn -> M S A) s :
  (forall e s', exists a s'', h e s' = (Ok a, s'')) ->
  exists a s', try_except m h s = (Ok a, s').
Proof.
  intros Hh. unfold try_except. destruct (m s) as [[a | e] s']; eauto.
Qed.

Lemma try_except_idle {S A} (m : M S A) (h : exn -> M S A) s a s' :
  m s = (Ok a, s') -> try_except m h s = (Ok a, s').
Proof. intros H. unfold try_except. rewrite H. reflexivity. Qed.

Lemma handler_get_itinerary_returns env user_id w :
  exists resp w', handler_get_itinerary env user_id w = (Ok resp, w').
Proof. apply try_except_returns. intros e s'. unfold ret. eauto. Qed.

(** X5. The router [handle_itinerary]. A request without a user id is
    answered with status 400 before anything is read or written; so is a
    request whose action, lowered, is none of create, update, get,
    delete and generate, and the answer names the lowered action. The
    action is matched whatever its case; a request without an action is
    a get; an action that is not a string ends in status 500. *)
Theorem X5_handle_itinerary_routes env (generate : pyval -> pyval -> M World Response)
    (d : list (string * pyval)) (w : World) :
  (forall a,
      Py.lookup "action" d = None \/ Py.lookup "action" d = Some (PyStr a) ->
      Py.truthy (default PyNone (Py.lookup "user_id" d)) = false ->
      handle_itinerary env generate (PyDict d) w
      = (Ok (jsonify_code [("error", PyStr "Missing user_id")] 400), w)) /\
  (forall a,
      Py.lookup "action" d = Some (PyStr a) ->
      ~ In (Str.lower a) ["create"; "update"; "get"; "delete"; "generate"] ->
      Py.truthy (default PyNone (Py.lookup "user_id" d)) = true ->
      handle_itinerary env generate (PyDict d) w
      = (Ok (jsonify_code
               [("error", PyStr ("Unsupported action: " ++ Str.lower a))] 400), w)) /\
  (forall a,
      handle_itinerary env generate (PyDict (Py.store "action" (PyStr a) d)) w
      = handle_itinerary env generate
          (PyDict (Py.store "action" (PyStr (Str.lower a)) d)) w) /\
  (forall user_id,
      Py.lookup "action" d = None ->
      Py.lookup "user_id" d = Some user_id ->
      Py.truthy user_id = true ->
      handle_itinerary env generate (PyDict d) w = handler_get_itinerary env user_id w) /\
  (forall v,
      Py.lookup "action" d = Some v ->
      (forall a, v <> PyStr a) ->
      handle_itinerary env generate (PyDict d) w
      = (Ok (jsonify_code [("error", PyStr "Itinerary service error")] 500), w)).
Proof.
  split; [| split; [| split; [| split]]].
  - intros a Ha Tu. unfold handle_itinerary, try_except.
    rewrite !bind_lift_res. cbn [Py.get].
    unfold from_option, id in Tu.
    destruct Ha as [-> | ->]; cbn [Py.lower]; rewrite !bind_lift_res;
      cbn [Py.get]; rewrite Tu; reflexivity.
  - intros a Ha Hnot Tu. unfold handle_itinerary, try_except.
    rewrite !bind_lift_res. cbn [Py.get]. rewrite Ha. cbn [Py.lower].
    rewrite !bind_lift_res. cbn [Py.get].
    unfold from_option, id in Tu. rewrite Tu. cbn [negb].
    cbn [In] in Hnot.
    repeat match goal with
           | |- context [String.eqb (Str.lower a) ?s] =>
               destruct (String.eqb_spec (Str.lower a) s) as [E | _];
               [exfalso; apply Hnot; rewrite E; tauto |]
           end.
    reflexivity.
  - intros a. unfold handle_itinerary, try_except.
    rewrite !bind_lift_res. cbn [Py.get]. rewrite !item_store_same. cbn [Py.lower].
    rewrite !bind_lift_res. cbn [Py.get].
    rewrite lower_idempotent.
    rewrite !(item_store_other "user_id" "action") by discriminate.
    rewrite !(item_store_other "itinerary_data" "action") by discriminate.
    rewrite !(item_store_other "preferences" "action") by discriminate.
    reflexivity.
  - intros user_id Ha Hu Tu. unfold handle_itinerary.
    destruct (handler_get_itinerary_returns env user_id w) as (resp & w' & Hget).
    rewrite Hget. apply try_except_idle.
    rewrite !bind_lift_res. cbn [Py.get]. rewrite Ha. cbn [Py.lower].
    rewrite !bind_lift_res. cbn [Py.get]. rewrite Hu, Tu. exact Hget.
  - intros v Hv Hns. unfold handle_itinerary, try_except.
    rewrite !bind_lift_res. cbn [Py.get]. rewrite Hv.
    destruct v; try reflexivity. exfalso. eapply Hns. reflexivity.
Qed.

Lemma X5_handle_itinerary_routes_witness :
  handle_itinerary Example.env (fun _ _ => raise ValueError)
    (PyDict [("action", PyStr "Archive"); ("user_id", PyStr "u1")]) Example.world
  = (Ok (jsonify_code [("error", PyStr "Unsupported action: archive")] 400),
     Example.world) /\
  handle_itinerary Example.env (fun _ _ => raise ValueError)
    (PyDict [("action", PyStr "get")]) Example.world
  = (Ok (jsonify_code [("error", PyStr "Missing user_id")] 400), Example.world).
Proof.
  pose proof (X5_handle_itinerary_routes Example.env (fun _ _ => raise ValueError)
                [("action", PyStr "Archive"); ("user_id", PyStr "u1")] Example.world)
    as (_ & Hother & _).
  pose proof (X5_handle_itinerary_routes Example.env (fun _ _ => raise ValueError)
                [("action", PyStr "get")] Example.world)
    as (Hmissing & _).
  split.
  - apply (Hother "Archive" eq_refl); [| reflexivity].
    cbn. intros [H | [H | [H | [H | [H | []]]]]]; discriminate.
  - apply (Hmissing "get"); [right; reflexivity | reflexivity].
Defined.

(** ** Created itineraries *)

Lemma store_keeps_keys k v d :
  Py.lookup k d <> None -> map fst (Py.store k v d) = map fst d.
Proof.
  induction d as [| [k' v'] t IH]; cbn; [congruence |].
  destruct (String.eqb_spec k k') as [-> | Hne]; cbn; [reflexivity |].
  intros H. rewrite IH by exact H. reflexivity.
Qed.

(** The last step of the two handlers when the answer is a success. *)
Lemma store_and_answer_ok env user_id record (yes no err resp : Response) w w' :
  (let (r, s') :=
     bind (save_itinerary env user_id record)
          (fun success : bool => if success then ret yes else ret no) w in
   match r with
   | Ok a => (Ok a, s')
   | Raise e => (Ok err, s')
   end) = (Ok resp, w') ->
  status resp = 200 -> status no <> 200 -> status err <> 200 ->
  resp = yes /\
  fst (save_itinerary env user_id record w) = Ok true /\
  w' = snd (save_itinerary env user_id record w).
Proof.
  unfold bind.
  destruct (save_itinerary env user_id record w) as [[[|] | e] w1]; cbn;
    intros [= <- <-] H200 Hno Herr; try contradiction.
  repeat split; reflexivity.
Qed.

(** What a successful [create_itinerary] built, stored and answered. *)
Lemma create_itinerary_record env user_id itinerary_data w resp :
  fst (create_itinerary env user_id itinerary_data w) = Ok resp ->
  status resp = 200 ->
  exists uid record destination duration w1,
    user_id = PyStr uid /\
    resp = jsonify [("message", PyStr "Itinerary created successfully");
                    ("itinerary", PyDict record)] /\
    stored_itinerary (snd (create_itinerary env user_id itinerary_data w)) uid
    = Some (PyDict record) /\
    map fst record = created_keys /\
    Py.item itinerary_data "destination" = Ok destination /\
    Py.lookup "duration_days" record = Some (PyInt duration) /\
    (Py.truthy (value_of (Py.get itinerary_data "days" (PyList []))) = false ->
     exists structure w2,
       create_default_day_structure env duration destination w1 = (Ok structure, w2) /\
       Py.lookup "days" record = Some (PyList structure)) /\
    duration_invariant env (PyDict record).
Proof.
  destruct (create_itinerary env user_id itinerary_data w) as [r w'] eqn:H.
  cbn [fst snd]. intros -> H200. revert H.
  unfold create_itinerary, try_except.
  rewrite bind_lift_res.
  destruct (first_missing _ itinerary_data) as [[field |] | e];
    try (cbn; intros [= <- <-]; discriminate).
  rewrite bind_utcnow.
  rewrite bind_lift_res.
  destruct (Py.item itinerary_data "destination") as [destination | e];
    [| cbn; intros [= <- <-]; discriminate].
  rewrite bind_lift_res.
  destruct (Py.item itinerary_data "start_date") as [start_date | e];
    [| cbn; intros [= <- <-]; discriminate].
  rewrite bind_lift_res.
  destruct (Py.item itinerary_data "end_date") as [end_date | e];
    [| cbn; intros [= <- <-]; discriminate].
  rewrite bind_lift_res.
  cbn beta iota. rewrite bind_lift_res.
  destruct (Py.get itinerary_data "title" _) as [title | e];
    [| cbn; intros [= <- <-]; discriminate].
  rewrite bind_lift_res.
  destruct (Py.get itinerary_data "description" _) as [description | e];
    [| cbn; intros [= <- <-]; discriminate].
  rewrite bind_lift_res.
  destruct (Py.get itinerary_data "days" _) as [days | e];
    [| cbn; intros [= <- <-]; discriminate].
  rewrite bind_lift_res.
  destruct (Py.get itinerary_data "budget" _) as [budget | e];
    [| cbn; intros [= <- <-]; discriminate].
  rewrite bind_lift_res.
  destruct (Py.get itinerary_data "travelers" _) as [travelers | e];
    [| cbn; intros [= <- <-]; discriminate].
  rewrite bind_lift_res.
  destruct (Py.get itinerary_data "preferences" _) as [preferences | e];
    [| cbn; intros [= <- <-]; discriminate].
  do 2 rewrite bind_utcnow.
  rewrite (bind_pure _ _ _ _ (trip_duration_pure env start_date end_date)).
  destruct (fst (trip_duration env start_date end_date tt)) as [duration | e] eqn:Hduration;
    [| cbn; intros [= <- <-]; discriminate].
  cbn [value_of].
  destruct (Py.truthy days) eqn:Tdays; cbn [negb].
  - rewrite bind_ret. intros H.
    destruct (store_and_answer_ok _ _ _ _ _ _ _ _ _ H H200) as (-> & Hok & ->);
      [cbn; discriminate | cbn; discriminate |].
    destruct (save_itinerary_done env user_id _ _ Hok) as (uid & -> & _ & _ & Ht).
    exists uid. eexists _, destination, duration, w.
    split; [reflexivity |]. split; [reflexivity |].
    split; [unfold stored_itinerary; rewrite Ht, lookup_insert_eq; reflexivity |].
    split; [reflexivity |]. split; [reflexivity |]. split; [reflexivity |].
    split; [discriminate |].
    exists start_date, end_date, duration.
    split; [reflexivity |]. split; [reflexivity |]. split; [exact Hduration | reflexivity].
  - rewrite bind_assoc. unfold bind at 1.
    destruct (create_default_day_structure env duration destination _)
      as [[structure | e] w4] eqn:Hdays; [| cbn; intros [= <- <-]; discriminate].
    rewrite bind_ret. intros H.
    destruct (store_and_answer_ok _ _ _ _ _ _ _ _ _ H H200) as (-> & Hok & ->);
      [cbn; discriminate | cbn; discriminate |].
    destruct (save_itinerary_done env user_id _ _ Hok) as (uid & -> & _ & _ & Ht).
    exists uid. eexists _, destination, duration, _.
    split; [reflexivity |]. split; [reflexivity |].
    split; [unfold stored_itinerary; rewrite Ht, lookup_insert_eq; reflexivity |].
    split; [reflexivity |]. split; [reflexivity |]. split; [reflexivity |].
    split; [intros _; eexists _, _; split; [exact Hdays | reflexivity] |].
    exists start_date, end_date, duration.
    split; [reflexivity |]. split; [reflexivity |]. split; [exact Hduration | reflexivity].
Qed.

Lemma lookup_not_key k d : ~ In k (map fst d) -> Py.lookup k d = None.
Proof.
  induction d as [| [k' v] t IH]; cbn; [reflexivity |].
  intros H. destruct (String.eqb_spec k k') as [-> | Hne]; [tauto |].
  apply IH. tauto.
Qed.

(** X6. What [create_itinerary] reports is what a later read finds. When
    it answers with success, the itinerary of the response is the record
    stored for the user, with exactly the fifteen keys the handler sets,
    and [get_itinerary] of the handler, when its read goes through,
    answers found with that same itinerary. *)
Theorem X6_created_itinerary_is_found env (user_id itinerary_data : pyval)
    (w : World) (resp : Response) :
  fst (create_itinerary env user_id itinerary_data w) = Ok resp ->
  status resp = 200 ->
  exists record,
    Py.item (body resp) "itinerary" = Ok (PyDict record) /\
    map fst record = created_keys /\
    (aws_outcome env (step (snd (create_itinerary env user_id itinerary_data w))) = AwsOk ->
     fst (handler_get_itinerary env user_id
            (snd (create_itinerary env user_id itinerary_data w)))
     = Ok (jsonify [("itinerary", PyDict record); ("found", PyBool true)])).
Proof.
  intros Hresp H200.
  destruct (create_itinerary_record env user_id itinerary_data w resp Hresp H200)
    as (uid & record & destination & duration & w1 & -> & -> & Hstored & Hkeys & _).
  exists record. split; [reflexivity |]. split; [exact Hkeys |].
  intros Haws. unfold handler_get_itinerary, try_except, bind.
  rewrite (get_itinerary_read env uid _ Haws), Hstored. cbn [default from_option id].
  destruct record; [discriminate | reflexivity].
Qed.

Lemma X6_created_itinerary_is_found_witness :
  exists record,
    fst (handler_get_itinerary Example.env (PyStr "u1")
           (snd (create_itinerary Example.env (PyStr "u1") paris_trip Example.world)))
    = Ok (jsonify [("itinerary", PyDict record); ("found", PyBool true)]) /\
    Py.lookup "destination" record = Some (PyStr "Paris") /\
    Py.lookup "duration_days" record = Some (PyInt 3).
Proof.
  pose proof (X6_created_itinerary_is_found Example.env (PyStr "u1") paris_trip
                Example.world) as H.
  destruct (create_itinerary Example.env (PyStr "u1") paris_trip Example.world)
    as [[resp | e] w'] eqn:E; vm_compute in E; [| discriminate].
  injection E as <- <-.
  destruct (H _ eq_refl eq_refl) as (record & Hitem & _ & Hget).
  injection Hitem as <-.
  eexists. split; [apply Hget; reflexivity |]. split; reflexivity.
Defined.

(** ** The default plan of a created itinerary *)

Lemma default_day_has_shape env destination n w day w' :
  default_day env destination n w = (Ok day, w') -> default_day_shape n day.
Proof.
  unfold default_day. rewrite bind_utcnow, bind_lift_res.
  destruct (Dt.timedelta_days (n - 1)) as [delta | e]; [| discriminate].
  rewrite bind_lift_res.
  destruct (Dt.add_checked _ delta) as [date | e]; [| discriminate].
  unfold ret. intros [= <- _].
  split; [reflexivity |]. split; [reflexivity |].
  eexists. split; reflexivity.
Qed.

Lemma default_days_have_shape env destination l w days w' :
  map_m (default_day env destination) l w = (Ok days, w') ->
  Forall2 default_day_shape l days.
Proof.
  revert w days w'. induction l as [| n l IH]; intros w days w'; cbn [map_m].
  - intros [= <- _]. constructor.
  - unfold bind at 1.
    destruct (default_day env destination n w) as [[day | e] w1] eqn:Hday;
      [| discriminate].
    unfold bind at 1.
    destruct (map_m (default_day env destination) l w1) as [[rest | e] w2] eqn:Hrest;
      [| discriminate].
    intros [= <- _]. constructor.
    + eapply default_day_has_shape. exact Hday.
    + eapply IH. exact Hrest.
Qed.

Lemma default_day_returns env destination n :
  day_offset_in_range env (n - 1) -> returns (default_day env destination n).
Proof.
  intros Hn w. unfold default_day. rewrite bind_utcnow, bind_lift_res.
  rewrite (timedelta_days_in_range env _ Hn), bind_lift_res.
  rewrite (add_checked_in_range env _ _ Hn). eexists _, _. reflexivity.
Qed.

(** X7. The default plan. [create_default_day_structure] returns
    whenever the dates of the plan, the clock reading moved by 0 to
    duration - 1 days, are dates of the years 1 to 9999; what it returns
    has as many days as the duration says (none when the duration is
    zero or negative), numbered from 1, and every day has three
    activities and a total that is the sum of the costs of its
    activities and of its transportation. A successful
    [create_itinerary] whose caller gave no days stores that plan for
    the duration it computed: the number of days of the record is its
    duration_days, or zero when duration_days is not positive, which
    happens when the end date is not after the start date. *)
Theorem X7_default_plan env :
  (forall duration destination w,
      (forall i, 0 <= i < duration -> day_offset_in_range env i) ->
      exists days w',
        create_default_day_structure env duration destination w = (Ok days, w')) /\
  (forall duration destination w days w',
      create_default_day_structure env duration destination w = (Ok days, w') ->
      length days = Z.to_nat duration /\
      Forall2 default_day_shape
        (map (fun i => Z.of_nat i + 1) (seq 0 (Z.to_nat duration))) days) /\
  (forall user_id itinerary_data w resp,
      fst (create_itinerary env user_id itinerary_data w) = Ok resp ->
      status resp = 200 ->
      Py.truthy (value_of (Py.get itinerary_data "days" (PyList []))) = false ->
      exists record duration days,
        Py.item (body resp) "itinerary" = Ok (PyDict record) /\
        Py.lookup "duration_days" record = Some (PyInt duration) /\
        Py.lookup "days" record = Some (PyList days) /\
        length days = Z.to_nat duration).
Proof.
  assert (Hplan : forall duration destination w days w',
      create_default_day_structure env duration destination w = (Ok days, w') ->
      length days = Z.to_nat duration /\
      Forall2 default_day_shape
        (map (fun i => Z.of_nat i + 1) (seq 0 (Z.to_nat duration))) days).
  { intros duration destination w days w'. unfold create_default_day_structure, range.
    rewrite map_map. intros Hdays.
    pose proof (default_days_have_shape _ _ _ _ _ _ Hdays) as Hshapes.
    split; [| exact Hshapes].
    apply Forall2_length in Hshapes. rewrite <- Hshapes.
    rewrite length_map, length_seq. reflexivity. }
  split; [| split; [exact Hplan |]].
  - intros duration destination w Hrange.
    apply returns_map_m_in. intros n Hn.
    apply in_map_iff in Hn as (i & <- & Hi). apply in_range in Hi.
    apply default_day_returns. replace (i + 1 - 1) with i by lia. apply Hrange, Hi.
  - intros user_id itinerary_data w resp Hresp H200 Hnone.
    destruct (create_itinerary_record env user_id itinerary_data w resp Hresp H200)
      as (uid & record & destination & duration & w1 & -> & -> & _ & _ & _ & Hdur & Hdays & _).
    destruct (Hdays Hnone) as (days & w2 & Hrun & Hstored).
    destruct (Hplan _ _ _ _ _ Hrun) as (Hlen & _).
    exists record, duration, days. split; [reflexivity |]. split; [exact Hdur |].
    split; [exact Hstored | exact Hlen].
Qed.

Lemma X7_default_plan_witness :
  exists resp record,
    fst (create_itinerary Example.env (PyStr "u1") backwards_trip Example.world) = Ok resp /\
    status resp = 200 /\
    Py.item (body resp) "itinerary" = Ok (PyDict record) /\
    Py.lookup "duration_days" record = Some (PyInt (-1)) /\
    Py.lookup "days" record = Some (PyList []).
Proof.
  pose proof (proj2 (proj2 (X7_default_plan Example.env)) (PyStr "u1") backwards_trip
                Example.world) as H.
  destruct (create_itinerary Example.env (PyStr "u1") backwards_trip Example.world)
    as [[resp | e] w'] eqn:E; vm_compute in E; [| discriminate].
  injection E as <- <-.
  destruct (H _ eq_refl eq_refl eq_refl) as (record & duration & days & Hitem & Hdur & Hdays & Hlen).
  injection Hitem as <-.
  eexists _, _. split; [reflexivity |]. split; [reflexivity |].
  split; [reflexivity |]. split; reflexivity.
Defined.

(** ** Created itineraries and the weather and news evaluators *)

Lemma no_destinations_no_alerts env (record : list (string * pyval)) w :
  Py.lookup "destinations" record = None ->
  check_weather_alerts env (PyDict record) w = (Ok [], w) /\
  check_news_alerts env (PyDict record) w = (Ok [], w).
Proof.
  intros Hnone.
  unfold check_weather_alerts, check_news_alerts, run_evaluator.
  rewrite !bind_lift_res. cbn [Py.get]. rewrite Hnone.
  split; reflexivity.
Qed.

(** X8. The weather and the news evaluators read the destinations of an
    itinerary under the key destinations, which no record built by
    [create_itinerary] has (it stores the single destination under the
    key destination). On the itinerary of a successful
    [create_itinerary], [check_weather_alerts] and [check_news_alerts]
    therefore return no alert, in any state of the world, and without
    asking a provider: the world is left as it is. *)
Theorem X8_created_itinerary_raises_no_weather_or_news_alert env
    (user_id itinerary_data : pyval) (w : World) (resp : Response) :
  fst (create_itinerary env user_id itinerary_data w) = Ok resp ->
  status resp = 200 ->
  exists itinerary uid,
    Py.item (body resp) "itinerary" = Ok itinerary /\
    user_id = PyStr uid /\
    stored_itinerary (snd (create_itinerary env user_id itinerary_data w)) uid
    = Some itinerary /\
    Py.get itinerary "destinations" PyNone = Ok PyNone /\
    forall w', check_weather_alerts env itinerary w' = (Ok [], w') /\
               check_news_alerts env itinerary w' = (Ok [], w').
Proof.
  intros Hresp H200.
  destruct (create_itinerary_record env user_id itinerary_data w resp Hresp H200)
    as (uid & record & destination & duration & w1 & -> & -> & Hstored & Hkeys & _).
  assert (Hnone : Py.lookup "destinations" record = None).
  { apply lookup_not_key. rewrite Hkeys. cbn.
    intros H. repeat (destruct H as [H | H]; [discriminate |]). exact H. }
  exists (PyDict record), uid. split; [reflexivity |]. split; [reflexivity |].
  split; [exact Hstored |]. split; [cbn; rewrite Hnone; reflexivity |].
  intros w'. apply no_destinations_no_alerts, Hnone.
Qed.

Lemma X8_created_itinerary_raises_no_weather_or_news_alert_witness :
  exists itinerary,
    stored_itinerary
      (snd (create_itinerary Example.env_stormy (PyStr "u1") paris_trip Example.world))
      "u1" = Some itinerary /\
    Py.item itinerary "destination" = Ok (PyStr "Paris") /\
    check_weather_alerts Example.env_stormy itinerary Example.world
    = (Ok [], Example.world).
Proof.
  pose proof (X8_created_itinerary_raises_no_weather_or_news_alert Example.env_stormy
                (PyStr "u1") paris_trip Example.world) as H.
  destruct (create_itinerary Example.env_stormy (PyStr "u1") paris_trip Example.world)
    as [[resp | e] w'] eqn:E; vm_compute in E; [| discriminate].
  injection E as <- <-.
  destruct (H _ eq_refl eq_refl) as (itinerary & uid & Hitem & Hu & Hstored & _ & Hnone).
  injection Hu as <-. injection Hitem as <-.
  eexists. split; [exact Hstored |]. split; [reflexivity |].
  apply (proj1 (Hnone Example.world)).
Defined.

(** ** Deleting an itinerary *)

Lemma or_empty_dict_fields env user_id w stored w1 :
  get_user_data env user_id w = (Ok stored, w1) ->
  exists fields, or_empty_dict stored = PyDict fields /\
                 forall k, ~ In k ["user_id"; "updated_at"; "data"; "current_itinerary";
                                   "preferences"; "bookings"] ->
                           Py.lookup k fields = None.
Proof.
  intros Hget.
  destruct (get_user_data_cases _ _ _ _ _ Hget) as [-> | (uid & item & -> & ->)].
  - exists []. split; reflexivity.
  - exists (user_fields (PyStr uid) item). unfold or_empty_dict.
    rewrite user_fields_nonempty. split; [reflexivity |].
    intros k Hk. rewrite user_fields_lookup. cbn [In] in Hk.
    repeat match goal with
           | |- context [String.eqb k ?s] =>
               destruct (String.eqb_spec k s) as [E | _];
               [exfalso; apply Hk; rewrite E; tauto |]
           end.
    reflexivity.
Qed.

(** What a successful [delete_itinerary] went through. *)
Lemma delete_itinerary_run env user_id w resp :
  fst (delete_itinerary env user_id w) = Ok resp ->
  status resp = 200 ->
  exists uid existing fields w1 w2,
    user_id = PyStr uid /\
    stored_itinerary w uid = Some (PyDict existing) /\
    existing <> [] /\
    table w1 = table w /\
    Py.lookup "archived_itineraries" fields = None /\
    w2 = snd (save_user_data env user_id
                (PyDict (Py.store "archived_itineraries"
                           (PyList [archived_copy existing
                                      (isoformat (runtime env)
                                         (Dt.naive (clock env (S (step w)))))])
                           fields)) w1) /\
    fst (save_itinerary env user_id (PyDict []) w2) = Ok true /\
    snd (delete_itinerary env user_id w) = snd (save_itinerary env user_id (PyDict []) w2) /\
    resp = jsonify [("message", PyStr "Itinerary deleted successfully");
                    ("archived", PyBool true)].
Proof.
  destruct (delete_itinerary env user_id w) as [r w'] eqn:H.
  cbn [fst snd]. intros -> H200. revert H.
  unfold delete_itinerary, try_except. unfold bind at 1.
  destruct (get_itinerary env user_id w) as [[existing | e] w0] eqn:Hget;
    [| cbn; intros [= <- <-]; discriminate].
  destruct (Py.truthy existing) eqn:Tex; cbn [negb];
    [| cbn; intros [= <- <-]; discriminate].
  destruct (get_itinerary_found _ _ _ _ _ Hget Tex) as (Ht0 & uid & -> & Hstored).
  assert (Hw0 : step w0 = S (step w)).
  { revert Hget.
    unfold get_itinerary, try_except_client, try_except, bind, string_param,
      aws_call, get_table, ret, raise. cbn.
    destruct (aws_outcome env (step w)); cbn; try discriminate;
      try (intros [= <- <-]; reflexivity).
    destruct (table w !! uid); cbn; intros [= <- <-]; reflexivity. }
  rewrite bind_lift_res.
  destruct existing as [| | | | | l | existing]; cbn [py_copy];
    try (cbn; intros [= <- <-]; discriminate).
  rewrite bind_lift_res. cbn [Py.setitem]. rewrite bind_utcnow, bind_lift_res.
  cbn [Py.setitem]. unfold bind at 1.
  destruct (get_user_data env (PyStr uid) (tick w0)) as [[stored | e] w1] eqn:Hdata;
    [| cbn; intros [= <- <-]; discriminate].
  destruct (or_empty_dict_fields _ _ _ _ _ Hdata) as (fields & -> & Hfields).
  assert (Hnone : Py.lookup "archived_itineraries" fields = None).
  { apply Hfields. cbn. intros H. repeat (destruct H as [H | H]; [discriminate |]).
    exact H. }
  rewrite bind_lift_res. cbn [Py.get]. rewrite Hnone.
  rewrite !bind_lift_res. cbn [py_append app]. rewrite bind_lift_res.
  cbn [slice_last length Nat.sub skipn]. rewrite bind_lift_res. cbn [Py.setitem].
  unfold bind at 1.
  rewrite Hw0.
  destruct (save_user_data env (PyStr uid) _ w1) as [[saved | e] w2] eqn:Hsave;
    [| cbn; intros [= <- <-]; discriminate].
  intros H.
  destruct (store_and_answer_ok _ _ _ _ _ _ _ _ _ H H200) as (-> & Hok & ->);
    [cbn; discriminate | cbn; discriminate |].
  exists uid, existing, fields, w1, w2.
  split; [reflexivity |]. split; [exact Hstored |].
  split; [destruct existing; [discriminate | discriminate] |].
  split.
  { pose proof (get_user_data_frame env (PyStr uid) (tick w0)) as [Hf _].
    rewrite Hdata in Hf. cbn [snd] in Hf. rewrite Hf. exact Ht0. }
  split; [exact Hnone |].
  split; [unfold archived_copy; rewrite Hsave; reflexivity |].
  split; [exact Hok |]. split; reflexivity.
Qed.

(** X9. [delete_itinerary] leaves an empty itinerary behind. When it
    answers with success, the user had an itinerary that was a dict and
    not empty, and what is now stored as the user's itinerary is the
    empty dict: a later [get_itinerary] of the handler answers not found
    and a second [delete_itinerary] answers 404, whenever their read goes
    through. The answer says archived, but the result of the write of the
    archive is not looked at: the item holds the record with the archive,
    a list of exactly one entry (the deleted itinerary marked archived),
    or, when that write failed with a client error, the data it held
    before the call. *)
Theorem X9_delete_itinerary_leaves_empty env (user_id : pyval) (w : World)
    (resp : Response) :
  fst (delete_itinerary env user_id w) = Ok resp ->
  status resp = 200 ->
  exists uid existing old item,
    user_id = PyStr uid /\
    table w !! uid = Some old /\
    CurrentItinerary old = Some (PyDict existing) /\
    existing <> [] /\
    Py.item (body resp) "archived" = Ok (PyBool true) /\
    table (snd (delete_itinerary env user_id w)) !! uid = Some item /\
    CurrentItinerary item = Some (PyDict []) /\
    (Data item = Data old \/
     exists record stamp,
       Data item = Some (PyDict record) /\
       Py.lookup "archived_itineraries" record
       = Some (PyList [archived_copy existing stamp])) /\
    (aws_outcome env (step (snd (delete_itinerary env user_id w))) = AwsOk ->
     fst (handler_get_itinerary env user_id (snd (delete_itinerary env user_id w)))
     = Ok (jsonify [("message", PyStr "No itinerary found"); ("found", PyBool false)]) /\
     fst (delete_itinerary env user_id (snd (delete_itinerary env user_id w)))
     = Ok (jsonify_code [("error", PyStr "Itinerary not found")] 404)).
Proof.
  intros Hresp H200.
  destruct (delete_itinerary_run env user_id w resp Hresp H200)
    as (uid & existing & fields & w1 & w2 & -> & Hstored & Hne & Ht1 & Hnone & Hw2
        & Hok & Hsnd & ->).
  rewrite Hsnd.
  destruct (save_itinerary_done env (PyStr uid) (PyDict []) w2 Hok)
    as (uid' & [= <-] & _ & _ & Ht).
  unfold stored_itinerary in Hstored.
  destruct (table w !! uid) as [old |] eqn:Hold; [| discriminate].
  exists uid, existing, old. eexists.
  split; [reflexivity |]. split; [exact Hold |]. split; [exact Hstored |].
  split; [exact Hne |]. split; [reflexivity |].
  split; [rewrite Ht, lookup_insert_eq; reflexivity |].
  split; [reflexivity |].
  split.
  - cbn [Data].
    destruct (save_user_data_table env (PyStr uid)
                (Py.store "archived_itineraries"
                   (PyList [archived_copy existing
                              (isoformat (runtime env)
                                 (Dt.naive (clock env (S (step w)))))]) fields) w1)
      as [Hsame | (uid' & stamp & ttl & [= <-] & _ & Hput)]; rewrite <- Hw2 in *.
    + left. rewrite Hsame, Ht1, Hold. reflexivity.
    + right. rewrite Hput, lookup_insert_eq. cbn [Data default from_option id].
      eexists _, _. split; [reflexivity |]. apply item_store_same.
  - intros Haws. split.
    + unfold handler_get_itinerary, try_except, bind.
      rewrite (get_itinerary_read env uid _ Haws).
      unfold stored_itinerary. rewrite Ht, lookup_insert_eq. reflexivity.
    + unfold delete_itinerary, try_except, bind.
      rewrite (get_itinerary_read env uid _ Haws).
      unfold stored_itinerary. rewrite Ht, lookup_insert_eq. reflexivity.
Qed.

Lemma X9_delete_itinerary_leaves_empty_witness :
  exists resp item,
    fst (delete_itinerary env_sixth_fails (PyStr "u1") Example.itinerary_world) = Ok resp /\
    status resp = 200 /\
    Py.item (body resp) "archived" = Ok (PyBool true) /\
    table (snd (delete_itinerary env_sixth_fails (PyStr "u1") Example.itinerary_world))
      !! "u1" = Some item /\
    CurrentItinerary item = Some (PyDict []) /\
    Data item = None.
Proof.
  pose proof (X9_delete_itinerary_leaves_empty env_sixth_fails (PyStr "u1")
                Example.itinerary_world) as H.
  destruct (delete_itinerary env_sixth_fails (PyStr "u1") Example.itinerary_world)
    as [[resp | e] w'] eqn:E; vm_compute in E; [| discriminate].
  injection E as <- <-.
  destruct (H _ eq_refl eq_refl)
    as (uid & existing & old & item & Hu & Hold & _ & _ & Harch & Hitem & Hcur & _).
  injection Hu as <-.
  eexists _, item. split; [reflexivity |]. split; [reflexivity |].
  split; [exact Harch |]. split; [exact Hitem |]. split; [exact Hcur |].
  cbn [snd] in Hitem. vm_compute in Hitem. injection Hitem as <-. reflexivity.
Defined.

(** ** Sharing an itinerary *)

Lemma get_itinerary_state env user_id w :
  table (snd (get_itinerary env user_id w)) = table w /\
  bucket (snd (get_itinerary env user_id w)) = bucket w /\
  (forall v, fst (get_itinerary env user_id w) = Ok v -> Py.truthy v = true ->
             step (snd (get_itinerary env user_id w)) = S (step w)).
Proof.
  unfold get_itinerary, try_except_client, try_except, bind, string_param,
    aws_call, get_table, ret, raise.
  destruct user_id; cbn; try (repeat split; try reflexivity; discriminate).
  destruct (aws_outcome env (step w)); cbn;
    try (repeat split; try reflexivity; intros v [= <-]; discriminate).
  destruct (table w !! s); cbn; repeat split; reflexivity.
Qed.

(** X10. [share_itinerary] stores nothing: whatever the request and
    whatever it answers, the table and the bucket are the ones before the
    call, so the share it announces is recorded nowhere. When it answers
    with a link, the share id is the word share_ followed by the clock
    reading in whole seconds, and the URL ends with that id: the id
    depends on the time of the call alone, not on the user or on the
    itinerary. *)
Theorem X10_share_itinerary_stores_nothing env (data : pyval) (w : World) :
  table (snd (share_itinerary env data w)) = table w /\
  bucket (snd (share_itinerary env data w)) = bucket w /\
  (exists resp, fst (share_itinerary env data w) = Ok resp) /\
  (forall resp,
      fst (share_itinerary env data w) = Ok resp ->
      status resp = 200 ->
      body resp
      = PyDict
          [("share_url",
             PyStr ("https://your-app-domain.com/shared/"
                    ++ "share_"
                    ++ Str.of_Z (posix_seconds (runtime env)
                                   (Dt.naive (clock env (S (step w)))))));
           ("share_id",
             PyStr ("share_"
                    ++ Str.of_Z (posix_seconds (runtime env)
                                   (Dt.naive (clock env (S (step w)))))));
           ("expires_in_days", PyInt 30)]).
Proof.
  destruct (share_itinerary env data w) as [r w'] eqn:H. cbn [fst snd].
  assert (Hrefused : forall (resp0 : Response) (w0 : World),
             table w0 = table w -> bucket w0 = bucket w -> status resp0 <> 200 ->
             (Ok resp0, w0) = (r, w') ->
             table w' = table w /\
             bucket w' = bucket w /\
             (exists resp, r = Ok resp) /\
             (forall resp, r = Ok resp -> status resp = 200 ->
                body resp = PyDict
                  [("share_url",
                     PyStr ("https://your-app-domain.com/shared/"
                            ++ "share_"
                            ++ Str.of_Z (posix_seconds (runtime env)
                                           (Dt.naive (clock env (S (step w)))))));
                   ("share_id",
                     PyStr ("share_"
                            ++ Str.of_Z (posix_seconds (runtime env)
                                           (Dt.naive (clock env (S (step w)))))));
                   ("expires_in_days", PyInt 30)])).
  { intros resp0 w0 Ht Hb Hs [= <- <-]. split; [exact Ht |]. split; [exact Hb |].
    split; [eexists; reflexivity |]. intros resp [= <-] H200. contradiction. }
  revert H. unfold share_itinerary, try_except.
  rewrite !bind_lift_res.
  destruct (Py.get data "user_id" PyNone) as [user_id | e];
    [| apply Hrefused; [reflexivity | reflexivity | discriminate]].
  rewrite bind_lift_res.
  destruct (Py.get data "method" (PyStr "link")) as [share_method | e];
    [| apply Hrefused; [reflexivity | reflexivity | discriminate]].
  destruct (negb (Py.truthy user_id));
    [apply Hrefused; [reflexivity | reflexivity | discriminate] |].
  unfold bind at 1.
  destruct (get_itinerary_state env user_id w) as (Ht & Hb & Hs).
  destruct (get_itinerary env user_id w) as [[itinerary | e] w1]; cbn [fst snd] in *;
    [| apply Hrefused; [assumption | assumption | discriminate]].
  destruct (Py.truthy itinerary) eqn:Tit; cbn [negb];
    [| apply Hrefused; [assumption | assumption | discriminate]].
  destruct (Py.is_str "link" share_method);
    [| apply Hrefused; [assumption | assumption | discriminate]].
  rewrite !bind_utcnow. cbn [ret].
  rewrite (Hs itinerary eq_refl Tit).
  intros [= <- <-]. cbn [table bucket tick].
  split; [exact Ht |]. split; [exact Hb |]. split; [eexists; reflexivity |].
  intros resp [= <-] _. reflexivity.
Qed.

Lemma X10_share_itinerary_stores_nothing_witness :
  exists resp,
    fst (share_itinerary Example.env (PyDict [("user_id", PyStr "u1")])
           Example.itinerary_world) = Ok resp /\
    status resp = 200 /\
    Py.item (body resp) "share_id" = Ok (PyStr "share_1793700000") /\
    table (snd (share_itinerary Example.env (PyDict [("user_id", PyStr "u1")])
                  Example.itinerary_world))
    = table Example.itinerary_world.
Proof.
  pose proof (X10_share_itinerary_stores_nothing Example.env
                (PyDict [("user_id", PyStr "u1")]) Example.itinerary_world) as H.
  destruct (share_itinerary Example.env (PyDict [("user_id", PyStr "u1")])
              Example.itinerary_world) as [[resp | e] w'] eqn:E;
    vm_compute in E; [| discriminate].
  injection E as <- <-.
  destruct H as (Ht & _ & _ & Hbody).
  eexists. split; [reflexivity |]. split; [reflexivity |].
  split; [| exact Ht].
  rewrite (Hbody _ eq_refl eq_refl). vm_compute. reflexivity.
Defined.

(** ** The kinds of alert a refresh returns *)

Section EmitsOnly.

Context (P : pyval -> Prop).

Lemma emits_ret {A} (a : A) : emits_only P (ret a).
Proof. intros s H. exact H. Qed.

Lemma emits_raise {A} (e : exn) : emits_only P (raise (A := A) e).
Proof. intros s H. exact H. Qed.

Lemma emits_lift_res {A} (r : Res A) : emits_only P (lift_res r).
Proof. intros s H. exact H. Qed.

Lemma emits_bind {A B} (m : M EvalState A) (k : A -> M EvalState B) :
  emits_only P m -> (forall a, emits_only P (k a)) -> emits_only P (bind m k).
Proof.
  intros Hm Hk s Hs. unfold bind. specialize (Hm s Hs).
  destruct (m s) as [[a | e] s1]; cbn in *; [apply Hk; exact Hm | exact Hm].
Qed.

Lemma emits_try_except {A} (m : M EvalState A) (h : exn -> M EvalState A) :
  emits_only P m -> (forall e, emits_only P (h e)) -> emits_only P (try_except m h).
Proof.
  intros Hm Hh s Hs. unfold try_except. specialize (Hm s Hs).
  destruct (m s) as [[a | e] s1]; cbn in *; [exact Hm | apply Hh; exact Hm].
Qed.

Lemma emits_for_each {A} (l : list A) (body : A -> M EvalState unit) :
  (forall x, emits_only P (body x)) -> emits_only P (for_each l body).
Proof.
  intros Hb. induction l as [| x t IH]; cbn [for_each]; [apply emits_ret |].
  apply emits_bind; [apply Hb | intros _; exact IH].
Qed.

Lemma emits_any_m {A} (l : list A) (test : A -> M EvalState bool) :
  (forall x, emits_only P (test x)) -> emits_only P (any_m l test).
Proof.
  intros Ht. induction l as [| x t IH]; cbn [any_m]; [apply emits_ret |].
  apply emits_bind; [apply Ht | intros b]. destruct b; [apply emits_ret | exact IH].
Qed.

Lemma emits_liftW {A} (m : M World A) : emits_only P (liftW m).
Proof.
  intros s Hs. unfold liftW. destruct (m (fst s)) as [r w]. exact Hs.
Qed.

Lemma emits_emit a : P a -> emits_only P (emit a).
Proof.
  intros Ha s Hs. unfold emit. cbn.
  apply Forall_app. split; [exact Hs | repeat constructor; exact Ha].
Qed.

(** What an evaluator returns when all it appends satisfies [P]. *)
Lemma run_evaluator_emits (m : M EvalState unit) (w : World) :
  emits_only P m -> Forall P (list_of (fst (run_evaluator m w))).
Proof.
  intros Hm. unfold run_evaluator. specialize (Hm (w, []) (List.Forall_nil P)).
  destruct (m (w, [])) as [r [w' alerts]]. exact Hm.
Qed.

End EmitsOnly.

Ltac emits_step :=
  first
    [ apply emits_ret | apply emits_raise | apply emits_lift_res
    | apply emits_liftW
    | apply emits_emit; eexists _, _; (split; [| split; reflexivity]); cbn; tauto
    | apply emits_bind; [| intros ?]
    | apply emits_try_except; [| intros ?]
    | apply emits_for_each; intros ?
    | apply emits_any_m; intros ?
    | match goal with
      | |- emits_only _ (if ?b then _ else _) => destruct b
      | |- emits_only _ (match ?x with _ => _ end) => destruct x
      end ].

Lemma check_flight_alerts_kinds env bookings w :
  Forall (alert_of flight_kinds) (list_of (fst (check_flight_alerts env bookings w))).
Proof.
  apply run_evaluator_emits.
  unfold flight_booking_alerts, parse_iso. repeat emits_step.
Qed.

Lemma check_weather_alerts_kinds env itinerary w :
  Forall (alert_of weather_kinds) (list_of (fst (check_weather_alerts env itinerary w))).
Proof.
  apply run_evaluator_emits.
  unfold weather_destination_alerts, weather_day_alerts. repeat emits_step.
Qed.

Lemma check_news_alerts_kinds env itinerary w :
  Forall (alert_of news_kinds) (list_of (fst (check_news_alerts env itinerary w))).
Proof.
  apply run_evaluator_emits.
  unfold news_destination_alerts, news_article_alerts. repeat emits_step.
Qed.

Lemma check_document_alerts_kinds env user_id w :
  Forall (alert_of document_kinds) (list_of (fst (check_document_alerts env user_id w))).
Proof.
  apply run_evaluator_emits.
  unfold document_alerts. repeat emits_step.
Qed.

Lemma alert_of_incl kinds kinds' a :
  incl kinds kinds' -> alert_of kinds a -> alert_of kinds' a.
Proof.
  intros Hi (kind & p & Hin & Ht & Hp). exists kind, p. split; [apply Hi, Hin | auto].
Qed.

Lemma evaluator_alert_facts a :
  alert_of evaluator_kinds a ->
  Py.item a "type" <> Ok (PyStr "custom") /\
  exists p, Py.item a "priority" = Ok (PyInt p) /\ 2 <= p <= 5.
Proof.
  intros (kind & p & Hin & Ht & Hp).
  unfold evaluator_kinds, flight_kinds, weather_kinds, news_kinds, document_kinds in Hin.
  cbn in Hin.
  repeat (destruct Hin as [[= <- <-] | Hin];
          [split; [rewrite Ht; discriminate | eexists; split; [exact Hp | lia]] |]).
  contradiction.
Qed.

(** X11. Every alert that [handle_alerts] returns was built by one of
    the four evaluators in this call: its type and priority are one of
    flight_checkin_reminder 3, departure_reminder 4, gate_change 5,
    severe_weather 4, weather_advisory 2, travel_advisory 3 and
    document_expiry 4. In particular the priorities lie between 2 and 5,
    and no alert of type custom, as [create_custom_alert] stores them, is
    ever part of the answer. *)
Theorem X11_refresh_returns_evaluator_alerts env (user_id : pyval) (w : World)
    (resp : Response) (alerts : list pyval) :
  fst (handle_alerts env user_id w) = Ok resp ->
  Py.item (body resp) "alerts" = Ok (PyList alerts) ->
  Forall (fun a => alert_of evaluator_kinds a /\
                   Py.item a "type" <> Ok (PyStr "custom") /\
                   exists p, Py.item a "priority" = Ok (PyInt p) /\ 2 <= p <= 5)
         alerts.
Proof.
  intros Hresp Halerts.
  enough (Hall : Forall (alert_of evaluator_kinds) alerts).
  { eapply List.Forall_impl; [| exact Hall]. intros a Ha.
    split; [exact Ha | apply evaluator_alert_facts, Ha]. }
  revert Hresp Halerts.
  destruct (handle_alerts env user_id w) as [r w'] eqn:H. cbn [fst].
  intros -> Halerts. revert H.
  unfold handle_alerts, try_except.
  destruct (Py.truthy user_id); cbn [negb];
    [| cbn; intros [= <- <-]; discriminate].
  unfold bind at 1.
  destruct (get_user_data env user_id w) as [[user_data | e] w1];
    [| cbn; intros [= <- <-]; discriminate].
  destruct (Py.truthy user_data); cbn [negb].
  2: { cbn. intros [= <- <-]. cbn in Halerts. injection Halerts as <-. constructor. }
  rewrite bind_lift_res.
  destruct (Py.get user_data "bookings" _) as [bookings | e];
    [| cbn; intros [= <- <-]; discriminate].
  unfold bind at 1.
  pose proof (check_flight_alerts_kinds env bookings w1) as Kf.
  destruct (check_flight_alerts_steady env bookings w1) as (fa & w2 & Hf & _ & _).
  rewrite Hf in *. cbn [fst list_of] in Kf.
  rewrite bind_lift_res.
  destruct (Py.get user_data "current_itinerary" _) as [itinerary | e];
    [| cbn; intros [= <- <-]; discriminate].
  unfold bind at 1.
  pose proof (check_weather_alerts_kinds env itinerary w2) as Kw.
  destruct (check_weather_alerts_steady env itinerary w2) as (wa & w3 & Hw & _ & _).
  rewrite Hw in *. cbn [fst list_of] in Kw.
  rewrite bind_lift_res. unfold bind at 1.
  pose proof (check_news_alerts_kinds env itinerary w3) as Kn.
  destruct (check_news_alerts_steady env itinerary w3) as (na & w4 & Hn & _ & _).
  rewrite Hn in *. cbn [fst list_of] in Kn.
  unfold bind at 1.
  pose proof (check_document_alerts_kinds env user_id w4) as Kd.
  destruct (check_document_alerts_steady env user_id w4) as (da & w5 & Hd & _ & _).
  rewrite Hd in *. cbn [fst list_of] in Kd.
  cbn [app]. rewrite bind_lift_res.
  destruct (sort_by_priority _) as [sorted | e] eqn:Hsort;
    [| cbn; intros [= <- <-]; discriminate].
  rewrite bind_utcnow, bind_lift_res.
  destruct (Py.setitem user_data "last_alert_check" _) as [stamped | e];
    [| cbn; intros [= <- <-]; discriminate].
  rewrite bind_lift_res.
  destruct (Py.setitem stamped "current_alerts" _) as [record | e];
    [| cbn; intros [= <- <-]; discriminate].
  unfold bind at 1.
  destruct (save_user_data env user_id record (tick w5)) as [[saved | e] w6];
    [| cbn; intros [= <- <-]; discriminate].
  rewrite bind_utcnow. cbn [ret]. intros [= <- <-].
  cbn in Halerts. injection Halerts as <-.
  destruct (sort_by_priority_sound _ _ Hsort) as (_ & _ & Hperm).
  eapply Permutation_Forall; [exact Hperm |].
  repeat (apply Forall_app; split).
  - eapply List.Forall_impl; [| exact Kf]. intros a.
    apply alert_of_incl. unfold evaluator_kinds. intros x Hx.
    apply in_or_app. left. exact Hx.
  - eapply List.Forall_impl; [| exact Kw]. intros a.
    apply alert_of_incl. unfold evaluator_kinds. intros x Hx.
    apply in_or_app. right. apply in_or_app. left. exact Hx.
  - eapply List.Forall_impl; [| exact Kn]. intros a.
    apply alert_of_incl. unfold evaluator_kinds. intros x Hx.
    apply in_or_app. right. apply in_or_app. right. apply in_or_app. left. exact Hx.
  - eapply List.Forall_impl; [| exact Kd]. intros a.
    apply alert_of_incl. unfold evaluator_kinds. intros x Hx.
    apply in_or_app. right. apply in_or_app. right. apply in_or_app. right. exact Hx.
Qed.

Lemma X11_refresh_returns_evaluator_alerts_witness :
  exists resp alerts,
    fst (handle_alerts Example.env (PyStr "u3") two_flights_world) = Ok resp /\
    Py.item (body resp) "alerts" = Ok (PyList alerts) /\
    length alerts = 2%nat /\
    Forall (fun a => alert_of evaluator_kinds a /\
                     Py.item a "type" <> Ok (PyStr "custom") /\
                     exists p, Py.item a "priority" = Ok (PyInt p) /\ 2 <= p <= 5)
           alerts.
Proof.
  pose proof (X11_refresh_returns_evaluator_alerts Example.env (PyStr "u3")
                two_flights_world) as H.
  destruct (handle_alerts Example.env (PyStr "u3") two_flights_world)
    as [[resp | e] w'] eqn:E; vm_compute in E; [| discriminate].
  injection E as <- <-.
  eexists _, _. split; [reflexivity |]. split; [reflexivity |].
  split; [reflexivity |].
  apply (H _ _ eq_refl eq_refl).
Defined.

(** ** What a refresh can touch *)

Lemma handle_alerts_outcome env user_id w :
  exists resp w',
    handle_alerts env user_id w = (Ok resp, w') /\
    In (status resp) [200; 400; 500] /\
    (table w' = table w \/
     exists uid item, user_id = PyStr uid /\ table w' = <[uid := item]> (table w)).
Proof.
  destruct (handle_alerts env user_id w) as [r w'] eqn:H. revert H.
  assert (Hout : forall resp w0,
             In (status resp) [200; 400; 500] -> table w0 = table w ->
             (Ok resp, w0) = (r, w') ->
             exists resp' w'',
               (r, w') = (Ok resp', w'') /\
               In (status resp') [200; 400; 500] /\
               (table w'' = table w \/
                exists uid item,
                  user_id = PyStr uid /\ table w'' = <[uid := item]> (table w))).
  { intros resp w0 Hs Ht [= <- <-]. exists resp, w0. split; [reflexivity |].
    split; [exact Hs | left; exact Ht]. }
  unfold handle_alerts, try_except.
  destruct (Py.truthy user_id); cbn [negb];
    [| apply Hout; [cbn; tauto | reflexivity]].
  unfold bind at 1.
  pose proof (get_user_data_frame env user_id w) as [Hframe _].
  destruct (get_user_data env user_id w) as [[user_data | e] w1]; cbn [snd] in Hframe;
    [| apply Hout; [cbn; tauto | exact Hframe]].
  destruct (Py.truthy user_data); cbn [negb];
    [| apply Hout; [cbn; tauto | exact Hframe]].
  rewrite bind_lift_res.
  destruct (Py.get user_data "bookings" _) as [bookings | e];
    [| apply Hout; [cbn; tauto | exact Hframe]].
  unfold bind at 1.
  destruct (check_flight_alerts_steady env bookings w1) as (fa & w2 & Hf & T2 & _).
  rewrite Hf. rewrite bind_lift_res.
  assert (Hframe2 : table w2 = table w) by congruence.
  destruct (Py.get user_data "current_itinerary" _) as [itinerary | e];
    [| apply Hout; [cbn; tauto | exact Hframe2]].
  unfold bind at 1.
  destruct (check_weather_alerts_steady env itinerary w2) as (wa & w3 & Hw & T3 & _).
  rewrite Hw. rewrite bind_lift_res. unfold bind at 1.
  destruct (check_news_alerts_steady env itinerary w3) as (na & w4 & Hn & T4 & _).
  rewrite Hn. unfold bind at 1.
  destruct (check_document_alerts_steady env user_id w4) as (da & w5 & Hd & T5 & _).
  rewrite Hd. cbn [app]. rewrite bind_lift_res.
  assert (Hframe5 : table w5 = table w) by congruence.
  destruct (sort_by_priority _) as [sorted | e];
    [| apply Hout; [cbn; tauto | exact Hframe5]].
  rewrite bind_utcnow, bind_lift_res.
  destruct (Py.setitem user_data "last_alert_check" _) as [stamped | e];
    [| apply Hout; [cbn; tauto | exact Hframe5]].
  rewrite bind_lift_res.
  destruct (Py.setitem stamped "current_alerts" _) as [record | e] eqn:Hrecord;
    [| apply Hout; [cbn; tauto | exact Hframe5]].
  assert (Hdict : exists d, record = PyDict d).
  { destruct stamped; cbn in Hrecord; try discriminate.
    injection Hrecord as <-. eauto. }
  destruct Hdict as (d & ->).
  unfold bind at 1.
  pose proof (save_user_data_table env user_id d (tick w5)) as Hsave.
  destruct (save_user_data env user_id (PyDict d) (tick w5)) as [[saved | e] w6];
    cbn [fst snd] in Hsave.
  - rewrite bind_utcnow. cbn [ret]. intros [= <- <-].
    eexists _, _. split; [reflexivity |]. split; [cbn; tauto |].
    cbn [table tick] in *.
    destruct Hsave as [Hs | (uid & stamp & ttl & -> & _ & Hs)].
    + left. congruence.
    + right. exists uid. eexists. split; [reflexivity |]. rewrite Hs, Hframe5.
      reflexivity.
  - cbn [ret]. intros [= <- <-].
    eexists _, _. split; [reflexivity |]. split; [cbn; tauto |].
    cbn [table tick] in *.
    destruct Hsave as [Hs | (uid & stamp & ttl & -> & Hok & Hs)].
    + left. congruence.
    + discriminate.
Qed.

(** X12. [handle_alerts] never raises and touches at most the item of
    the user it is called for. For every user id and every state of the
    world it returns a response whose status is 200, 400 or 500, and the
    table afterwards is the table before, or the table before with the
    item of that user replaced. Each of the four evaluators returns a
    list for every input (an exception inside ends the evaluation with
    the alerts found so far) and leaves the table as it is. *)
Theorem X12_refresh_touches_one_item env (user_id : pyval) (w : World) :
  (exists resp,
     fst (handle_alerts env user_id w) = Ok resp /\
     In (status resp) [200; 400; 500]) /\
  (table (snd (handle_alerts env user_id w)) = table w \/
   exists uid item,
     user_id = PyStr uid /\
     table (snd (handle_alerts env user_id w)) = <[uid := item]> (table w)) /\
  (forall v w0,
      (exists l w1, check_flight_alerts env v w0 = (Ok l, w1) /\ table w1 = table w0) /\
      (exists l w1, check_weather_alerts env v w0 = (Ok l, w1) /\ table w1 = table w0) /\
      (exists l w1, check_news_alerts env v w0 = (Ok l, w1) /\ table w1 = table w0) /\
      (exists l w1, check_document_alerts env v w0 = (Ok l, w1) /\ table w1 = table w0)).
Proof.
  destruct (handle_alerts_outcome env user_id w) as (resp & w' & H & Hs & Ht).
  rewrite H. cbn [fst snd].
  split; [exists resp; split; [reflexivity | exact Hs] |].
  split; [exact Ht |].
  intros v w0.
  destruct (check_flight_alerts_steady env v w0) as (l1 & w1 & H1 & T1 & _).
  destruct (check_weather_alerts_steady env v w0) as (l2 & w2 & H2 & T2 & _).
  destruct (check_news_alerts_steady env v w0) as (l3 & w3 & H3 & T3 & _).
  destruct (check_document_alerts_steady env v w0) as (l4 & w4 & H4 & T4 & _).
  repeat split; eauto.
Qed.

(** ** The windows of the flight evaluator *)

Ltac none_added :=
  cbn [fst snd]; exists []; rewrite app_nil_r; split; [reflexivity | cbn; lia].

Lemma flight_booking_at_most_two env booking s :
  exists l,
    snd (snd (flight_booking_alerts env booking s)) = (snd s ++ l)%list /\
    (length l <= 2)%nat.
Proof.
  unfold flight_booking_alerts, parse_iso, try_except, random_random, random_choice,
    next_word, bind, lift_res, ret, raise, liftW, emit, utcnow.
  destruct (Py.get booking "type" PyNone) as [type | e]; [| none_added].
  destruct (Py.get booking "status" PyNone) as [status_ | e]; [| none_added].
  destruct (negb (Py.is_str "flight" type) || negb (Py.is_str "confirmed" status_));
    [none_added |].
  destruct (Py.get booking "details" (PyDict [])) as [details | e]; [| none_added].
  destruct (Py.get details "departure_date" PyNone) as [departure | e]; [| none_added].
  destruct (negb (Py.truthy departure)); [none_added |].
  destruct (Py.replace_Z departure) as [text | e]; cbn [fst snd]; [| none_added].
  destruct (fromisoformat (runtime env) text) as [dept |]; cbn [fst snd];
    [| none_added].
  destruct (Dt.sub dept _) as [diff | e]; cbn [fst snd]; [| none_added].
  destruct ((Dt.hours 22 <=? diff) && (diff <=? Dt.hours 24)).
  - destruct (Py.get details "flight_number" _) as [number | e]; cbn [fst snd];
      [| none_added].
    destruct (Py.get booking "booking_id" PyNone) as [id | e]; cbn [fst snd];
      [| none_added].
    destruct ((diff <=? Dt.hours 6) && (Dt.hours 0 <=? diff)); cbn [fst snd];
      [| eexists [_]; split; [reflexivity | cbn; lia]].
    destruct (F64.ltb _ _); cbn [fst snd];
      [| eexists [_]; split; [reflexivity | cbn; lia]].
    eexists [_; _]. rewrite <- app_assoc. split; [reflexivity | cbn; lia].
  - destruct ((Dt.hours 2 <=? diff) && (diff <=? Dt.hours 3)).
    + destruct (Py.get details "flight_number" _) as [number | e]; cbn [fst snd];
        [| none_added].
      destruct (Py.get booking "booking_id" PyNone) as [id | e]; cbn [fst snd];
        [| none_added].
      destruct ((diff <=? Dt.hours 6) && (Dt.hours 0 <=? diff)); cbn [fst snd];
        [| eexists [_]; split; [reflexivity | cbn; lia]].
      destruct (F64.ltb _ _); cbn [fst snd];
        [| eexists [_]; split; [reflexivity | cbn; lia]].
      eexists [_; _]. rewrite <- app_assoc. split; [reflexivity | cbn; lia].
    + cbn [fst snd].
      destruct ((diff <=? Dt.hours 6) && (Dt.hours 0 <=? diff)); cbn [fst snd];
        [| none_added].
      destruct (F64.ltb _ _); cbn [fst snd]; [| none_added].
      destruct (Py.get details "flight_number" _) as [number | e]; cbn [fst snd];
        [| none_added].
      destruct (Py.get booking "booking_id" PyNone) as [id | e]; cbn [fst snd];
        [| none_added].
      eexists [_]. split; [reflexivity | cbn; lia].
Qed.

Lemma flight_bookings_at_most_two_each env bookings s :
  exists l,
    snd (snd (for_each bookings (flight_booking_alerts env) s)) = (snd s ++ l)%list /\
    (length l <= 2 * length bookings)%nat.
Proof.
  revert s. induction bookings as [| booking bookings IH]; intros s.
  - exists []. cbn. rewrite app_nil_r. auto.
  - cbn [for_each]. unfold bind.
    destruct (flight_booking_at_most_two env booking s) as (l1 & H1 & L1).
    destruct (flight_booking_alerts env booking s) as [[u | e] s1]; cbn [snd] in H1.
    + destruct (IH s1) as (l2 & H2 & L2).
      exists (l1 ++ l2)%list. rewrite H2, H1, <- app_assoc.
      split; [reflexivity |]. rewrite length_app. cbn [length]. lia.
    + exists l1. cbn [snd length]. split; [assumption | lia].
Qed.

(** X13. The windows of the flight evaluator. A list of bookings yields
    at most two alerts a booking. For one confirmed flight whose
    departure parses to a datetime without offset, with [diff] the time
    from the clock reading to the departure: there is no alert at all
    when the departure is past, more than 24 hours ahead, or more than 6
    and less than 22 hours ahead; from 22 to 24 hours ahead there is
    exactly the check-in reminder; from 2 to 3 hours ahead there is the
    departure reminder, and in the rest of the last six hours none; in
    the last six hours a gate change alert follows exactly when the
    simulated draw is below 0.1. *)
Theorem X13_flight_alert_windows env (booking details : list (string * pyval))
    (departure : string) (dept : datetime) (w : World) :
  confirmed_flight booking details departure ->
  fromisoformat (runtime env) (Str.replace_char "Z" "+00:00" departure) = Some dept ->
  dt_offset dept = None ->
  let diff := dt_wall dept - clock env (step w) in
  let alerts := fst (check_flight_alerts env (PyList [PyDict booking]) w) in
  (forall bookings w0,
      (length (list_of (fst (check_flight_alerts env (PyList bookings) w0)))
       <= 2 * length bookings)%nat) /\
  (diff < 0 \/ Dt.hours 24 < diff \/ Dt.hours 6 < diff < Dt.hours 22 ->
   alerts = Ok []) /\
  (Dt.hours 22 <= diff <= Dt.hours 24 ->
   exists a, alerts = Ok [a] /\ alert_shape "flight_checkin_reminder" 3 true a) /\
  (0 <= diff < Dt.hours 2 \/ Dt.hours 3 < diff <= Dt.hours 6 ->
   if F64.ltb (draw_at env (S (step w))) (F64.lit 1 10)
   then exists g, alerts = Ok [g] /\ alert_shape "gate_change" 5 true g
   else alerts = Ok []) /\
  (Dt.hours 2 <= diff <= Dt.hours 3 ->
   exists a,
     alert_shape "departure_reminder" 4 false a /\
     if F64.ltb (draw_at env (S (step w))) (F64.lit 1 10)
     then exists g, alerts = Ok [a; g] /\ alert_shape "gate_change" 5 true g
     else alerts = Ok [a]).
Proof.
  intros (Hty & Hst & Hde & Hdd & Hne) Hparse Hnaive diff alerts.
  split.
  { intros bookings w0. unfold check_flight_alerts, run_evaluator.
    rewrite bind_lift_res. cbn [Py.iter].
    destruct (flight_bookings_at_most_two_each env bookings (w0, [])) as (l & Hl & Hlen).
    destruct (for_each bookings (flight_booking_alerts env) (w0, [])) as [r [w1 out]].
    cbn [fst snd list_of] in *. subst out. exact Hlen. }
  pose proof (nonempty_truthy _ Hne) as Htruthy.
  subst alerts.
  unfold check_flight_alerts, run_evaluator, for_each, flight_booking_alerts,
    parse_iso, try_except, bind, lift_res, ret, raise, liftW, emit, utcnow,
    random_random, random_choice, next_word, Py.iter, Py.get, Py.replace_Z.
  rewrite Hty, Hst, Hde, Hdd. cbn [Py.is_str String.eqb Ascii.eqb Bool.eqb negb orb].
  rewrite Htruthy, Hparse. cbn [negb fst snd].
  unfold Dt.sub. rewrite Hnaive. cbn [Dt.naive dt_offset dt_wall].
  fold diff. clearbody diff.
  unfold Dt.hours, Dt.us_per_hour, Dt.us_per_second.
  repeat split.
  - intros Hd.
    destruct (Z.leb_spec (22 * (3600 * 1000000)) diff),
             (Z.leb_spec diff (24 * (3600 * 1000000))),
             (Z.leb_spec (2 * (3600 * 1000000)) diff),
             (Z.leb_spec diff (3 * (3600 * 1000000))),
             (Z.leb_spec diff (6 * (3600 * 1000000))),
             (Z.leb_spec (0 * (3600 * 1000000)) diff);
      cbn [andb fst snd]; try lia; reflexivity.
  - intros Hd.
    destruct (Z.leb_spec (22 * (3600 * 1000000)) diff),
             (Z.leb_spec diff (24 * (3600 * 1000000))),
             (Z.leb_spec diff (6 * (3600 * 1000000))),
             (Z.leb_spec (0 * (3600 * 1000000)) diff);
      cbn [andb fst snd]; try lia.
    all: eexists; split; [reflexivity | repeat split].
  - intros Hd.
    destruct (Z.leb_spec (22 * (3600 * 1000000)) diff),
             (Z.leb_spec diff (24 * (3600 * 1000000))),
             (Z.leb_spec (2 * (3600 * 1000000)) diff),
             (Z.leb_spec diff (3 * (3600 * 1000000))),
             (Z.leb_spec diff (6 * (3600 * 1000000))),
             (Z.leb_spec (0 * (3600 * 1000000)) diff);
      cbn [andb fst snd tick step]; try lia.
    all: unfold bind, ret; cbn beta iota delta [fst snd tick step app];
      fold (draw_at env (S (step w)));
      destruct (F64.ltb (draw_at env (S (step w))) (F64.lit 1 10)); cbn [fst snd app];
      [eexists; split; [reflexivity | repeat split] | reflexivity].
  - intros Hd.
    destruct (Z.leb_spec (22 * (3600 * 1000000)) diff),
             (Z.leb_spec diff (24 * (3600 * 1000000))),
             (Z.leb_spec (2 * (3600 * 1000000)) diff),
             (Z.leb_spec diff (3 * (3600 * 1000000))),
             (Z.leb_spec diff (6 * (3600 * 1000000))),
             (Z.leb_spec (0 * (3600 * 1000000)) diff);
      cbn [andb fst snd tick step]; try lia.
    all: unfold bind, ret; cbn beta iota delta [fst snd tick step app];
      fold (draw_at env (S (step w)));
      eexists;
      (split;
       [| destruct (F64.ltb (draw_at env (S (step w))) (F64.lit 1 10)); cbn [fst snd app];
          [eexists; split; [reflexivity | repeat split] | reflexivity]]);
      repeat split.
Qed.

Lemma X13_flight_alert_windows_witness :
  (exists g,
     fst (check_flight_alerts Example.env_low_draw
            (PyList [Example.flight "2026-11-03T15:00:00"]) Example.empty_world) = Ok [g] /\
     alert_shape "gate_change" 5 true g) /\
  fst (check_flight_alerts Example.env
         (PyList [Example.flight "2026-11-05T10:00:01"]) Example.empty_world) = Ok [].
Proof.
  assert (Hc : forall departure, departure <> "" ->
     confirmed_flight
       [("booking_id", PyStr "b1"); ("type", PyStr "flight"); ("status", PyStr "confirmed");
        ("details", PyDict [("flight_number", PyStr "AI101");
                            ("departure_date", PyStr departure)])]
       [("flight_number", PyStr "AI101"); ("departure_date", PyStr departure)]
       departure).
  { intros departure Hd. repeat split; assumption. }
  split.
  - pose proof (X13_flight_alert_windows Example.env_low_draw _ _ "2026-11-03T15:00:00"
                  (Dt.naive (Example.t0 + Dt.hours 5)) Example.empty_world
                  (Hc "2026-11-03T15:00:00" ltac:(discriminate)) eq_refl eq_refl)
      as (_ & _ & _ & Hgate & _).
    cbv zeta in Hgate.
    assert (Hd : F64.ltb (draw_at Example.env_low_draw (S (step Example.empty_world)))
                   (F64.lit 1 10) = true) by (vm_compute; reflexivity).
    rewrite Hd in Hgate. apply Hgate. right. vm_compute. split; [reflexivity | discriminate].
  - pose proof (X13_flight_alert_windows Example.env _ _ "2026-11-05T10:00:01"
                  (Dt.naive (Example.t0 + Dt.hours 48 + 1000000)) Example.empty_world
                  (Hc "2026-11-05T10:00:01" ltac:(discriminate)) eq_refl eq_refl)
      as (_ & Hnone & _).
    apply Hnone. right. left. vm_compute. reflexivity.
Defined.

(** ** The articles of NewsAPI *)

Section SortedBy.

Context {A : Type} (lt : A -> A -> bool) (P : A -> Prop).

Hypothesis lt_asym : forall x y, P x -> P y -> lt x y = true -> lt y x = false.
Hypothesis ge_trans :
  forall x y z, P x -> P y -> P z -> lt x y = false -> lt y z = false -> lt x z = false.

Lemma insert_desc_permutation x l : Permutation (x :: l) (insert_desc lt x l).
Proof.
  induction l as [| y t IH]; cbn; [reflexivity |].
  destruct (lt x y); [| reflexivity].
  rewrite perm_swap. constructor. exact IH.
Qed.

Lemma sort_desc_permutation l : Permutation l (sort_desc lt l).
Proof.
  induction l as [| x t IH]; cbn; [constructor |].
  rewrite <- insert_desc_permutation. constructor. exact IH.
Qed.

Lemma insert_desc_sorted x l :
  P x -> Forall P l ->
  StronglySorted (fun a b => lt a b = false) l ->
  StronglySorted (fun a b => lt a b = false) (insert_desc lt x l).
Proof.
  intros Px. induction l as [| y t IH]; cbn; intros Pl Hs.
  - repeat constructor.
  - inversion Pl as [| ? ? Py Pt]; subst.
    inversion Hs as [| ? ? Ht Hy]; subst.
    destruct (lt x y) eqn:E.
    + constructor; [apply IH; assumption |].
      eapply Permutation_Forall; [apply insert_desc_permutation |].
      constructor; [apply lt_asym; assumption | exact Hy].
    + constructor; [exact Hs |].
      constructor; [exact E |].
      rewrite List.Forall_forall in Hy, Pt. apply List.Forall_forall. intros z Hz.
      apply (ge_trans x y z); auto.
Qed.

Lemma sort_desc_sorted l :
  Forall P l -> StronglySorted (fun a b => lt a b = false) (sort_desc lt l).
Proof.
  induction l as [| x t IH]; cbn; intros Pl; [constructor |].
  inversion Pl as [| ? ? Px Pt]; subst.
  apply insert_desc_sorted; [exact Px | | apply IH, Pt].
  eapply Permutation_Forall; [apply sort_desc_permutation | exact Pt].
Qed.

End SortedBy.

Lemma keyword_score_flags title description location_lower :
  keyword_score title description location_lower
  = score_of_flags
      (Str.contains location_lower title)
      (Str.contains location_lower description)
      (existsb (fun keyword => Str.contains keyword title
                               || Str.contains keyword description)
               ["security alert"; "travel warning"; "embassy"; "border closure"])
      (existsb (fun keyword => Str.contains keyword title
                               || Str.contains keyword description)
               ["flight"; "airport"; "hotel"; "tourism"]).
Proof. reflexivity. Qed.

(** The order of the scores that occur: checked on all of them. *)
Lemma relevant_scores_order :
  forallb (fun x =>
    F64.leb (F64.lit 3 10) x && F64.leb x (F64.of_Z 1) &&
    forallb (fun y =>
      implb (F64.ltb x y) (negb (F64.ltb y x)) &&
      Bool.eqb (negb (F64.ltb x y)) (F64.leb y x) &&
      forallb (fun z =>
        implb (negb (F64.ltb x y) && negb (F64.ltb y z)) (negb (F64.ltb x z)))
        relevant_scores)
      relevant_scores)
    relevant_scores = true.
Proof. vm_compute. reflexivity. Qed.

Lemma relevant_scores_facts x :
  In x relevant_scores ->
  F64.leb (F64.lit 3 10) x = true /\ F64.leb x (F64.of_Z 1) = true /\
  forall y, In y relevant_scores ->
    (F64.ltb x y = true -> F64.ltb y x = false) /\
    (F64.ltb x y = false -> F64.leb y x = true) /\
    forall z, In z relevant_scores ->
      F64.ltb x y = false -> F64.ltb y z = false -> F64.ltb x z = false.
Proof.
  intros Hx. pose proof relevant_scores_order as H.
  rewrite forallb_forall in H. specialize (H x Hx).
  apply andb_prop in H as [H Hy]. apply andb_prop in H as [H3 H1].
  split; [exact H3 |]. split; [exact H1 |].
  intros y Hiny. rewrite forallb_forall in Hy. specialize (Hy y Hiny).
  apply andb_prop in Hy as [Hy Hz]. apply andb_prop in Hy as [Has Hle].
  split; [| split].
  - intros E. rewrite E in Has. cbn in Has.
    destruct (F64.ltb y x); [discriminate | reflexivity].
  - intros E. rewrite E in Hle. cbn in Hle.
    destruct (F64.leb y x); [reflexivity | discriminate].
  - intros z Hinz E1 E2. rewrite forallb_forall in Hz. specialize (Hz z Hinz).
    rewrite E1, E2 in Hz. cbn in Hz.
    destruct (F64.ltb x z); [discriminate | reflexivity].
Qed.

(** An article that passes [_is_travel_relevant] gets one of the scores
    of [relevant_scores]. *)
Lemma relevant_article_score env article location (w0 w0' : World) w s w' :
  _is_travel_relevant article location w0 = (Ok true, w0') ->
  _calculate_relevance env article location w = (Ok s, w') ->
  In s relevant_scores.
Proof.
  unfold _is_travel_relevant, _calculate_relevance, lower_field, bind, lift_res, ret.
  destruct (Py.get article "title" (PyStr "")) as [title | e]; [| discriminate].
  destruct (Py.lower title) as [title_lower | e]; [| discriminate].
  destruct (Py.get article "description" (PyStr "")) as [description | e];
    [| discriminate].
  destruct (Py.lower description) as [description_lower | e]; [| discriminate].
  destruct (Py.lower location) as [location_lower | e]; [| discriminate].
  rewrite keyword_score_flags.
  set (t := Str.contains location_lower title_lower).
  set (d := Str.contains location_lower description_lower).
  set (p := existsb _ ["security alert"; "travel warning"; "embassy"; "border closure"]).
  set (m := existsb _ ["flight"; "airport"; "hotel"; "tourism"]).
  intros [= Hrel _].
  apply andb_prop in Hrel as [Hloc _].
  destruct (Py.get article "publishedAt" (PyStr "")) as [published_at | e];
    [| discriminate].
  unfold try_except.
  destruct (with_recency env (score_of_flags t d p m) published_at w)
    as [[s1 | e] w1] eqn:Hrec; intros [= <- _].
  - apply with_recency_cases in Hrec.
    clearbody p m. destruct t, d, p, m; try discriminate;
      destruct Hrec as [-> | [-> | ->]]; vm_compute;
      repeat first [left; reflexivity | right].
  - clearbody p m. destruct t, d, p, m; try discriminate; vm_compute;
      repeat first [left; reflexivity | right].
Qed.

(** An article with one of the scores that occur. *)
Lemma relevance_lt_scores a b x y :
  relevance_of a = Some x -> relevance_of b = Some y ->
  relevance_lt a b = F64.ltb x y.
Proof.
  unfold relevance_of, relevance_lt.
  destruct (Py.item a "relevance_score") as [[] |]; try discriminate.
  destruct (Py.item b "relevance_score") as [[] |]; try discriminate.
  intros [= ->] [= ->]. reflexivity.
Qed.

Lemma newsapi_entry_score env article location w entry w' :
  newsapi_entry env article location w = (Ok entry, w') ->
  exists s w1 w1',
    _calculate_relevance env article location w1 = (Ok s, w1') /\
    relevance_of entry = Some s.
Proof.
  unfold newsapi_entry, get2, snippet.
  repeat (rewrite ?bind_assoc, ?bind_lift_res;
          match goal with
          | |- context [match ?r with Ok _ => _ | Raise _ => _ end] =>
              destruct r; [| discriminate]
          end).
  match goal with
  | |- context [if ?b then _ else _] => destruct b
  end.
  - rewrite bind_lift_res.
    match goal with
    | |- context [match ?r with Ok _ => _ | Raise _ => _ end] =>
        destruct r; [| discriminate]
    end.
    unfold bind at 1.
    destruct (_calculate_relevance env article location w) as [[s | e] w1] eqn:Hs;
      [| discriminate].
    unfold _categorize_news, lower_field, bind, lift_res, ret.
    repeat match goal with
           | |- context [match ?r with Ok _ => _ | Raise _ => _ end] =>
               destruct r; [| discriminate]
           end.
    intros [= <- _]. exists s, w, w1. split; [exact Hs | reflexivity].
  - rewrite bind_ret. unfold bind at 1.
    destruct (_calculate_relevance env article location w) as [[s | e] w1] eqn:Hs;
      [| discriminate].
    unfold _categorize_news, lower_field, bind, lift_res, ret.
    repeat match goal with
           | |- context [match ?r with Ok _ => _ | Raise _ => _ end] =>
               destruct r; [| discriminate]
           end.
    intros [= <- _]. exists s, w, w1. split; [exact Hs | reflexivity].
Qed.

Lemma is_travel_relevant_pure article location (w : World) :
  exists r, _is_travel_relevant article location w = (r, w).
Proof.
  unfold _is_travel_relevant, lower_field, bind, lift_res, ret.
  repeat match goal with
         | |- context [match ?r with Ok _ => _ | Raise _ => _ end] =>
             destruct r; [| eauto]
         end.
  eauto.
Qed.

Lemma newsapi_articles_scores env raw location w entries w' :
  newsapi_articles env raw location w = (Ok entries, w') ->
  Forall (fun a => exists s, relevance_of a = Some s /\ In s relevant_scores) entries.
Proof.
  revert w entries w'. induction raw as [| article rest IH]; intros w entries w';
    cbn [newsapi_articles].
  - intros [= <- _]. constructor.
  - unfold bind at 1.
    destruct (is_travel_relevant_pure article location w) as (r & Hr). rewrite Hr.
    destruct r as [[|] | e]; [| apply IH | discriminate].
    unfold bind at 1.
    destruct (newsapi_entry env article location w) as [[entry | e] w1] eqn:Hentry;
      [| discriminate].
    unfold bind at 1.
    destruct (newsapi_articles env rest location w1) as [[more | e] w2] eqn:Hmore;
      [| discriminate].
    intros [= <- _]. constructor; [| eapply IH; exact Hmore].
    destruct (newsapi_entry_score _ _ _ _ _ _ Hentry) as (s & w3 & w3' & Hs & Hrel).
    exists s. split; [exact Hrel |].
    eapply relevant_article_score; [exact Hr | exact Hs].
Qed.

Lemma sorted_nth {A} (R : A -> A -> Prop) (l : list A) :
  StronglySorted R l ->
  forall (i j : nat) (a b : A),
    (i < j)%nat -> nth_error l i = Some a -> nth_error l j = Some b -> R a b.
Proof.
  induction 1 as [| x t Ht IH Hx]; intros i j a b Hij Ha Hb.
  - destruct i; discriminate.
  - destruct j as [| j]; [lia |]. cbn in Hb.
    destruct i as [| i]; cbn in Ha.
    + injection Ha as <-. rewrite List.Forall_forall in Hx.
      apply Hx. eapply nth_error_In. exact Hb.
    + eapply IH; [| exact Ha | exact Hb]. lia.
Qed.

Lemma firstn_In {A} n (l : list A) x : In x (firstn n l) -> In x l.
Proof.
  revert n. induction l as [| y t IH]; intros [| n]; cbn; try tauto.
  intros [-> | H]; [left; reflexivity | right; eapply IH; exact H].
Qed.

Lemma firstn_sorted {A} (R : A -> A -> Prop) n (l : list A) :
  StronglySorted R l -> StronglySorted R (firstn n l).
Proof.
  intros Hs. revert n. induction Hs as [| x t Ht IH Hx]; intros n.
  - rewrite firstn_nil. constructor.
  - destruct n; cbn; [constructor |]. constructor; [apply IH |].
    rewrite List.Forall_forall in *. intros y Hy. apply Hx.
    eapply firstn_In. exact Hy.
Qed.

(** X14. What [_get_newsapi_travel_news] returns. It never raises: it
    returns None, or a dict tagged newsapi whose articles are the ten
    best of the articles that passed [_is_travel_relevant]: at most ten,
    as many as total_found when that is below ten, in descending order of
    relevance_score, each with a score between 0.3 and 1.0 (an article
    that passed mentions the location, which is worth 0.3 at least). *)
Theorem X14_newsapi_articles_ranked env (location : pyval) (days_back : Z) (w : World) :
  exists result w',
    _get_newsapi_travel_news env location days_back w = (Ok result, w') /\
    (result = PyNone \/
     exists articles total,
       Py.item result "source" = Ok (PyStr "newsapi") /\
       Py.item result "articles" = Ok (PyList articles) /\
       Py.item result "total_found" = Ok (PyInt (Z.of_nat total)) /\
       length articles = Nat.min 10 total /\
       descending_relevance articles /\
       Forall scored_relevant articles).
Proof.
  unfold _get_newsapi_travel_news, try_except.
  rewrite bind_utcnow, bind_lift_res.
  destruct (Dt.timedelta_days days_back) as [delta | e]; [| eexists _, _; split; eauto].
  rewrite bind_lift_res.
  destruct (Dt.add_checked _ _) as [since | e]; [| eexists _, _; split; eauto].
  rewrite bind_utcnow. unfold bind at 1.
  destruct (requests_get env _) as [[reply | e] w1]; [| eexists _, _; split; eauto].
  unfold bind at 1.
  destruct (raise_for_status reply w1) as [[u | e] w2]; [| eexists _, _; split; eauto].
  unfold bind at 1.
  destruct (response_json reply w2) as [[data | e] w3]; [| eexists _, _; split; eauto].
  rewrite bind_lift_res.
  destruct (Py.get data "articles" _) as [raw | e]; [| eexists _, _; split; eauto].
  rewrite bind_lift_res.
  destruct (Py.iter raw) as [items | e]; [| eexists _, _; split; eauto].
  unfold bind at 1.
  destruct (newsapi_articles env items location w3) as [[entries | e] w4] eqn:Hentries;
    [| eexists _, _; split; eauto].
  rewrite bind_utcnow. unfold ret.
  eexists _, _. split; [reflexivity |]. right.
  exists (firstn 10 (sort_desc relevance_lt entries)), (length entries).
  assert (Hscores := newsapi_articles_scores _ _ _ _ _ _ Hentries).
  assert (Hperm := sort_desc_permutation relevance_lt entries).
  assert (Hsorted_scores :
            Forall (fun a => exists s, relevance_of a = Some s /\ In s relevant_scores)
                   (sort_desc relevance_lt entries)).
  { eapply Permutation_Forall; [exact Hperm | exact Hscores]. }
  assert (Hcut : Forall (fun a => exists s, relevance_of a = Some s /\ In s relevant_scores)
                        (firstn 10 (sort_desc relevance_lt entries))).
  { rewrite List.Forall_forall in *. intros a Ha. apply Hsorted_scores.
    eapply firstn_In. exact Ha. }
  split; [reflexivity |]. split; [reflexivity |].
  split.
  { cbn [Py.item Py.lookup String.eqb Ascii.eqb Bool.eqb].
    rewrite <- (Permutation_length Hperm). reflexivity. }
  split; [rewrite length_firstn, <- (Permutation_length Hperm); reflexivity |].
  split.
  - assert (Hs : StronglySorted (fun a b => relevance_lt a b = false)
                   (firstn 10 (sort_desc relevance_lt entries))).
    { apply firstn_sorted.
      apply (sort_desc_sorted relevance_lt
               (fun a => exists s, relevance_of a = Some s /\ In s relevant_scores)).
      - intros a b (x & Hx & Vx) (y & Hy & Vy).
        rewrite (relevance_lt_scores a b x y Hx Hy), (relevance_lt_scores b a y x Hy Hx).
        apply (relevant_scores_facts x Vx); exact Vy.
      - intros a b c (x & Hx & Vx) (y & Hy & Vy) (z & Hz & Vz).
        rewrite (relevance_lt_scores a b x y Hx Hy), (relevance_lt_scores b c y z Hy Hz),
          (relevance_lt_scores a c x z Hx Hz).
        apply (relevant_scores_facts x Vx); assumption.
      - exact Hscores. }
    intros i j a b Hij Ha Hb.
    pose proof (sorted_nth _ _ Hs i j a b Hij Ha Hb) as Hab. cbv beta in Hab.
    rewrite List.Forall_forall in Hcut.
    destruct (Hcut a (nth_error_In _ _ Ha)) as (x & Hx & Vx).
    destruct (Hcut b (nth_error_In _ _ Hb)) as (y & Hy & Vy).
    exists x, y. split; [exact Hx |]. split; [exact Hy |].
    rewrite (relevance_lt_scores a b x y Hx Hy) in Hab.
    apply (relevant_scores_facts x Vx); assumption.
  - eapply List.Forall_impl; [| exact Hcut]. intros a (s & Hs & Vs).
    exists s. split; [exact Hs |].
    destruct (relevant_scores_facts s Vs) as (H3 & H1 & _). split; assumption.
Qed.

(** ** The choice of a provider *)

Lemma provider_choice (first_key second_key : pyval) (first second : string)
    (m1 m2 m3 : M World pyval) (w : World) :
  post m1 (none_or_tagged [first]) -> post m2 (none_or_tagged [second]) ->
  post m3 (tagged ["mock"]) ->
  keeps_table
    (try_except (if Py.truthy first_key then m1
                 else if Py.truthy second_key then m2 else m3)
                (fun _ => m3)) ->
  (Py.truthy first_key = true -> returns m1) ->
  (Py.truthy first_key = false -> Py.truthy second_key = true -> returns m2) ->
  (Py.truthy first_key = false -> Py.truthy second_key = false -> returns m3) ->
  exists v w',
    try_except (if Py.truthy first_key then m1
                else if Py.truthy second_key then m2 else m3)
               (fun _ => m3) w = (Ok v, w') /\
    table w' = table w /\
    answer_of_provider first_key second_key first second v.
Proof.
  intros P1 P2 P3 K R1 R2 R3. specialize (K w). revert K.
  unfold answer_of_provider, try_except.
  destruct (Py.truthy first_key).
  - destruct (R1 eq_refl w) as (v & w' & E). rewrite E. cbn. intros K.
    exists v, w'. split; [reflexivity |]. split; [exact K |]. eapply P1. exact E.
  - destruct (Py.truthy second_key).
    + destruct (R2 eq_refl eq_refl w) as (v & w' & E). rewrite E. cbn. intros K.
      exists v, w'. split; [reflexivity |]. split; [exact K |]. eapply P2. exact E.
    + destruct (R3 eq_refl eq_refl w) as (v & w' & E). rewrite E. cbn. intros K.
      exists v, w'. split; [reflexivity |]. split; [exact K |]. eapply P3. exact E.
Qed.

Lemma try_except_ret_returns {S A} (m : M S A) (a : A) :
  returns (try_except m (fun _ => ret a)).
Proof. apply returns_try_except. intros e s. eexists _, _. reflexivity. Qed.

(** X15. The provider an entry point asks is fixed by the credentials
    alone. [get_travel_news] never raises; [get_forecast] does not raise
    when a key is configured, nor without keys when the dates of the
    mock forecast, the clock reading moved by 0 to days - 1 days, are
    dates of the years 1 to 9999. Neither writes to the table. With the
    first key configured the answer is None or a result of the first
    provider, whatever the second key is (a failed first provider is not
    replaced by the second one or by mock data); without the first key
    and with the second it is None or a result of the second provider;
    without keys it is mock data. *)
Theorem X15_provider_by_credentials env (location : pyval) (n : Z) (w : World) :
  (exists v w',
      get_travel_news env location n w = (Ok v, w') /\
      table w' = table w /\
      answer_of_provider (newsapi_key (news_api env)) (guardian_api_key (news_api env))
                         "newsapi" "guardian" v) /\
  (Py.truthy (openweather_api_key (weather_api env)) = true \/
   Py.truthy (weatherapi_key (weather_api env)) = true \/
   (forall i, 0 <= i < n -> day_offset_in_range env i) ->
   exists v w',
     get_forecast env location n w = (Ok v, w') /\
     table w' = table w /\
     answer_of_provider (openweather_api_key (weather_api env))
                        (weatherapi_key (weather_api env))
                        "openweathermap" "weatherapi" v).
Proof.
  split.
  - apply provider_choice.
    + apply newsapi_travel_news_post.
    + apply guardian_travel_news_post.
    + apply mock_travel_news_tagged.
    + apply keeps_get_travel_news.
    + intros _. apply try_except_ret_returns.
    + intros _ _. apply try_except_ret_returns.
    + intros _ _. apply mock_travel_news_returns.
  - intros Hcase. apply provider_choice.
    + apply openweather_forecast_post.
    + apply weatherapi_forecast_post.
    + apply mock_forecast_tagged.
    + apply keeps_get_forecast.
    + intros _. apply try_except_ret_returns.
    + intros _ _. apply try_except_ret_returns.
    + intros H1 H2. apply mock_forecast_returns.
      destruct Hcase as [H | [H | H]]; [congruence | congruence | exact H].
Qed.

(** ** The mock forecast *)

Lemma map_m_forall {S A B} (f : A -> M S B) (P : B -> Prop) (l : list A) :
  (forall x s y s', f x s = (Ok y, s') -> P y) ->
  forall s ys s',
    map_m f l s = (Ok ys, s') -> length ys = length l /\ Forall P ys.
Proof.
  intros Hf. induction l as [| x t IH]; intros s ys s'; cbn [map_m].
  - intros [= <- _]. split; [reflexivity | constructor].
  - unfold bind at 1. destruct (f x s) as [[y | e] s1] eqn:E1; [| discriminate].
    unfold bind at 1. destruct (map_m f t s1) as [[rest | e] s2] eqn:E2; [| discriminate].
    intros [= <- _]. destruct (IH _ _ _ E2) as (Hlen & Hall).
    split; [cbn; congruence | constructor; [eapply Hf; exact E1 | exact Hall]].
Qed.

Lemma randint_range a b k : a <= b -> a <= a + Z.of_N k mod (b - a + 1) <= b.
Proof.
  intros H. pose proof (Z.mod_pos_bound (Z.of_N k) (b - a + 1) ltac:(lia)). lia.
Qed.

Lemma choice_in {A} (l : list A) (default : A) k :
  l <> [] -> In (nth (N.to_nat (k mod N.of_nat (length l))) l default) l.
Proof.
  intros H. apply nth_In.
  assert (N.of_nat (length l) <> 0%N) by (destruct l; [congruence | cbn; lia]).
  pose proof (N.mod_upper_bound k (N.of_nat (length l)) ltac:(assumption)). lia.
Qed.

Lemma mock_day_has_shape env i w d w' :
  mock_day env i w = (Ok d, w') -> mock_day_shape d.
Proof.
  unfold mock_day. rewrite bind_utcnow, bind_lift_res.
  destruct (Dt.timedelta_days i) as [delta | e]; [| discriminate].
  rewrite bind_lift_res.
  destruct (Dt.add_checked _ delta) as [date | e]; [| discriminate].
  unfold random_randint, random_choice, random_uniform, random_random,
    bind, next_word, ret.
  intros [= <- _].
  do 8 eexists.
  do 5 (split; [reflexivity |]).
  repeat split; try (apply randint_range; lia).
  match goal with
  | |- context [N.to_nat (?k mod _)] =>
      exact (choice_in mock_conditions "" k ltac:(discriminate))
  end.
Qed.

(** X16. The mock forecast. When the dates of the forecast, the clock
    reading moved by 0 to days - 1 days, are dates of the years 1 to
    9999, [_get_mock_forecast] returns, for every location and state of
    the random generator, a forecast of exactly [days] days (none for a
    negative number) without alerts, and every day has its minimum in
    5..20, its maximum in 20..35 (so the minimum never exceeds the
    maximum), its average in 10..28, humidity in 40..85, wind speed in
    5..20, UV index in 1..10 and a description out of the eight mock
    conditions. *)
Theorem X16_mock_forecast_shape env (location : pyval) (days : Z) (w : World) :
  (forall i, 0 <= i < days -> day_offset_in_range env i) ->
  exists v w' forecast,
    _get_mock_forecast env location days w = (Ok v, w') /\
    Py.item v "source" = Ok (PyStr "mock") /\
    Py.item v "alerts" = Ok (PyList []) /\
    Py.item v "forecast" = Ok (PyList forecast) /\
    length forecast = Z.to_nat days /\
    Forall mock_day_shape forecast.
Proof.
  intros Hrange. unfold _get_mock_forecast.
  assert (Hdays : returns (map_m (mock_day env) (range days))).
  { apply returns_map_m_in. intros i Hi. apply mock_day_returns, Hrange, in_range, Hi. }
  destruct (Hdays w) as (ds & w1 & E).
  destruct (map_m_forall (mock_day env) mock_day_shape (range days)
              (mock_day_has_shape env) _ _ _ E) as (Hlen & Hall).
  unfold bind at 1. rewrite E.
  unfold random_uniform, random_random, bind, utcnow, next_word, ret.
  eexists _, _, ds. split; [reflexivity |].
  do 3 (split; [reflexivity |]).
  split; [| exact Hall].
  rewrite Hlen. unfold range. rewrite length_map, length_seq. reflexivity.
Qed.

Lemma example_days_in_range days :
  0 <= days <= 1000 -> forall i, 0 <= i < days -> day_offset_in_range Example.env i.
Proof.
  intros Hdays i Hi. split; [lia |]. intros n.
  unfold Example.env, Example.t0, Dt.min_us, Dt.max_us, Dt.days_delta, Dt.us_per_day,
    Dt.us_per_hour, Dt.us_per_second. cbn [clock]. lia.
Qed.

Lemma X16_mock_forecast_shape_witness :
  exists v w' forecast,
    _get_mock_forecast Example.env (PyStr "Paris") 5 Example.empty_world = (Ok v, w') /\
    length forecast = 5%nat /\
    Py.item v "forecast" = Ok (PyList forecast) /\
    Forall mock_day_shape forecast.
Proof.
  destruct (X16_mock_forecast_shape Example.env (PyStr "Paris") 5 Example.empty_world
              (example_days_in_range 5 ltac:(lia)))
    as (v & w' & forecast & Hrun & _ & _ & Hitem & Hlen & Hall).
  exists v, w', forecast. repeat split; assumption.
Defined.

Lemma X15_provider_by_credentials_witness :
  exists v w',
    get_forecast Example.env (PyStr "Paris") 5 Example.empty_world = (Ok v, w') /\
    table w' = table Example.empty_world /\
    tagged ["mock"] v.
Proof.
  destruct (proj2 (X15_provider_by_credentials Example.env (PyStr "Paris") 5
                     Example.empty_world)
              (or_intror (or_intror (example_days_in_range 5 ltac:(lia)))))
    as (v & w' & Hrun & Ht & Hv).
  exists v, w'. split; [exact Hrun |]. split; [exact Ht | exact Hv].
Defined.

(** ** A forecast that reaches past the last date *)

Lemma mock_day_raises_only env i w e :
  fst (mock_day env i w) = Raise e -> e = OverflowError.
Proof.
  unfold mock_day. rewrite bind_utcnow, bind_lift_res. unfold Dt.timedelta_days.
  destruct ((-999999999 <=? i) && (i <=? 999999999)); [| cbn; congruence].
  rewrite bind_lift_res. unfold Dt.add_checked.
  destruct ((Dt.min_us <=? _) && (_ <=? Dt.max_us)); [| cbn; congruence].
  unfold random_randint, random_choice, random_uniform, random_random,
    bind, next_word, ret. cbn. discriminate.
Qed.

Lemma mock_day_overflows env i w :
  (forall n, Dt.max_us < clock env n + Dt.days_delta i) ->
  fst (mock_day env i w) = Raise OverflowError.
Proof.
  intros Hlate.
  unfold mock_day. rewrite bind_utcnow, bind_lift_res. unfold Dt.timedelta_days.
  destruct ((-999999999 <=? i) && (i <=? 999999999)); [| reflexivity].
  rewrite bind_lift_res. unfold Dt.add_checked. cbn [Dt.naive dt_wall].
  specialize (Hlate (step w)).
  destruct (Z.leb_spec (clock env (step w) + Dt.days_delta i) Dt.max_us); [lia |].
  rewrite andb_false_r. reflexivity.
Qed.

Lemma map_m_raises {S A B} (f : A -> M S B) (e : exn) (l : list A) (x : A) :
  In x l ->
  (forall s, fst (f x s) = Raise e) ->
  (forall y s e', fst (f y s) = Raise e' -> e' = e) ->
  forall s, fst (map_m f l s) = Raise e.
Proof.
  intros Hin Hx Honly. induction l as [| a t IH]; [destruct Hin |].
  intros s. cbn [map_m]. unfold bind at 1.
  destruct (f a s) as [[b | e'] s1] eqn:E.
  - assert (Ht : In x t).
    { destruct Hin as [-> | Ht]; [| exact Ht].
      specialize (Hx s). rewrite E in Hx. discriminate. }
    unfold bind at 1. specialize (IH Ht s1).
    destruct (map_m f t s1) as [[bs | e''] s2]; cbn in IH |- *; congruence.
  - cbn. f_equal. eapply Honly. rewrite E. reflexivity.
Qed.

(** X23. A mock forecast that reaches past the last date escapes the
    fallback. Without a weather key, when the number of days is positive
    and the clock reading moved by days - 1 days is past the year 9999,
    [get_forecast] raises OverflowError: [_get_mock_forecast] raises it,
    and the handler of [get_forecast] calls [_get_mock_forecast] again,
    which raises it again. *)
Theorem X23_forecast_past_last_date_raises env (location : pyval) (days : Z) (w : World) :
  Py.truthy (openweather_api_key (weather_api env)) = false ->
  Py.truthy (weatherapi_key (weather_api env)) = false ->
  0 < days ->
  (forall n, Dt.max_us < clock env n + Dt.days_delta (days - 1)) ->
  fst (get_forecast env location days w) = Raise OverflowError.
Proof.
  intros H1 H2 Hdays Hlate.
  assert (Hmock : forall s, fst (_get_mock_forecast env location days s)
                            = Raise OverflowError).
  { intros s. unfold _get_mock_forecast. unfold bind at 1.
    pose proof (map_m_raises (mock_day env) OverflowError (range days) (days - 1)) as H.
    specialize (H ltac:(unfold range; apply in_map_iff; exists (Z.to_nat (days - 1));
                        split; [lia | apply in_seq; lia])
                  (fun s0 => mock_day_overflows env (days - 1) s0 Hlate)
                  (mock_day_raises_only env) s).
    destruct (map_m (mock_day env) (range days) s) as [[ds | e] s1]; cbn in H |- *;
      congruence. }
  unfold get_forecast, try_except. rewrite H1, H2.
  pose proof (Hmock w) as Hfirst.
  destruct (_get_mock_forecast env location days w) as [[v | e] w1]; cbn in Hfirst;
    [discriminate |].
  apply Hmock.
Qed.

Lemma X23_forecast_past_last_date_raises_witness :
  fst (get_forecast Example.env (PyStr "Paris") 3000000 Example.empty_world)
  = Raise OverflowError.
Proof.
  apply X23_forecast_past_last_date_raises; [reflexivity | reflexivity | lia |].
  intros n.
  unfold Example.env, Example.t0, Dt.max_us, Dt.days_delta, Dt.us_per_day,
    Dt.us_per_hour, Dt.us_per_second. cbn [clock]. lia.
Defined.

(** ** The listing of a user's documents *)

Lemma get_document_url_run env key w :
  exists r, get_document_url env key w = (r, tick w) /\ r <> Raise ClientError.
Proof.
  unfold get_document_url, try_except_client, try_except, bind, aws_call, ret, raise.
  destruct (aws_outcome env (step w)); eexists; (split; [reflexivity | discriminate]).
Qed.

Lemma describe_objects_run env objs :
  forall w r w',
    describe_objects env objs w = (r, w') ->
    bucket w' = bucket w /\
    forall docs, r = Ok docs -> Forall2 describes objs docs.
Proof.
  induction objs as [| obj rest IH]; intros w r w'; cbn [describe_objects].
  - intros [= <- <-]. split; [reflexivity |]. intros docs [= <-]. constructor.
  - unfold bind at 1. unfold aws_call at 1.
    destruct (aws_outcome env (step w));
      [| intros [= <- <-]; split; [reflexivity | discriminate] ..].
    unfold bind at 1.
    destruct (get_document_url_run env (Key obj) (tick w)) as (u & Eu & _). rewrite Eu.
    destruct u as [url | e]; [| intros [= <- <-]; split; [reflexivity | discriminate]].
    unfold bind at 1.
    destruct (describe_objects env rest (tick (tick w))) as [[docs | e] w1] eqn:E;
      destruct (IH _ _ _ E) as (Hb & Hdocs).
    + intros [= <- <-]. split; [exact Hb |]. intros ds [= <-].
      constructor; [| apply Hdocs; reflexivity]. repeat split.
    + intros [= <- <-]. split; [exact Hb | discriminate].
Qed.

(** X17. The listing of a user's documents is complete or empty.
    [list_user_documents] never lets a ClientError through and changes
    neither the bucket nor the table; the list it returns is either empty
    or has one entry for each object of the first page of keys under
    documents/<user_id>/, in the order of the bucket, with the key, size,
    file name and document type of that object: a failure while the
    entries are collected gives the empty list, never a part of it. *)
Theorem X17_listing_complete_or_empty env (user_id : pyval) (w : World) r w' :
  list_user_documents env user_id w = (r, w') ->
  bucket w' = bucket w /\ table w' = table w /\ r <> Raise ClientError /\
  forall docs, r = Ok docs ->
    docs = [] \/
    Forall2 describes
      (user_objects (fstr ["documents/"; py_str (runtime env) user_id; "/"]) (bucket w))
      docs.
Proof.
  intros H.
  split; [| split; [pose proof (keeps_list_user_documents env user_id w) as K;
                    rewrite H in K; exact K |]];
    revert H; unfold list_user_documents, try_except_client, try_except.
  - unfold bind at 1. unfold aws_call at 1.
    destruct (aws_outcome env (step w)); cbn [fst snd];
      [| intros [= _ <-]; reflexivity ..].
    unfold bind at 1. unfold get_bucket at 1. cbn [fst snd].
    destruct (describe_objects env _ (tick w)) as [[docs | e] w1] eqn:E;
      destruct (describe_objects_run _ _ _ _ _ E) as (Hb & _).
    + intros [= _ <-]. exact Hb.
    + destruct e; intros [= _ <-]; exact Hb.
  - unfold bind at 1. unfold aws_call at 1.
    destruct (aws_outcome env (step w)); cbn [fst snd];
      [| intros [= <- _]; split; [discriminate | intros docs [= <-]; left; reflexivity]
       | intros [= <- _]; split; [discriminate | discriminate]].
    unfold bind at 1. unfold get_bucket at 1. cbn [fst snd].
    destruct (describe_objects env _ (tick w)) as [[docs | e] w1] eqn:E;
      destruct (describe_objects_run _ _ _ _ _ E) as (_ & Hdocs).
    + intros [= <- _]. split; [discriminate |]. intros ds [= <-]. right.
      apply Hdocs. reflexivity.
    + destruct e; intros [= <- _];
        (split; [discriminate |]); try discriminate.
      intros docs [= <-]. left. reflexivity.
Qed.

Lemma X17_listing_complete_or_empty_witness :
  exists docs w',
    list_user_documents Example.env (PyStr "u1") documents_world = (Ok docs, w') /\
    length docs = 2%nat /\
    Forall2 describes (user_objects "documents/u1/" (bucket documents_world)) docs.
Proof.
  pose proof (X17_listing_complete_or_empty Example.env (PyStr "u1") documents_world) as H.
  destruct (list_user_documents Example.env (PyStr "u1") documents_world)
    as [r w'] eqn:E.
  vm_compute in E. injection E as <- <-.
  destruct (H _ _ eq_refl) as (_ & _ & _ & Hdocs).
  destruct (Hdocs _ eq_refl) as [Hnil | Hall]; [discriminate |].
  eexists _, _. split; [reflexivity |]. split; [reflexivity | exact Hall].
Defined.

(** ** Preferences, bookings and deletion *)

Lemma save_preferences_done env user_id preferences w w1 :
  save_preferences env user_id preferences w = (Ok true, w1) ->
  exists uid,
    user_id = PyStr uid /\
    table w1
    = <[uid := {| UpdatedAt := Some (isoformat (runtime env) (Dt.naive (clock env (step w))));
                  Data := Data (default absent_item (table w !! uid));
                  TTL := TTL (default absent_item (table w !! uid));
                  CurrentItinerary := CurrentItinerary (default absent_item (table w !! uid));
                  Preferences := Some preferences;
                  Bookings := Bookings (default absent_item (table w !! uid)) |}]>
        (table w).
Proof.
  unfold save_preferences, try_except_client, try_except, bind, utcnow, string_param,
    aws_call, get_table, put_table, ret, raise.
  destruct user_id; cbn; try discriminate.
  destruct (aws_outcome env (S (step w))); cbn; try discriminate.
  intros [= <-]. exists s. split; reflexivity.
Qed.

Lemma get_preferences_read env uid w :
  aws_outcome env (step w) = AwsOk ->
  get_preferences env (PyStr uid) w
  = (Ok (default (PyDict []) (stored_preferences w uid)), tick w).
Proof.
  intros Haws.
  unfold get_preferences, try_except_client, try_except, bind, string_param,
    aws_call, get_table, ret, raise, stored_preferences.
  cbn. rewrite Haws. cbn. destruct (table w !! uid) as [item |]; reflexivity.
Qed.

Lemma get_bookings_read env uid w :
  aws_outcome env (step w) = AwsOk ->
  get_bookings env (PyStr uid) w
  = (Ok (default (PyList []) (stored_bookings w uid)), tick w).
Proof.
  intros Haws.
  unfold get_bookings, try_except_client, try_except, bind, string_param,
    aws_call, get_table, ret, raise, stored_bookings.
  cbn. rewrite Haws. cbn. destruct (table w !! uid) as [item |]; reflexivity.
Qed.

(** X18. After a [save_preferences] that reports success,
    [get_preferences] gives the saved preferences back whenever its read
    goes through, and the write is confined to that attribute: the
    itinerary and the bookings stored for the user are the ones stored
    before, and the items of the other users are untouched. *)
Theorem X18_preferences_round_trip env (user_id preferences : pyval) (w w1 : World) :
  save_preferences env user_id preferences w = (Ok true, w1) ->
  exists uid,
    user_id = PyStr uid /\
    (aws_outcome env (step w1) = AwsOk ->
     fst (get_preferences env user_id w1) = Ok preferences) /\
    stored_itinerary w1 uid = stored_itinerary w uid /\
    stored_bookings w1 uid = stored_bookings w uid /\
    (forall other, other <> uid -> table w1 !! other = table w !! other).
Proof.
  intros Hsave.
  destruct (save_preferences_done _ _ _ _ _ Hsave) as (uid & -> & Ht).
  exists uid. split; [reflexivity |]. split; [| split; [| split]].
  - intros Haws. rewrite (get_preferences_read env uid _ Haws). cbn [fst].
    unfold stored_preferences. rewrite Ht, lookup_insert_eq. reflexivity.
  - unfold stored_itinerary. rewrite Ht, lookup_insert_eq.
    destruct (table w !! uid); reflexivity.
  - unfold stored_bookings. rewrite Ht, lookup_insert_eq.
    destruct (table w !! uid); reflexivity.
  - intros other Hne. rewrite Ht, lookup_insert_ne by congruence. reflexivity.
Qed.

Lemma X18_preferences_round_trip_witness :
  exists w1,
    save_preferences Example.env (PyStr "u1") (PyDict [("budget", PyStr "low")])
      Example.itinerary_world = (Ok true, w1) /\
    fst (get_preferences Example.env (PyStr "u1") w1) = Ok (PyDict [("budget", PyStr "low")]) /\
    stored_itinerary w1 "u1" = stored_itinerary Example.itinerary_world "u1".
Proof.
  eexists. split; [reflexivity |].
  destruct (X18_preferences_round_trip Example.env (PyStr "u1")
              (PyDict [("budget", PyStr "low")]) Example.itinerary_world _ eq_refl)
    as (uid & Huid & Hget & Hit & _).
  injection Huid as <-.
  split; [apply Hget; reflexivity | exact Hit].
Defined.

(** The bookings [save_booking] starts from: the stored ones when its
    read goes through, none when the read fails with a ClientError. *)
Lemma existing_bookings env uid {B} (k : pyval -> M World B) w :
  (existing_data <- get_user_data env (PyStr uid) ;;
   bookings <- (if Py.truthy existing_data
                then lift_res (Py.get existing_data "bookings" (PyList []))
                else ret (PyList [])) ;;
   k bookings) w
  = match aws_outcome env (step w) with
    | AwsOk => k (default (PyList []) (stored_bookings w uid)) (tick w)
    | AwsClientError => k (PyList []) (tick w)
    | AwsOtherError => (Raise BotoCoreError, tick w)
    end.
Proof.
  unfold bind at 1.
  destruct (aws_outcome env (step w)) eqn:Haws.
  - rewrite (get_user_data_read env uid w Haws). unfold stored_bookings.
    destruct (table w !! uid) as [item |]; [| reflexivity].
    rewrite user_fields_nonempty, user_record_fields, bind_lift_res.
    unfold Py.get. rewrite user_fields_lookup. cbn.
    destruct (Bookings item); reflexivity.
  - unfold get_user_data, try_except_client, try_except, bind, string_param,
      aws_call, get_table, ret, raise. cbn. rewrite Haws. reflexivity.
  - unfold get_user_data, try_except_client, try_except, bind, string_param,
      aws_call, get_table, ret, raise. cbn. rewrite Haws. reflexivity.
Qed.

(** A successful [save_booking] is the update of one item: the booking,
    stamped, is appended to the bookings that were read. *)
Lemma save_booking_done env user_id booking w w1 :
  save_booking env user_id booking w = (Ok true, w1) ->
  exists uid b old,
    user_id = PyStr uid /\ booking = PyDict b /\
    ((aws_outcome env (S (S (step w))) = AwsOk /\
      default (PyList []) (stored_bookings w uid) = PyList old) \/
     (aws_outcome env (S (S (step w))) = AwsClientError /\ old = [])) /\
    table w1
    = <[uid := {| UpdatedAt := Some (isoformat (runtime env) (Dt.naive (clock env (step w))));
                  Data := Data (default absent_item (table w !! uid));
                  TTL := TTL (default absent_item (table w !! uid));
                  CurrentItinerary := CurrentItinerary (default absent_item (table w !! uid));
                  Preferences := Preferences (default absent_item (table w !! uid));
                  Bookings := Some (PyList (old ++ [stamped_booking env w b])) |}]>
        (table w).
Proof.
  destruct user_id as [| | | | uid | |];
    try (unfold save_booking, try_except_client, try_except;
         rewrite !bind_utcnow; unfold get_user_data, try_except_client, try_except,
           bind, string_param, raise; cbn; discriminate).
  unfold save_booking, try_except_client, try_except.
  rewrite !bind_utcnow, existing_bookings. cbn [tick step].
  change (stored_bookings (tick (tick w)) uid) with (stored_bookings w uid).
  destruct (aws_outcome env (S (S (step w)))) eqn:Hread; [| | discriminate].
  - rewrite bind_lift_res.
    destruct booking as [| | | | | | b]; cbn [Py.setitem]; try discriminate.
    rewrite bind_lift_res. cbn [Py.setitem]. rewrite bind_lift_res.
    destruct (default (PyList []) (stored_bookings w uid)) as [| | | | | old |] eqn:Hold;
      cbn [py_append]; try discriminate.
    unfold bind, string_param, aws_call, get_table, put_table, ret, raise. cbn.
    destruct (aws_outcome env (S (S (S (step w))))); cbn; try discriminate.
    intros [= <-]. exists uid, b, old. split; [reflexivity |]. split; [reflexivity |].
    split; [left; split; [reflexivity | exact Hold] | reflexivity].
  - rewrite bind_lift_res.
    destruct booking as [| | | | | | b]; cbn [Py.setitem]; try discriminate.
    rewrite bind_lift_res. cbn [Py.setitem]. rewrite bind_lift_res. cbn [py_append].
    unfold bind, string_param, aws_call, get_table, put_table, ret, raise. cbn.
    destruct (aws_outcome env (S (S (S (step w))))); cbn; try discriminate.
    intros [= <-]. exists uid, b, []. split; [reflexivity |]. split; [reflexivity |].
    split; [right; split; reflexivity | reflexivity].
Qed.

(** X19. A booking is appended to the bookings that were read. After a
    [save_booking] that reports success the user id is a string and the
    booking a dict; the bookings stored for the user are a list [old]
    followed by the booking stamped with booking_id (booking_ and the
    clock second) and created_at; [old] is the list stored before
    whenever the read of the user's data went through; [get_bookings]
    gives the new list back whenever its read goes through; and the
    itinerary and preferences of the user and the items of the other
    users are untouched. *)
Theorem X19_booking_is_appended env (user_id booking : pyval) (w w1 : World) :
  save_booking env user_id booking w = (Ok true, w1) ->
  exists uid b old,
    user_id = PyStr uid /\ booking = PyDict b /\
    stored_bookings w1 uid = Some (PyList (old ++ [stamped_booking env w b])) /\
    (aws_outcome env (S (S (step w))) = AwsOk ->
     default (PyList []) (stored_bookings w uid) = PyList old) /\
    (aws_outcome env (step w1) = AwsOk ->
     fst (get_bookings env user_id w1) = Ok (PyList (old ++ [stamped_booking env w b]))) /\
    stored_itinerary w1 uid = stored_itinerary w uid /\
    stored_preferences w1 uid = stored_preferences w uid /\
    (forall other, other <> uid -> table w1 !! other = table w !! other).
Proof.
  intros Hsave.
  destruct (save_booking_done _ _ _ _ _ Hsave) as (uid & b & old & -> & -> & Hread & Ht).
  assert (Hstored : stored_bookings w1 uid
                    = Some (PyList (old ++ [stamped_booking env w b]))).
  { unfold stored_bookings. rewrite Ht, lookup_insert_eq. reflexivity. }
  exists uid, b, old. split; [reflexivity |]. split; [reflexivity |].
  split; [exact Hstored |]. split; [| split; [| split; [| split]]].
  - intros Hok. destruct Hread as [[_ Hold] | [Hfail _]]; [exact Hold | congruence].
  - intros Haws. rewrite (get_bookings_read env uid _ Haws). cbn [fst].
    rewrite Hstored. reflexivity.
  - unfold stored_itinerary. rewrite Ht, lookup_insert_eq.
    destruct (table w !! uid); reflexivity.
  - unfold stored_preferences. rewrite Ht, lookup_insert_eq.
    destruct (table w !! uid); reflexivity.
  - intros other Hne. rewrite Ht, lookup_insert_ne by congruence. reflexivity.
Qed.

Lemma X19_booking_is_appended_witness :
  exists w1,
    save_booking Example.env (PyStr "u1") (PyDict [("type", PyStr "hotel")]) booked_world
    = (Ok true, w1) /\
    fst (get_bookings Example.env (PyStr "u1") w1)
    = Ok (PyList [Example.flight "2026-11-04T10:00:00";
                  stamped_booking Example.env booked_world [("type", PyStr "hotel")]]).
Proof.
  eexists. split; [reflexivity |].
  destruct (X19_booking_is_appended Example.env (PyStr "u1")
              (PyDict [("type", PyStr "hotel")]) booked_world _ eq_refl)
    as (uid & b & old & Huid & Hb & _ & Hold & Hget & _).
  injection Huid as <-. injection Hb as <-.
  specialize (Hold eq_refl). injection Hold as <-.
  apply Hget. reflexivity.
Defined.

(** X20. A booking saved after a failed read replaces the stored ones.
    When the read of the user's data inside [save_booking] fails with a
    ClientError and the write goes through, [save_booking] reports
    success and the bookings stored for the user are the new booking
    alone, whatever was stored before. *)
Theorem X20_failed_read_drops_bookings env (uid : string) (b : list (string * pyval))
    (w : World) :
  aws_outcome env (S (S (step w))) = AwsClientError ->
  aws_outcome env (S (S (S (step w)))) = AwsOk ->
  exists w1,
    save_booking env (PyStr uid) (PyDict b) w = (Ok true, w1) /\
    stored_bookings w1 uid = Some (PyList [stamped_booking env w b]).
Proof.
  intros Hread Hwrite.
  unfold save_booking, try_except_client, try_except.
  rewrite !bind_utcnow, existing_bookings. cbn [tick step]. rewrite Hread.
  rewrite bind_lift_res. cbn [Py.setitem].
  rewrite bind_lift_res. cbn [Py.setitem]. rewrite bind_lift_res. cbn [py_append].
  unfold bind, string_param, aws_call, get_table, put_table, ret, raise. cbn.
  rewrite Hwrite. cbn.
  eexists. split; [reflexivity |].
  unfold stored_bookings. cbn. rewrite lookup_insert_eq. reflexivity.
Qed.

Lemma X20_failed_read_drops_bookings_witness :
  stored_bookings booked_world "u1" = Some (PyList [Example.flight "2026-11-04T10:00:00"]) /\
  exists w1,
    save_booking env_third_fails (PyStr "u1") (PyDict [("type", PyStr "hotel")]) booked_world
    = (Ok true, w1) /\
    stored_bookings w1 "u1"
    = Some (PyList [stamped_booking env_third_fails booked_world [("type", PyStr "hotel")]]).
Proof.
  split; [reflexivity |].
  apply (X20_failed_read_drops_bookings env_third_fails "u1" [("type", PyStr "hotel")]
           booked_world); reflexivity.
Defined.

(** X21. A deleted user reads as an unknown one. After a
    [delete_user_data] that reports success (it does so whether or not
    the user had an item) the user has no item: whenever the read goes
    through, [get_user_data] and [get_itinerary] return None,
    [get_bookings] the empty list and [get_preferences] the empty dict;
    the items of the other users are untouched. *)
Theorem X21_deleted_user_reads_empty env (user_id : pyval) (w w1 : World) :
  delete_user_data env user_id w = (Ok true, w1) ->
  exists uid,
    user_id = PyStr uid /\
    table w1 !! uid = None /\
    (aws_outcome env (step w1) = AwsOk ->
     fst (get_user_data env user_id w1) = Ok PyNone /\
     fst (get_itinerary env user_id w1) = Ok PyNone /\
     fst (get_bookings env user_id w1) = Ok (PyList []) /\
     fst (get_preferences env user_id w1) = Ok (PyDict [])) /\
    (forall other, other <> uid -> table w1 !! other = table w !! other).
Proof.
  unfold delete_user_data, try_except_client, try_except, bind, string_param,
    aws_call, get_table, put_table, ret, raise.
  destruct user_id as [| | | | uid | |]; cbn; try discriminate.
  destruct (aws_outcome env (step w)); cbn; try discriminate.
  intros [= <-]. exists uid. split; [reflexivity |].
  assert (Hgone : table (set_table (delete uid (table w)) (tick w)) !! uid = None).
  { cbn. apply lookup_delete_eq. }
  split; [exact Hgone |]. split.
  - intros Haws.
    rewrite (get_user_data_read env uid _ Haws), (get_itinerary_read env uid _ Haws),
      (get_bookings_read env uid _ Haws), (get_preferences_read env uid _ Haws).
    unfold stored_itinerary, stored_bookings, stored_preferences. rewrite Hgone.
    repeat split.
  - intros other Hne. cbn. apply lookup_delete_ne. congruence.
Qed.

Lemma X21_deleted_user_reads_empty_witness :
  exists w1,
    delete_user_data Example.env (PyStr "u1") booked_world = (Ok true, w1) /\
    fst (get_bookings Example.env (PyStr "u1") w1) = Ok (PyList []).
Proof.
  eexists. split; [reflexivity |].
  destruct (X21_deleted_user_reads_empty Example.env (PyStr "u1") booked_world _ eq_refl)
    as (uid & Huid & _ & Hreads & _).
  destruct (Hreads eq_refl) as (_ & _ & Hb & _). exact Hb.
Defined.

(** ** What an update may change *)

Lemma copy_fields_copies {S} fields itinerary_data k :
  In k fields -> Py.contains k itinerary_data = Ok true ->
  forall existing (s : S) r s',
    copy_fields fields itinerary_data existing s = (Ok r, s') ->
    Py.item r k = Py.item itinerary_data k.
Proof.
  intros Hin Hk. induction fields as [| f rest IH]; [destruct Hin |].
  intros existing s r s'. cbn [copy_fields]. unfold bind, lift_res.
  destruct (String.eqb_spec f k) as [-> | Hne].
  - rewrite Hk.
    destruct (Py.item itinerary_data k) as [v | e]; [| discriminate].
    destruct (Py.setitem existing k v) as [existing' | e] eqn:Hset; [| discriminate].
    intros H. destruct (in_dec string_dec k rest) as [Hrest | Hrest].
    + eapply IH; eassumption.
    + rewrite (copy_fields_keeps rest itinerary_data k (or_introl Hrest) _ _ _ _ H).
      eapply item_setitem_same. exact Hset.
  - assert (Hrest : In k rest) by (destruct Hin; [contradiction | assumption]).
    destruct (Py.contains f itinerary_data) as [[|] | e]; try discriminate.
    + destruct (Py.item itinerary_data f) as [v | e]; [| discriminate].
      destruct (Py.setitem existing f v) as [existing' | e]; [| discriminate].
      apply IH. exact Hrest.
    + apply IH. exact Hrest.
Qed.

Lemma updated_from_copy {S} itinerary_data existing copied (s s' : S) :
  copy_fields updatable_fields itinerary_data existing s = (Ok copied, s') ->
  forall stamped v,
    Py.setitem copied "updated_at" v = Ok stamped ->
    updated_from itinerary_data existing stamped /\
    forall record d,
      Py.setitem stamped "duration_days" d = Ok record ->
      updated_from itinerary_data existing record.
Proof.
  intros Hcopy stamped v Hstamp.
  assert (Hu : ~ In "updated_at" updatable_fields) by (cbn; intuition discriminate).
  pose proof duration_days_not_updatable as Hd.
  assert (Hstamped : updated_from itinerary_data existing stamped).
  { repeat split; intros k.
    - intros Hin Hk.
      rewrite (item_setitem_other _ _ _ _ k Hstamp) by (intros ->; contradiction).
      eapply copy_fields_copies; eassumption.
    - intros Hin Hk.
      rewrite (item_setitem_other _ _ _ _ k Hstamp) by (intros ->; contradiction).
      eapply copy_fields_keeps; [right; exact Hk | exact Hcopy].
    - intros Hin Hne _.
      rewrite (item_setitem_other _ _ _ _ k Hstamp) by assumption.
      eapply copy_fields_keeps; [left; exact Hin | exact Hcopy]. }
  split; [exact Hstamped |].
  intros record d Hset. destruct Hstamped as (H1 & H2 & H3).
  repeat split; intros k.
  - intros Hin Hk.
    rewrite (item_setitem_other _ _ _ _ k Hset) by (intros ->; contradiction).
    apply H1; assumption.
  - intros Hin Hk.
    rewrite (item_setitem_other _ _ _ _ k Hset) by (intros ->; contradiction).
    apply H2; assumption.
  - intros Hin Hne Hne'.
    rewrite (item_setitem_other _ _ _ _ k Hset) by assumption.
    apply H3; assumption.
Qed.

Lemma saved_and_answered env user_id record (err : Response) w resp w1 :
  (let (r, s') :=
     bind (save_itinerary env user_id record)
          (fun success : bool =>
             if success
             then ret (jsonify [("message", PyStr "Itinerary updated successfully");
                                ("itinerary", record)])
             else ret (jsonify_code [("error", PyStr "Failed to update itinerary")] 500)) w in
   match r with
   | Ok a => (Ok a, s')
   | Raise e => (Ok err, s')
   end) = (Ok resp, w1) ->
  status err = 500 ->
  status resp = 200 ->
  exists uid,
    user_id = PyStr uid /\
    stored_itinerary w1 uid = Some record /\
    Py.item (body resp) "itinerary" = Ok record /\
    forall other, other <> uid -> table w1 !! other = table w !! other.
Proof.
  unfold bind.
  destruct (save_itinerary env user_id record w) as [[[|] | e] w2] eqn:Hsave; cbn.
  - intros [= <- <-] _ _.
    pose proof (save_itinerary_done env user_id record w) as Hdone.
    rewrite Hsave in Hdone. cbn [fst snd] in Hdone.
    destruct (Hdone eq_refl) as (uid & -> & _ & _ & Ht).
    exists uid. split; [reflexivity |]. split; [| split; [reflexivity |]].
    + unfold stored_itinerary. rewrite Ht, lookup_insert_eq. reflexivity.
    + intros other Hne. rewrite Ht, lookup_insert_ne by congruence. reflexivity.
  - intros [= <- <-] _ H. discriminate H.
  - intros [= <- <-] H1 H2. congruence.
Qed.

(** What an update that answers 200 read, stored and answered. *)
Lemma update_itinerary_record env (user_id itinerary_data : pyval)
    (w : World) (resp : Response) (w1 : World) :
  update_itinerary env user_id itinerary_data w = (Ok resp, w1) ->
  status resp = 200 ->
  exists uid existing updated,
    user_id = PyStr uid /\
    stored_itinerary w uid = Some existing /\
    stored_itinerary w1 uid = Some updated /\
    Py.item (body resp) "itinerary" = Ok updated /\
    updated_from itinerary_data existing updated /\
    (forall other, other <> uid -> table w1 !! other = table w !! other) /\
    (Py.contains "start_date" itinerary_data = Ok true \/
     Py.contains "end_date" itinerary_data = Ok true ->
     duration_invariant env updated) /\
    (Py.contains "start_date" itinerary_data = Ok false ->
     Py.contains "end_date" itinerary_data = Ok false ->
     Py.item updated "duration_days" = Py.item existing "duration_days").
Proof.
  unfold update_itinerary, try_except. unfold bind at 1.
  destruct (get_itinerary env user_id w) as [[existing | e] w0] eqn:Hget;
    [| intros [= <- <-] H; discriminate H].
  destruct (Py.truthy existing) eqn:Htruthy; cbn [negb];
    [| intros [= <- <-] H; discriminate H].
  destruct (get_itinerary_found _ _ _ _ _ Hget Htruthy) as (Ht0 & uid & Huid & Hstored).
  unfold bind at 1.
  pose proof (copy_fields_state updatable_fields itinerary_data existing w0) as Hstate.
  destruct (copy_fields updatable_fields itinerary_data existing w0)
    as [[copied | e] w2] eqn:Hcopy; cbn [snd] in Hstate; subst w2;
    [| intros [= <- <-] H; discriminate H].
  rewrite bind_utcnow, bind_lift_res.
  destruct (Py.setitem copied "updated_at" _) as [stamped | e] eqn:Hstamp;
    [| intros [= <- <-] H; discriminate H].
  destruct (updated_from_copy _ _ _ _ _ Hcopy _ _ Hstamp) as (Hstamped & Hrecord).
  assert (Hfinish :
            forall record w3 (err : Response),
              table w3 = table w -> status err = 500 ->
              updated_from itinerary_data existing record ->
              (Py.contains "start_date" itinerary_data = Ok true \/
               Py.contains "end_date" itinerary_data = Ok true ->
               duration_invariant env record) ->
              (Py.contains "start_date" itinerary_data = Ok false ->
               Py.contains "end_date" itinerary_data = Ok false ->
               Py.item record "duration_days" = Py.item existing "duration_days") ->
              (let (r, s') :=
                 bind (save_itinerary env user_id record)
                      (fun success : bool =>
                         if success
                         then ret (jsonify [("message", PyStr "Itinerary updated successfully");
                                            ("itinerary", record)])
                         else ret (jsonify_code
                                     [("error", PyStr "Failed to update itinerary")] 500)) w3 in
               match r with
               | Ok a => (Ok a, s')
               | Raise e => (Ok err, s')
               end) = (Ok resp, w1) ->
              status resp = 200 ->
              exists uid existing updated,
                user_id = PyStr uid /\
                stored_itinerary w uid = Some existing /\
                stored_itinerary w1 uid = Some updated /\
                Py.item (body resp) "itinerary" = Ok updated /\
                updated_from itinerary_data existing updated /\
                (forall other, other <> uid -> table w1 !! other = table w !! other) /\
                (Py.contains "start_date" itinerary_data = Ok true \/
                 Py.contains "end_date" itinerary_data = Ok true ->
                 duration_invariant env updated) /\
                (Py.contains "start_date" itinerary_data = Ok false ->
                 Py.contains "end_date" itinerary_data = Ok false ->
                 Py.item updated "duration_days" = Py.item existing "duration_days")).
  { intros record w3 err Ht Herr Hfrom Hinv Hcase Hrun Hok.
    destruct (saved_and_answered _ _ _ _ _ _ _ Hrun Herr Hok)
      as (uid' & Hu' & Hs' & Hb' & Ho').
    assert (uid' = uid) as -> by congruence.
    exists uid, existing, record.
    split; [assumption |]. split; [assumption |]. split; [assumption |].
    split; [assumption |]. split; [exact Hfrom |].
    split; [| split; [exact Hinv | exact Hcase]].
    intros other Hne. rewrite (Ho' other Hne). unfold lookup. rewrite Ht. reflexivity. }
  assert (Hrecompute :
            Py.contains "start_date" itinerary_data = Ok true \/
            Py.contains "end_date" itinerary_data = Ok true ->
            (let (r, s') :=
               bind (start_field <- lift_res (Py.item stamped "start_date") ;;
                     end_field <- lift_res (Py.item stamped "end_date") ;;
                     duration <- trip_duration env start_field end_field ;;
                     lift_res (Py.setitem stamped "duration_days" (PyInt duration)))
                    (fun existing_itinerary =>
                       success <- save_itinerary env user_id existing_itinerary ;;
                       if success : bool
                       then ret (jsonify [("message", PyStr "Itinerary updated successfully");
                                          ("itinerary", existing_itinerary)])
                       else ret (jsonify_code
                                   [("error", PyStr "Failed to update itinerary")] 500))
                    (tick w0) in
             match r with
             | Ok a => (Ok a, s')
             | Raise e => (Ok (jsonify_code [("error", PyStr "Itinerary update error")] 500), s')
             end) = (Ok resp, w1) ->
            status resp = 200 ->
            exists uid existing updated,
              user_id = PyStr uid /\
              stored_itinerary w uid = Some existing /\
              stored_itinerary w1 uid = Some updated /\
              Py.item (body resp) "itinerary" = Ok updated /\
              updated_from itinerary_data existing updated /\
              (forall other, other <> uid -> table w1 !! other = table w !! other) /\
              (Py.contains "start_date" itinerary_data = Ok true \/
               Py.contains "end_date" itinerary_data = Ok true ->
               duration_invariant env updated) /\
              (Py.contains "start_date" itinerary_data = Ok false ->
               Py.contains "end_date" itinerary_data = Ok false ->
               Py.item updated "duration_days" = Py.item existing "duration_days")).
  { intros Hdates. rewrite bind_assoc, bind_lift_res.
    destruct (Py.item stamped "start_date") as [start_field | e] eqn:Hstart;
      [| intros [= <- <-] H; discriminate H].
    rewrite bind_assoc, bind_lift_res.
    destruct (Py.item stamped "end_date") as [end_field | e] eqn:Hend;
      [| intros [= <- <-] H; discriminate H].
    rewrite bind_assoc.
    rewrite (bind_pure _ _ _ _ (trip_duration_pure env start_field end_field)).
    destruct (fst (trip_duration env start_field end_field tt)) as [duration | e] eqn:Hduration;
      [| intros [= <- <-] H; discriminate H].
    rewrite bind_lift_res.
    destruct (Py.setitem stamped "duration_days" _) as [record | e] eqn:Hset;
      [| intros [= <- <-] H; discriminate H].
    apply Hfinish; [exact Ht0 | reflexivity | eapply Hrecord; exact Hset | |].
    - intros _. eapply recomputed_invariant; eassumption.
    - intros Hs He. destruct Hdates as [H | H]; congruence. }
  rewrite bind_lift_res.
  destruct (Py.contains "start_date" itinerary_data) as [[|] | e];
    [| | intros [= <- <-] H; discriminate H].
  - rewrite bind_ret. apply Hrecompute. left. reflexivity.
  - rewrite bind_lift_res.
    destruct (Py.contains "end_date" itinerary_data) as [[|] | e];
      [| | intros [= <- <-] H; discriminate H].
    + apply Hrecompute. right. reflexivity.
    + rewrite bind_ret.
      apply Hfinish; [exact Ht0 | reflexivity | exact Hstamped | |].
      * intros [H | H]; discriminate H.
      * intros _ _.
        rewrite (item_setitem_other _ _ _ _ "duration_days" Hstamp) by discriminate.
        eapply copy_fields_keeps;
          [left; apply duration_days_not_updatable | exact Hcopy].
Qed.

(** X22. An update changes the updatable fields only. When
    [update_itinerary] answers 200, the user had a stored itinerary, and
    the itinerary now stored (the one the response carries) takes from
    the request exactly the updatable fields the request has; every
    other field but updated_at and duration_days, in particular user_id,
    itinerary_id, created_at and status, is the stored one, whatever the
    request says. The items of the other users are untouched. *)
Theorem X22_update_changes_updatable_fields_only env (user_id itinerary_data : pyval)
    (w : World) (resp : Response) (w1 : World) :
  update_itinerary env user_id itinerary_data w = (Ok resp, w1) ->
  status resp = 200 ->
  exists uid existing updated,
    user_id = PyStr uid /\
    stored_itinerary w uid = Some existing /\
    stored_itinerary w1 uid = Some updated /\
    Py.item (body resp) "itinerary" = Ok updated /\
    updated_from itinerary_data existing updated /\
    (forall other, other <> uid -> table w1 !! other = table w !! other).
Proof.
  intros Hrun Hok.
  destruct (update_itinerary_record _ _ _ _ _ _ Hrun Hok)
    as (uid & existing & updated & H1 & H2 & H3 & H4 & H5 & H6 & _).
  exists uid, existing, updated. repeat split; try assumption; apply H5.
Qed.

Lemma X22_update_changes_updatable_fields_only_witness :
  exists resp w1 updated,
    update_itinerary Example.env (PyStr "u1") rename_request Example.itinerary_world
    = (Ok resp, w1) /\
    status resp = 200 /\
    stored_itinerary w1 "u1" = Some updated /\
    Py.item updated "title" = Ok (PyStr "Rome") /\
    Py.item updated "status" = Raise KeyError /\
    Py.item updated "start_date" = Ok (PyStr "2026-11-05").
Proof.
  pose proof (X22_update_changes_updatable_fields_only Example.env (PyStr "u1")
                rename_request Example.itinerary_world) as H.
  destruct (update_itinerary Example.env (PyStr "u1") rename_request
              Example.itinerary_world) as [r w1] eqn:E.
  vm_compute in E. injection E as <- <-.
  destruct (H _ _ eq_refl eq_refl)
    as (uid & existing & updated & Huid & Hex & Hup & _ & (H1 & H2 & H3) & _).
  injection Huid as <-. vm_compute in Hex. injection Hex as <-.
  eexists _, _, updated. split; [reflexivity |]. split; [reflexivity |].
  split; [exact Hup |]. split; [| split].
  - rewrite (H1 "title"); [reflexivity | cbn; tauto | reflexivity].
  - rewrite (H3 "status"); [reflexivity | cbn; intuition discriminate
                            | discriminate | discriminate].
  - rewrite (H2 "start_date"); [reflexivity | cbn; tauto | reflexivity].
Defined.

(** ** The duration of a stored itinerary *)

Lemma same_fields_same_invariant env a b :
  Py.item b "start_date" = Py.item a "start_date" ->
  Py.item b "end_date" = Py.item a "end_date" ->
  Py.item b "duration_days" = Py.item a "duration_days" ->
  duration_invariant env b <-> duration_invariant env a.
Proof.
  intros H1 H2 H3. split; apply duration_invariant_same_fields; congruence.
Qed.

(** C7. The records [create_itinerary] and [update_itinerary] store.
    When [create_itinerary] answers 200, the record of the response is
    stored for the user and its duration_days is
    (end_date - start_date).days + 1. When [update_itinerary] answers
    200, the record of the response is stored in place of the existing
    one; it has the invariant whenever the request has a start_date or
    an end_date, the duration being recomputed from the dates of the
    updated record; when the request has neither, the dates and the
    duration of the existing record are stored unchanged, so the record
    has the invariant exactly when the existing one had it. Whatever
    they answer, both handlers leave the table as it was or store such a
    record for the user alone; hence both keep the invariant of the
    store: when every stored itinerary record has it before the call,
    every one has it after. *)
Theorem C7_duration_invariant env (user_id itinerary_data : pyval) (w : World) :
  (forall resp,
      fst (create_itinerary env user_id itinerary_data w) = Ok resp ->
      status resp = 200 ->
      exists uid record,
        user_id = PyStr uid /\
        stored_itinerary (snd (create_itinerary env user_id itinerary_data w)) uid
        = Some record /\
        Py.item (body resp) "itinerary" = Ok record /\
        duration_invariant env record) /\
  (forall resp,
      fst (update_itinerary env user_id itinerary_data w) = Ok resp ->
      status resp = 200 ->
      exists uid existing record,
        user_id = PyStr uid /\
        stored_itinerary w uid = Some existing /\
        stored_itinerary (snd (update_itinerary env user_id itinerary_data w)) uid
        = Some record /\
        Py.item (body resp) "itinerary" = Ok record /\
        (Py.contains "start_date" itinerary_data = Ok true \/
         Py.contains "end_date" itinerary_data = Ok true ->
         duration_invariant env record) /\
        (Py.contains "start_date" itinerary_data = Ok false ->
         Py.contains "end_date" itinerary_data = Ok false ->
         Py.item record "start_date" = Py.item existing "start_date" /\
         Py.item record "end_date" = Py.item existing "end_date" /\
         Py.item record "duration_days" = Py.item existing "duration_days" /\
         (duration_invariant env record <-> duration_invariant env existing))) /\
  stores_sound_record env user_id w
    (snd (create_itinerary env user_id itinerary_data w)) /\
  updates_soundly env user_id itinerary_data w
    (snd (update_itinerary env user_id itinerary_data w)) /\
  (store_invariant env w ->
   store_invariant env (snd (create_itinerary env user_id itinerary_data w)) /\
   store_invariant env (snd (update_itinerary env user_id itinerary_data w))).
Proof.
  split; [| split; [| split; [apply create_itinerary_sound |
                              split; [apply update_itinerary_sound |]]]].
  - intros resp Hresp H200.
    destruct (create_itinerary_record env user_id itinerary_data w resp Hresp H200)
      as (uid & record & destination & duration & w1 & -> & -> & Hstored & _ & _ & _ & _ & Hinv).
    exists uid, (PyDict record). split; [reflexivity |]. split; [exact Hstored |].
    split; [reflexivity | exact Hinv].
  - intros resp Hresp H200.
    destruct (update_itinerary env user_id itinerary_data w) as [r w1] eqn:Hrun.
    cbn [fst snd] in *. subst r.
    destruct (update_itinerary_record _ _ _ _ _ _ Hrun H200)
      as (uid & existing & updated & -> & Hex & Hup & Hbody & (_ & Hsame & _) & _ & Hinv & Hkeep).
    exists uid, existing, updated. split; [reflexivity |]. split; [exact Hex |].
    split; [exact Hup |]. split; [exact Hbody |]. split; [exact Hinv |].
    intros Hs He.
    assert (H1 : Py.item updated "start_date" = Py.item existing "start_date")
      by (apply Hsame; [cbn; tauto | exact Hs]).
    assert (H2 : Py.item updated "end_date" = Py.item existing "end_date")
      by (apply Hsame; [cbn; tauto | exact He]).
    assert (H3 : Py.item updated "duration_days" = Py.item existing "duration_days")
      by (apply Hkeep; assumption).
    split; [exact H1 |]. split; [exact H2 |]. split; [exact H3 |].
    apply same_fields_same_invariant; assumption.
  - intros Hinv.
    split; [apply create_itinerary_preserves | apply update_itinerary_preserves];
      exact Hinv.
Qed.

Lemma C7_duration_invariant_witness :
  exists resp record,
    fst (update_itinerary Example.env (PyStr "u1")
           (PyDict [("end_date", PyStr "2026-11-09")]) Example.itinerary_world) = Ok resp /\
    status resp = 200 /\
    stored_itinerary
      (snd (update_itinerary Example.env (PyStr "u1")
              (PyDict [("end_date", PyStr "2026-11-09")]) Example.itinerary_world))
      "u1" = Some record /\
    Py.item record "duration_days" = Ok (PyInt 5) /\
    duration_invariant Example.env record.
Proof.
  pose proof (proj1 (proj2 (C7_duration_invariant Example.env (PyStr "u1")
                              (PyDict [("end_date", PyStr "2026-11-09")])
                              Example.itinerary_world))) as H.
  destruct (update_itinerary Example.env (PyStr "u1")
              (PyDict [("end_date", PyStr "2026-11-09")]) Example.itinerary_world)
    as [[resp | e] w'] eqn:E; vm_compute in E; [| discriminate].
  injection E as <- <-. cbn [fst snd] in H |- *.
  destruct (H _ eq_refl eq_refl)
    as (uid & existing & record & Hu & _ & Hs & Hb & Hinv & _).
  injection Hu as <-. injection Hb as <-.
  eexists _, _. split; [reflexivity |]. split; [reflexivity |].
  split; [exact Hs |]. split; [reflexivity |]. apply Hinv. right. reflexivity.
Defined.

(** A stored record need not have the invariant after an update. The
    itinerary stored for u1 has a duration_days of 2.5 for dates one day
    apart; an update of its title alone answers 200 and stores the
    renamed record with the same dates and the same duration_days. *)
Lemma C7_title_update_stores_other_duration :
  exists resp w' record,
    update_itinerary Example.env (PyStr "u1") (PyDict [("title", PyStr "Rome")])
      generated_world = (Ok resp, w') /\
    status resp = 200 /\
    stored_itinerary w' "u1" = Some record /\
    Py.item record "title" = Ok (PyStr "Rome") /\
    Py.item record "duration_days" = Ok (PyFloat (F64.lit 25 10)) /\
    fst (trip_duration Example.env (PyStr "2026-11-05T00:00:00")
           (PyStr "2026-11-06T12:00:00") tt) = Ok 2 /\
    ~ duration_invariant Example.env record.
Proof.
  eexists _, _, _. split; [vm_compute; reflexivity |]. split; [reflexivity |].
  split; [vm_compute; reflexivity |]. split; [reflexivity |]. split; [reflexivity |].
  split; [vm_compute; reflexivity |].
  intros (s & e & d & _ & _ & _ & Hd). vm_compute in Hd. discriminate.
Qed.

(** ** One weather alert a day *)







